(** * Super13: the raster converter and the two chat servers

    A shallow embedding of the three Python sources

      - [src/converters/raster2svg.py]      (module [Raster2Svg]),
      - [src/server/g4f_python_provider.py] (module [G4fPythonProvider]),
      - [src/server/stream_server.py]       (module [StreamServer]),

    in Part I, and the properties of the specification stated and settled
    over it in Part II.

    How the Python is read.

    - A [str] is a [string] holding its UTF-8 bytes: searching a
      substring in the bytes of valid UTF-8 is searching it in the code
      points.  [str.lower] is modelled on ASCII and on the Russian
      alphabet, which is what the keyword lists of the sources are
      written in.
    - A timeout of the dispatcher is a Python number of seconds, held as
      the IEEE double of its value ([float]): the integers 20, 30, 45
      and 60 are exact, and the millisecond count of a request is
      converted by [float()] and divided by 1000 as Python does it, with
      NaN, infinities, rounding, underflow and [OverflowError].
      [chat_direct] does no arithmetic on its timeout, which is kept as
      the rational [Q] it denotes; so are the readings of the clock and
      the elapsed times.
    - A dict whose keys are written out in the source is a record; a key
      that some dicts of the kind lack is an [option] field.  The
      provider tables are [gmap]s from names.
    - [g4f.ChatCompletion.create] and [time.time] are oracles over an
      abstract world that every call may change.  A call either returns
      an object or raises an [Exception]; the object is seen through
      [str()] and through iteration, which yields finitely many chunks,
      all of them [str], and then stops or raises.
    - Every [create] call is logged with its outcome, so that a property
      can speak of the attempts of a run.  [print] and [logging] output
      is not modelled.
    - The body of a request is a JSON object.  Its message is a string
      when it holds one; its provider is a string, a list or an object;
      its timeout is any JSON value, seen through [float()].
    - [get_chat_response] is the function from line 26 on, called with
      a provider that is [None] or a [str].  What lines 21-42 raise
      before the [try], when the import of line 24 fails or the provider
      cannot be hashed, is [preamble]; [chat] and the event stream of
      [chat_stream] run it first.
    - The module [g4f.Provider] is the finite map of its attributes, as
      [getattr] and [hasattr] see them, together with the list
      [dir(g4f.Provider)]; calling an attribute is an oracle like
      [create].  [random.choice] is an oracle over its own world.
    - [download_image] hands [simple_trace] what it reads of the image,
      its size and its grayscale array, or ends the process. *)

From Stdlib Require Import ZArith QArith Ascii String DecimalString Floats.
From stdpp Require Import gmap strings list sorting.

Local Open Scope string_scope.
Local Open Scope list_scope.
Local Open Scope Z_scope.

(** * Part I: the programs *)

(** ** Python's [str] operations used by the servers *)

Module Py.

Definition code (a : ascii) : N := N_of_ascii a.

Definition between (lo hi : N) (a : ascii) : bool :=
  ((lo <=? code a) && (code a <=? hi))%N.

Definition shifted (a : ascii) (d : Z) : ascii :=
  ascii_of_N (Z.to_N (Z.of_N (code a) + d)).

(** [s.lower()] on the UTF-8 bytes, for the letters the sources' keyword
    lists are written in: ASCII [A-Z], and the Cyrillic capitals U+0400 to
    U+042F (lead byte D0): U+0400..040F go to U+0450..045F, U+0410..041F
    to U+0430..043F and U+0420..042F to U+0440..044F.  Every other code
    point is left as it is. *)
Fixpoint lower (s : string) : string :=
  match s with
  | EmptyString => EmptyString
  | String a s' =>
      if between 65 90 a then String (shifted a 32) (lower s')
      else if between 208 208 a then
        match s' with
        | String b s'' =>
            if between 128 143 b then
              String (ascii_of_N 209) (String (shifted b 16) (lower s''))
            else if between 144 159 b then
              String a (String (shifted b 32) (lower s''))
            else if between 160 175 b then
              String (ascii_of_N 209) (String (shifted b (-32)) (lower s''))
            else String a (lower s')
        | EmptyString => String a EmptyString
        end
      else String a (lower s')
  end.

(** [sub in s]. *)
Fixpoint contains (sub s : string) : bool :=
  String.prefix sub s ||
  match s with
  | EmptyString => false
  | String _ s' => contains sub s'
  end.

(** [s.endswith(suffix)]. *)
Fixpoint endswith (suffix s : string) : bool :=
  String.eqb s suffix ||
  match s with
  | EmptyString => false
  | String _ s' => endswith suffix s'
  end.

(** [s[:n]]: the first [n] code points, that is the bytes before the
    [n+1]-st byte that is not a continuation byte (10xxxxxx). *)
Fixpoint slice_to (n : nat) (s : string) : string :=
  match s with
  | EmptyString => EmptyString
  | String a s' =>
      if between 128 191 a then String a (slice_to n s')
      else match n with
           | O => EmptyString
           | S n' => String a (slice_to n' s')
           end
  end.

(** [''.join(parts)]. *)
Definition join (parts : list string) : string := foldr String.append "" parts.

(** [any(word in s for word in words)]. *)
Definition any_in (words : list string) (s : string) : bool :=
  existsb (λ word, contains word s) words.

(** [max(a, b)] of two numbers: Python keeps [a] unless [b > a]. *)
Definition max (a b : float) : float := if PrimFloat.ltb a b then b else a.

(** [len(s)]: the number of code points, that is of the bytes that are
    not continuation bytes. *)
Fixpoint len (s : string) : nat :=
  match s with
  | EmptyString => O
  | String a s' => if between 128 191 a then len s' else S (len s')
  end.

End Py.

(** ** src/converters/raster2svg.py *)

Module Raster2Svg.

(** What [simple_trace] reads of the image once [image.convert('L')] and
    [np.array] have run: [size] is PIL's [(width, height)] and
    [img_array] the rows of the grayscale array, of shape
    [(height, width)]. *)
Record gray_image : Type := GrayImage {
  size : Z * Z;
  img_array : list (list Z)
}.

Definition width (img : gray_image) : Z := (size img).1.
Definition height (img : gray_image) : Z := (size img).2.

(** PIL and NumPy agree on the shape: [height] rows of [width] pixels. *)
Definition shape_ok (img : gray_image) : Prop :=
  0 ≤ width img ∧ 0 ≤ height img ∧
  length (img_array img) = Z.to_nat (height img) ∧
  Forall (λ row, length row = Z.to_nat (width img)) (img_array img).

(** [range(lo, hi)]. *)
Definition range (lo hi : Z) : list Z := seqZ lo (hi - lo).

(** NumPy's index rule along one axis of length [n]: a negative index
    counts from the end, anything outside [-n .. n-1] is an IndexError. *)
Definition axis_index (n i : Z) : option nat :=
  if bool_decide (0 ≤ i < n) then Some (Z.to_nat i)
  else if bool_decide (- n ≤ i < 0) then Some (Z.to_nat (i + n))
  else None.

(** [a[y, x]] on a two-dimensional array; [None] is the IndexError. *)
Definition index2 {A : Type} (a : list (list A)) (y x : Z) : option A :=
  iy ← axis_index (Z.of_nat (length a)) y;
  row ← a !! iy;
  ix ← axis_index (Z.of_nat (length row)) x;
  row !! ix.

(** [binary = img_array < threshold]. *)
Definition binarize (a : list (list Z)) (threshold : Z) : list (list bool) :=
  map (map (λ v, bool_decide (v < threshold))) a.

(** The test of one pixel, lines 38-40, with Python's short-circuit
    [or]: a later neighbour is read only when the earlier ones are dark. *)
Definition is_contour (binary : list (list bool)) (y x : Z) : option bool :=
  c ← index2 binary y x;
  if (c : bool) then
    up ← index2 binary (y - 1) x;
    if negb up then Some true else
    down ← index2 binary (y + 1) x;
    if negb down then Some true else
    left ← index2 binary y (x - 1);
    if negb left then Some true else
    right ← index2 binary y (x + 1);
    Some (negb right)
  else Some false.

(** The inner loop [for x in range(1, width - 1)] over one row, threading
    the list [paths] it appends to. *)
Fixpoint scan_row (binary : list (list bool)) (y : Z) (xs : list Z)
    (paths : list (Z * Z)) : option (list (Z * Z)) :=
  match xs with
  | [] => Some paths
  | x :: xs' =>
      hit ← is_contour binary y x;
      scan_row binary y xs' (if (hit : bool) then paths ++ [(x, y)] else paths)
  end.

(** The outer loop [for y in range(1, height - 1)]. *)
Fixpoint scan_rows (binary : list (list bool)) (ys xs : list Z)
    (paths : list (Z * Z)) : option (list (Z * Z)) :=
  match ys with
  | [] => Some paths
  | y :: ys' =>
      paths' ← scan_row binary y xs paths;
      scan_rows binary ys' xs paths'
  end.

(** [simple_trace(image, threshold)]; the default threshold is 128. *)
Definition default_threshold : Z := 128.

Definition simple_trace (img : gray_image) (threshold : Z)
    : option (list (Z * Z) * Z * Z) :=
  let '(width, height) := size img in
  let binary := binarize (img_array img) threshold in
  paths ← scan_rows binary (range 1 (height - 1)) (range 1 (width - 1)) [];
  Some (paths, width, height).

(** The grayscale value at column [x] of row [y], when there is one. *)
Definition pixel (img : gray_image) (x y : Z) : option Z :=
  if bool_decide (0 ≤ x ∧ 0 ≤ y) then
    img_array img !! Z.to_nat y ≫= (.!! Z.to_nat x)
  else None.

(** The four orthogonal neighbours of [(x, y)]. *)
Definition neighbours (x y : Z) : list (Z * Z) :=
  [(x, y - 1); (x, y + 1); (x - 1, y); (x + 1, y)].

(** What the claim says of one traced point. *)
Definition interior_contour (img : gray_image) (threshold : Z) (p : Z * Z) : Prop :=
  let '(x, y) := p in
  (1 ≤ x ≤ width img - 2) ∧ (1 ≤ y ≤ height img - 2) ∧
  (∃ v, pixel img x y = Some v ∧ v < threshold) ∧
  (∃ q v, q ∈ neighbours x y ∧ pixel img q.1 q.2 = Some v ∧ ¬ v < threshold).

(** A pixel of the outermost rows and columns. *)
Definition on_border (img : gray_image) (p : Z * Z) : Prop :=
  p.1 = 0 ∨ p.1 = width img - 1 ∨ p.2 = 0 ∨ p.2 = height img - 1.

(** A 4x4 image with a dark 2x2 block in the middle. *)
Definition sample : gray_image :=
  GrayImage (4, 4)
    [[200; 200; 200; 200];
     [200;  10;  20; 200];
     [200;  30;  40; 200];
     [200; 200; 200; 200]].

(** *** Reading the trace *)

(** Whether the pixel at column [x] of row [y] is below the threshold,
    that is [binary[y, x]]; a position outside the image is not. *)
Definition dark (img : gray_image) (threshold : Z) (x y : Z) : bool :=
  match pixel img x y with
  | Some v => bool_decide (v < threshold)
  | None => false
  end.

(** The test of lines 38-40 on the image: the pixel is dark and its four
    orthogonal neighbours are not all dark. *)
Definition on_contour (img : gray_image) (threshold : Z) (p : Z * Z) : bool :=
  dark img threshold p.1 p.2 &&
  negb (dark img threshold p.1 (p.2 - 1) && dark img threshold p.1 (p.2 + 1) &&
        dark img threshold (p.1 - 1) p.2 && dark img threshold (p.1 + 1) p.2).

(** The order in which the two loops visit the pixels: row by row, and
    from left to right within a row. *)
Definition scanned_before (p q : Z * Z) : Prop :=
  p.2 < q.2 ∨ (p.2 = q.2 ∧ p.1 < q.1).

(** *** [create_simple_svg] *)

(** A double quote. *)
Definition dq : string := String (ascii_of_N 34) EmptyString.

Definition quoted (s : string) : string := dq +:+ s +:+ dq.

(** [f"{n}"] for an [int]. *)
Definition str_int (n : Z) : string := NilZero.string_of_int (Z.to_int n).

(** [f"{width/2}"]: the true division makes a float, printed with one
    decimal.  This is what Python prints for [0 <= width < 10**16]. *)
Definition str_half (width : Z) : string :=
  str_int (width / 2) +:+ (if Z.even width then ".0" else ".5").

(** Line 76. *)
Definition circle (p : Z * Z) : string :=
  "  <circle cx=" +:+ quoted (str_int p.1) +:+ " cy=" +:+ quoted (str_int p.2) +:+
  " r=" +:+ quoted "1" +:+ " />".

(** The loop of lines 74-76 over [enumerate(paths[:1000])], from index
    [i] on: the lines it appends. *)
Fixpoint every_tenth (i : nat) (points : list (Z * Z)) : list string :=
  match points with
  | [] => []
  | p :: rest =>
      if Nat.eqb (i mod 10) 0 then circle p :: every_tenth (S i) rest
      else every_tenth (S i) rest
  end.

Definition circles (paths : list (Z * Z)) : list string :=
  every_tenth 0 (take 1000 paths).

(** Lines 56-84: the lines of the SVG for an image of the given size. *)
Definition svg_lines (image_url : string) (width height : Z)
    (paths : list (Z * Z)) : list string :=
  ["<svg xmlns=" +:+ quoted "http://www.w3.org/2000/svg" +:+
     " width=" +:+ quoted (str_int width) +:+
     " height=" +:+ quoted (str_int height) +:+
     " viewBox=" +:+ quoted ("0 0 " +:+ str_int width +:+ " " +:+ str_int height) +:+ ">";
   "<defs>";
   "  <filter id=" +:+ quoted "posterize" +:+ ">";
   "    <feComponentTransfer>";
   "      <feFuncR type=" +:+ quoted "discrete" +:+ " tableValues=" +:+
     quoted "0 0.25 0.5 0.75 1" +:+ " />";
   "      <feFuncG type=" +:+ quoted "discrete" +:+ " tableValues=" +:+
     quoted "0 0.25 0.5 0.75 1" +:+ " />";
   "      <feFuncB type=" +:+ quoted "discrete" +:+ " tableValues=" +:+
     quoted "0 0.25 0.5 0.75 1" +:+ " />";
   "    </feComponentTransfer>";
   "  </filter>";
   "</defs>";
   "<image href=" +:+ quoted image_url +:+ " width=" +:+ quoted (str_int width) +:+
     " height=" +:+ quoted (str_int height) +:+ " filter=" +:+
     quoted "url(#posterize)" +:+ " />";
   "<g fill=" +:+ quoted "none" +:+ " stroke=" +:+ quoted "rgba(255, 75, 43, 0.5)" +:+
     " stroke-width=" +:+ quoted "1" +:+ ">"] ++
  circles paths ++
  ["</g>";
   "<rect x=" +:+ quoted "0" +:+ " y=" +:+ quoted (str_int (height - 50)) +:+
     " width=" +:+ quoted (str_int width) +:+ " height=" +:+ quoted "50" +:+
     " fill=" +:+ quoted "rgba(0,0,0,0.7)" +:+ " />";
   "<text x=" +:+ quoted (str_half width) +:+ " y=" +:+ quoted (str_int (height - 20)) +:+
     " font-family=" +:+ quoted "Arial" +:+ " font-size=" +:+ quoted "24" +:+
     " text-anchor=" +:+ quoted "middle" +:+ " fill=" +:+ quoted "#FF4B2B" +:+
     " font-weight=" +:+ quoted "bold" +:+ ">BOOOMERANGS</text>";
   "</svg>"].

(** ['\n'.join(lines)]. *)
Fixpoint join_lines (lines : list string) : string :=
  match lines with
  | [] => ""
  | [line] => line
  | line :: rest => line +:+ String (ascii_of_N 10) (join_lines rest)
  end.

(** [create_simple_svg(image_url)].  [download_image] hands over the
    image as [simple_trace] reads it, or [None] when it ends the process
    with [sys.exit(1)]; [None] is that exit here too, also after an
    exception inside the [try] block. *)
Definition create_simple_svg (download_image : string → option gray_image)
    (image_url : string) : option string :=
  image ← download_image image_url;
  let '(width, height) := size image in
  traced ← simple_trace image default_threshold;
  let '(paths, img_width, img_height) := traced in
  Some (join_lines (svg_lines image_url width height paths)).

(** [main()] with [sys.argv = argv]: the exit status and what is
    printed on standard output. *)
Definition main (download_image : string → option gray_image)
    (argv : list string) : Z * option string :=
  match argv with
  | [_; image_url] =>
      match create_simple_svg download_image image_url with
      | Some svg => (0, Some svg)
      | None => (1, None)
      end
  | _ => (1, None)
  end.

(** A 2x2 image: it has no interior. *)
Definition tiny : gray_image := GrayImage (2, 2) [[0; 255]; [255; 0]].

(** A network on which one address holds an image, and no other does. *)
Definition only_at (image_url : string) (img : gray_image)
    : string → option gray_image :=
  λ url, if String.eqb url image_url then Some img else None.

End Raster2Svg.

(** ** src/server/g4f_python_provider.py *)

Module G4fPythonProvider.

(** The provider classes imported from [g4f.Provider] (line 24). *)
Inductive capability : Type :=
  | FreeGpt | HuggingChat | DeepInfra | You
  | Qwen_Qwen_2_5_Max | Qwen_Qwen_2_5 | Qwen_Qwen_2_5M | Qwen_Qwen_2_72B.

Global Instance capability_eq_dec : EqDecision capability.
Proof. solve_decision. Defined.

(** What the servers observe of the object [ChatCompletion.create]
    returns: [str(response)], and, when it is iterated, the chunks it
    yields followed by normal exhaustion ([None]) or by an exception
    ([Some] of its message). *)
Record response_object : Type := ResponseObject {
  str : string;
  chunks : list string;
  raises : option string
}.

(** The keyword arguments of one [g4f.ChatCompletion.create] call;
    [c_message] is the content of the single user message. *)
Record call : Type := Call {
  c_model : string;
  c_message : string;
  c_provider : option capability;
  c_stream : bool;
  c_timeout : float
}.

(** A call returns an object or raises an [Exception] with a message. *)
Inductive outcome : Type :=
  | Returned (response : response_object)
  | Raised (error : string).

Definition failed (a : call * outcome) : Prop :=
  match a.2 with Raised _ => True | Returned _ => False end.

Definition succeeded (a : call * outcome) : Prop :=
  match a.2 with Returned _ => True | Raised _ => False end.

(** The dict [get_chat_response] returns.  A key the dict does not hold
    is [None]; ["provider"], ["model"] and ["elapsed"] are in every dict
    the function builds.  No dict it builds has the key ["error"]. *)
Record result : Type := Result {
  r_streaming : option bool;
  r_success : option bool;
  r_response : option string;
  r_provider : string;
  r_model : string;
  r_response_stream : option response_object;
  r_elapsed : Q;
  r_error : option string
}.

(** The payload of one server-sent event, [data: <json>\n\n], by the
    keys of the dict that is dumped. *)
Inductive frame : Type :=
  | StartEvent (provider : string)
  | ChunkEvent (chunk provider : string)
  | ErrorEvent (error : string)
  | ErrorTextEvent (error : option string) (text provider : string)
  | TextEvent (text : option string) (provider : string)
  | DoneEvent (full_text : option string) (provider model : string) (elapsed : Q).

Definition is_chunk_event (f : frame) : bool :=
  match f with ChunkEvent _ _ => true | _ => false end.



(** A field of the JSON body of a request: missing, [null], or a value. *)
Inductive field (A : Type) : Type :=
  | Absent
  | Null
  | Given (a : A).
Arguments Absent {A}.
Arguments Null {A}.
Arguments Given {A} a.

(** [data.get(key, default)]: Python's [None] is [None] here. *)
Definition get_or {A : Type} (f : field A) (default : A) : option A :=
  match f with
  | Absent => Some default
  | Null => None
  | Given a => Some a
  end.

(** A JSON value in the place of the provider: a string, or a list or
    an object, which cannot be hashed; [error] is the message of the
    TypeError that hashing it raises.  (A number or a boolean in this
    place is not modelled.) *)
Inductive provider_value : Type :=
  | Name (name : string)
  | Unhashable (error : string).

(** A JSON value in the place of the timeout, by what [float()] makes of
    it: an integer of any size (a boolean counts as 0 or 1); a float,
    NaN and the infinities included, or a string in which [float()]
    reads that float; anything else, on which [float()] raises
    ValueError (another string) or TypeError (a list or an object). *)
Inductive timeout_value : Type :=
  | IntValue (n : Z)
  | FloatValue (f : float)
  | NoNumber.

(** The JSON body of a chat request.  The message is a string when
    given; the timeout counts milliseconds. *)
Record body : Type := Body {
  message : field string;
  provider : field provider_value;
  timeout : field timeout_value
}.

(** What an endpoint answers: the dispatcher's dict, an error dict with
    the one key ["error"], the dict of lines 240-244 with the keys
    ["error"], ["response"] and ["provider"], an event stream, or the
    page Flask makes of an exception nobody caught. *)
Inductive payload : Type :=
  | Envelope (r : result)
  | ErrorBody (error : string)
  | ErrorDict (error response provider : string)
  | EventStream (frames : list frame)
  | InternalServerError.

Definition provider_map : gmap string capability :=
  list_to_map [
    ("Qwen_Qwen_2_72B", Qwen_Qwen_2_72B);
    ("Qwen_Qwen_2_5_Max", Qwen_Qwen_2_5_Max);
    ("Qwen_Qwen_2_5", Qwen_Qwen_2_5);
    ("Qwen_Qwen_2_5M", Qwen_Qwen_2_5M);
    ("FreeGpt", FreeGpt);
    ("HuggingChat", HuggingChat);
    ("DeepInfra", DeepInfra);
    ("You", You)
  ].

(** Lines 44-60. *)
Definition model_for (specific_provider : string) : string :=
  if String.eqb specific_provider "Qwen_Qwen_2_5_Max" then "qwen-max"
  else if String.eqb specific_provider "Qwen_Qwen_2_5" then "qwen-2.5"
  else if String.eqb specific_provider "Qwen_Qwen_2_5M" then "qwen-2.5"
  else if String.eqb specific_provider "Qwen_Qwen_2_72B" then "qwen-2.5-72b"
  else if String.eqb specific_provider "You" then "gpt-4o-mini"
  else if String.eqb specific_provider "HuggingChat" then "llama-3.1-70b"
  else if String.eqb specific_provider "Blackbox" then "blackbox"
  else "gpt-4o-mini".

(** Lines 65-69: the floors for the large models. *)
Definition effective_timeout (specific_provider : string) (timeout : float) : float :=
  if String.eqb specific_provider "Qwen_Qwen_2_72B" then Py.max timeout 45
  else if existsb (String.eqb specific_provider) ["Qwen_Qwen_2_5_Max"; "Qwen_Qwen_2_5"]
  then Py.max timeout 30
  else timeout.

(** Line 103. *)
Definition backup_providers : list string :=
  ["Qwen_Qwen_2_72B"; "Qwen_Qwen_2_5_Max"; "Qwen_Qwen_2_5"; "Qwen_Qwen_2_5M"].

(** Lines 111-116. *)
Definition backup_model_for (backup_provider : string) : string :=
  if String.eqb backup_provider "Qwen_Qwen_2_5_Max" then "qwen-max"
  else if String.eqb backup_provider "Qwen_Qwen_2_72B" then "qwen-2.5-72b"
  else "qwen-2.5".

Definition apology (specific_provider : string) : string :=
  "Извините, возникла проблема с провайдером " +:+ specific_provider +:+
  ". Попробуйте еще раз.".

(** Lines 149-156: the dict returned when every provider has failed. *)
Definition soft_failure (specific_provider : string) : result :=
  {| r_streaming := None;
     r_success := Some true;
     r_response := Some (apology specific_provider);
     r_provider := specific_provider +:+ "_fallback";
     r_model := "fallback";
     r_response_stream := None;
     r_elapsed := 0.1;
     r_error := None |}.

Definition greeting : string :=
  "Привет! Рад вас видеть! 😊 Я BOOOMERANGS AI - ваш творческий помощник. Чем могу помочь?".

Definition newline : string := String (ascii_of_N 10) EmptyString.

(** [get_demo_response], lines 158-169. *)
Definition get_demo_response (message : string) : string :=
  let message_lower := Py.lower message in
  if Py.any_in ["привет"; "hello"; "hi"; "здравствуй"] message_lower then
    greeting
  else if Py.any_in ["что такое"; "расскажи о"; "что ты"; "о себе"] message_lower then
    "Привет! Меня зовут BOOOMERANGS AI, и я ваш творческий помощник!" +:+ newline +:+ newline +:+
    "🚀 **Мои суперспособности:**" +:+ newline +:+
    "• Создаю уникальные изображения по описанию" +:+ newline +:+
    "• Превращаю картинки в векторную графику" +:+ newline +:+
    "• Готовлю дизайны для вышивальных машин" +:+ newline +:+
    "• Консультирую по творческим проектам" +:+ newline +:+
    "• Просто хорошо общаюсь на любые темы!" +:+ newline +:+ newline +:+
    "Чем могу помочь?"
  else if Py.any_in ["создай"; "нарисуй"; "сгенерируй"] message_lower then
    "Отлично! Опишите подробнее что вы хотите создать, и я сгенерирую для вас уникальное изображение! 🎨"
  else
    "Понял! Чем конкретно могу помочь? Готов создать изображения, векторизовать картинки или просто поболтать! 😊".

Definition html_error_msg : string :=
  "Провайдер вернул HTML вместо текста — возможно, заблокирован".

(** The test of line 183. *)
Definition is_html (chunk : string) : bool := Py.contains "<html" (Py.lower chunk).

(** How the loop of lines 182-189 ends: it runs out of chunks or breaks
    (with the text accumulated so far), or the iterator raises. *)
Inductive loop_end : Type :=
  | LoopDone (full_response : string)
  | LoopRaised (error : string).

(** The loop of lines 182-189 over the chunks the stream yields, with
    the frames it emits, in order. *)
Fixpoint relay_chunks (provider : string) (stream : list string)
    (raises : option string) (full_response : string) : list frame * loop_end :=
  match stream with
  | [] =>
      match raises with
      | Some error => ([], LoopRaised error)
      | None => ([], LoopDone full_response)
      end
  | chunk :: rest =>
      if is_html chunk then ([ErrorEvent html_error_msg], LoopDone full_response)
      else
        let '(frames, ending) :=
          relay_chunks provider rest raises (full_response +:+ chunk) in
        (ChunkEvent chunk provider :: frames, ending)
  end.

(** What [float(x)] does: it returns a float, or raises ValueError or
    TypeError, which line 336 catches, or OverflowError, which it does
    not. *)
Inductive float_result : Type :=
  | Float (f : float)
  | ValueOrTypeError
  | OverflowError.

(** [float(n)] for an [int]: the nearest double, ties to even, and
    [None], the OverflowError, when that is beyond the doubles. *)
Definition float_of_int (n : Z) : option float :=
  match binary_normalize prec emax n 0 false with
  | S754_infinity _ => None
  | nearest => Some (SF2Prim nearest)
  end.

(** [float(x)] for what [data.get('timeout', 20000)] hands over;
    Python's [None] is [None]. *)
Definition py_float (x : option timeout_value) : float_result :=
  match x with
  | Some (IntValue n) =>
      match float_of_int n with
      | Some f => Float f
      | None => OverflowError
      end
  | Some (FloatValue f) => Float f
  | Some NoNumber | None => ValueOrTypeError
  end.

(** [timeout] as [chat_stream] computes it, lines 332-337; [None] when
    the OverflowError of [float()] leaves the handler. *)
Definition stream_timeout (t : field timeout_value) : option float :=
  match py_float (get_or t (IntValue 20000)) with
  | Float f =>
      let timeout := PrimFloat.div f 1000 in
      if PrimFloat.leb timeout 0 || PrimFloat.ltb 60 timeout then Some 20%float
      else Some timeout
  | ValueOrTypeError => Some 20%float
  | OverflowError => None
  end.

(** [data.get('provider')]. *)
Definition provider_of (data : body) : option provider_value :=
  match provider data with Given p => Some p | _ => None end.

(** Lines 21-42 of [get_chat_response], which come before its [try]:
    the import of the provider classes, of which [import_error] is the
    message when it fails, then the renaming of [None] and the lookup
    in [provider_map], which hashes the provider.  [inl] is the message
    of the exception raised, [inr] the provider the function goes on
    with. *)
Definition preamble (import_error : option string)
    (specific_provider : option provider_value) : string + option string :=
  match import_error with
  | Some error => inl error
  | None =>
      match specific_provider with
      | Some (Unhashable error) => inl error
      | Some (Name name) => inr (Some name)
      | None => inr None
      end
  end.

(** *** The effectful part

    [World] is everything outside the program that a call can read or
    change (the providers' servers, the network, the clock).  [create]
    is [g4f.ChatCompletion.create] and [time_time] is [time.time]. *)

Section Dispatcher.

Variable World : Type.
Variable create : World → call → outcome * World.
Variable time_time : World → Q * World.

(** The message of the ImportError of line 24, when the installed
    [g4f] lacks one of the provider classes; [None] when it has all. *)
Variable import_error : option string.

(** A computation threads the world and the list of the [create] calls
    made so far, each with its outcome. *)
Definition M (A : Type) : Type :=
  World * list (call * outcome) → A * (World * list (call * outcome)).

Definition ret {A : Type} (a : A) : M A := λ st, (a, st).

Definition bind {A B : Type} (m : M A) (k : A → M B) : M B :=
  λ st, k (m st).1 (m st).2.

Notation "'let*' x ':=' m 'in' k" := (bind m (λ x, k))
  (at level 10, x name, m at level 100, k at level 200, only parsing).

Definition g4f_create (c : call) : M outcome :=
  λ st, ((create st.1 c).1, ((create st.1 c).2, st.2 ++ [(c, (create st.1 c).1)])).

Definition now : M Q :=
  λ st, ((time_time st.1).1, ((time_time st.1).2, st.2)).

(** The dict of a successful attempt, lines 82-97 and 128-143. *)
Definition answer (use_stream : bool) (response : response_object)
    (provider model : string) (elapsed : Q) : result :=
  if use_stream then
    {| r_streaming := Some true;
       r_success := None;
       r_response := None;
       r_provider := provider;
       r_model := model;
       r_response_stream := Some response;
       r_elapsed := elapsed;
       r_error := None |}
  else
    {| r_streaming := None;
       r_success := Some true;
       r_response := Some (str response);
       r_provider := provider;
       r_model := model;
       r_response_stream := None;
       r_elapsed := elapsed;
       r_error := None |}.

(** The loop of lines 105-147; [None] when it runs to its end. *)
Fixpoint try_backups (message specific_provider : string) (use_stream : bool)
    (timeout : float) (start_time : Q) (backups : list string) : M (option result) :=
  match backups with
  | [] => ret None
  | backup_provider :: rest =>
      if negb (String.eqb backup_provider specific_provider) then
        let backup_selected := provider_map !! backup_provider in
        let backup_model := backup_model_for backup_provider in
        let* backup_response :=
          g4f_create {| c_model := backup_model;
                        c_message := message;
                        c_provider := backup_selected;
                        c_stream := use_stream;
                        c_timeout := timeout |} in
        match backup_response with
        | Returned response =>
            let* t := now in
            ret (Some (answer use_stream response backup_provider backup_model
                         (t - start_time)%Q))
        | Raised _ =>
            try_backups message specific_provider use_stream timeout start_time rest
        end
      else try_backups message specific_provider use_stream timeout start_time rest
  end.

(** [get_chat_response(message, specific_provider, use_stream, timeout)]. *)
Definition get_chat_response (message : string) (specific_provider : option string)
    (use_stream : bool) (timeout : float) : M result :=
  let specific_provider := default "Qwen_Qwen_2_72B" specific_provider in
  let selected_provider := default Qwen_Qwen_2_72B (provider_map !! specific_provider) in
  let model := model_for specific_provider in
  let* start_time := now in
  let timeout := effective_timeout specific_provider timeout in
  let* response :=
    g4f_create {| c_model := model;
                  c_message := message;
                  c_provider := Some selected_provider;
                  c_stream := use_stream;
                  c_timeout := timeout |} in
  match response with
  | Returned response =>
      let* t := now in
      ret (answer use_stream response specific_provider model (t - start_time)%Q)
  | Raised _ =>
      let* backup :=
        try_backups message specific_provider use_stream timeout start_time
          backup_providers in
      match backup with
      | Some r => ret r
      | None => ret (soft_failure specific_provider)
      end
  end.

(** [stream_response_generator(message, provider, timeout)]: the frames
    it yields, in order.  The [except] clause of lines 212-219 is
    [on_exception]. *)
Definition on_exception (message error : string) (start_time : Q) : M (list frame) :=
  let demo_response := get_demo_response message in
  let* t := now in
  ret [ErrorEvent error;
       TextEvent (Some demo_response) "BOOOMERANGS-Error";
       DoneEvent (Some demo_response) "BOOOMERANGS-Error" "error-mode"
         (t - start_time)%Q].

Definition stream_response_generator (message : string) (provider : option string)
    (timeout : float) : M (list frame) :=
  let* start_time := now in
  let* result := get_chat_response message provider true timeout in
  let start := StartEvent (r_provider result) in
  match r_streaming result, r_response_stream result with
  | Some true, Some response_stream =>
      let '(frames, ending) :=
        relay_chunks (r_provider result) (chunks response_stream)
          (raises response_stream) "" in
      match ending with
      | LoopDone full_response =>
          let* t := now in
          ret (start :: frames ++
               [DoneEvent (Some full_response) (r_provider result) (r_model result)
                  (t - start_time)%Q])
      | LoopRaised error =>
          let* tail := on_exception message error start_time in
          ret (start :: frames ++ tail)
      end
  | _, _ =>
      match r_error result with
      | Some error =>
          let demo_response := get_demo_response message in
          let* t := now in
          ret [start;
               ErrorTextEvent (r_error result) demo_response "BOOOMERANGS-Demo";
               DoneEvent (Some demo_response) "BOOOMERANGS-Demo" "fallback-mode"
                 (t - start_time)%Q]
      | None =>
          let* t := now in
          ret [start;
               TextEvent (r_response result) (r_provider result);
               DoneEvent (r_response result) (r_provider result) (r_model result)
                 (r_elapsed result)]
      end
  end.

(** [stream_response_generator(message, provider, timeout)] for any
    provider of a request and any state of the imports.  When
    [get_chat_response] raises before its [try], at line 177 of the
    generator, the [except] clause of lines 212-219 yields its three
    frames and no start frame has been yielded. *)
Definition event_stream (message : string) (provider : option provider_value)
    (timeout : float) : M (list frame) :=
  match preamble import_error provider with
  | inr specific_provider => stream_response_generator message specific_provider timeout
  | inl error =>
      let* start_time := now in
      on_exception message error start_time
  end.

(** [chat()], the handler of [POST /python/chat]: status and body.  An
    exception of [get_chat_response] ends in the [except] clause of
    lines 238-244. *)
Definition chat (data : body) : M (Z * payload) :=
  let message := get_or (message data) "" in
  let provider_name := get_or (provider data) (Name "Qwen_Qwen_2_72B") in
  match message with
  | None | Some "" => ret (400, ErrorBody "Отсутствует сообщение")
  | Some message =>
      match preamble import_error provider_name with
      | inr specific_provider =>
          let* result := get_chat_response message specific_provider false 20 in
          ret (200, Envelope result)
      | inl error =>
          ret (500, ErrorDict error ("Ошибка AI провайдера: " +:+ error) "error")
      end
  end.

(** [chat_stream()], the handler of [POST /python/chat/stream].  The
    timeout is computed before the message is looked at, and nothing
    catches the OverflowError of [float()]: Flask answers it with
    status 500. *)
Definition chat_stream (data : body) : M (Z * payload) :=
  let message := get_or (message data) "" in
  let provider := provider_of data in
  match stream_timeout (timeout data) with
  | None => ret (500, InternalServerError)
  | Some timeout =>
      match message with
      | None | Some "" => ret (400, ErrorBody "Отсутствует сообщение")
      | Some message =>
          let* frames := event_stream message provider timeout in
          ret (200, EventStream frames)
      end
  end.

End Dispatcher.

Arguments ret {World A} a.
Arguments bind {World A B} m k.
Arguments g4f_create {World} create c.
Arguments now {World} time_time.
Arguments try_backups {World} create time_time
  message specific_provider use_stream timeout start_time backups.
Arguments get_chat_response {World} create time_time
  message specific_provider use_stream timeout.
Arguments on_exception {World} time_time message error start_time.
Arguments stream_response_generator {World} create time_time message provider timeout.
Arguments event_stream {World} create time_time import_error message provider timeout.
Arguments chat {World} create time_time import_error data.
Arguments chat_stream {World} create time_time import_error data.

(** *** Reading a run *)

(** The backups the loop does not skip, in the order of the list. *)
Definition candidates (specific_provider : string) (backups : list string) : list string :=
  List.filter (λ b, negb (String.eqb b specific_provider)) backups.

(** The call the loop makes for one backup. *)
Definition backup_call (message : string) (use_stream : bool) (timeout : float)
    (backup_provider : string) : call :=
  {| c_model := backup_model_for backup_provider;
     c_message := message;
     c_provider := provider_map !! backup_provider;
     c_stream := use_stream;
     c_timeout := timeout |}.

(** The first call of a dispatch. *)
Definition first_call (message : string) (specific_provider : option string)
    (use_stream : bool) (timeout : float) : call :=
  let name := default "Qwen_Qwen_2_72B" specific_provider in
  {| c_model := model_for name;
     c_message := message;
     c_provider := Some (default Qwen_Qwen_2_72B (provider_map !! name));
     c_stream := use_stream;
     c_timeout := effective_timeout name timeout |}.

(** The calls a computation adds to the log. *)
Definition attempts {World A : Type} (m : M World A)
    (st : World * list (call * outcome)) : list (call * outcome) :=
  drop (length st.2) (m st).2.2.


(** The frames of [stream_response_generator] as a function of the dict
    the dispatcher returned, of the time read at line 175 and of the one
    time read after the dispatch. *)
Definition render (message : string) (result : result) (start_time t : Q)
    : list frame :=
  let start := StartEvent (r_provider result) in
  match r_streaming result, r_response_stream result with
  | Some true, Some response_stream =>
      let run := relay_chunks (r_provider result) (chunks response_stream)
                   (raises response_stream) "" in
      match run.2 with
      | LoopDone full_response =>
          start :: run.1 ++
          [DoneEvent (Some full_response) (r_provider result) (r_model result)
             (t - start_time)%Q]
      | LoopRaised error =>
          start :: run.1 ++
          [ErrorEvent error;
           TextEvent (Some (get_demo_response message)) "BOOOMERANGS-Error";
           DoneEvent (Some (get_demo_response message)) "BOOOMERANGS-Error"
             "error-mode" (t - start_time)%Q]
      end
  | _, _ =>
      match r_error result with
      | Some error =>
          [start;
           ErrorTextEvent (r_error result) (get_demo_response message)
             "BOOOMERANGS-Demo";
           DoneEvent (Some (get_demo_response message)) "BOOOMERANGS-Demo"
             "fallback-mode" (t - start_time)%Q]
      | None =>
          [start;
           TextEvent (r_response result) (r_provider result);
           DoneEvent (r_response result) (r_provider result) (r_model result)
             (r_elapsed result)]
      end
  end.

(** The preferred provider is [None] or a key of [provider_map]. *)
Definition registered (specific_provider : option string) : Prop :=
  match specific_provider with
  | Some name => is_Some (provider_map !! name)
  | None => True
  end.

(** The floor table as the specification words it, by the provider that
    is called: the timeout it is to be given when the caller's is
    [caller]. *)
Definition floor_table (provider : capability) (caller : float) : float :=
  match provider with
  | Qwen_Qwen_2_72B => Py.max caller 45
  | Qwen_Qwen_2_5_Max | Qwen_Qwen_2_5 => Py.max caller 30
  | _ => caller
  end.

(** A timeout of more than nothing and of a minute at most. *)
Definition within_a_minute (t : float) : bool :=
  PrimFloat.ltb 0 t && PrimFloat.leb t 60.

(** *** Worlds to run the servers in *)

(** The clock stands still. *)
Definition stopped_clock : unit → Q * unit := λ w, (0%Q, w).

(** Every provider refuses the connection. *)
Definition all_down : unit → call → outcome * unit :=
  λ w _, (Raised "Connection refused", w).

(** Every provider answers with the same object. *)
Definition all_up (response : response_object) : unit → call → outcome * unit :=
  λ w _, (Returned response, w).

(** Only the providers of [down] refuse. *)
Definition down_only (down : list capability) (response : response_object)
    : unit → call → outcome * unit :=
  λ w c, (if bool_decide (c_provider c ∈ map Some down)
          then Raised "Connection refused"
          else Returned response, w).

(** Qwen_Qwen_2_72B needs 40 seconds: it answers when it is given at
    least that long; nobody else answers. *)
Definition slow_72b (response : response_object) : unit → call → outcome * unit :=
  λ w c, (if bool_decide (c_provider c = Some Qwen_Qwen_2_72B) &&
             PrimFloat.leb 40 (c_timeout c)
          then Returned response
          else Raised "Timeout", w).

Definition hello : response_object :=
  {| str := "Hello"; chunks := ["Hel"; "lo"]; raises := None |}.

Definition blocked : response_object :=
  {| str := "";
     chunks := ["Hello "; "<!DOCTYPE html><HTML><body>Access denied"; "more"];
     raises := None |}.


Definition fresh : unit * list (call * outcome) := (tt, []).

(** *** Reading the frames *)



(** The text of a chunk event. *)
Definition chunk_of (f : frame) : option string :=
  match f with ChunkEvent chunk _ => Some chunk | _ => None end.

(** *** [test] and [chat_direct] *)

Section Endpoints.

Variable World : Type.
Variable create : World → call → outcome * World.
Variable time_time : World → Q * World.

(** [test()], the handler of [POST /python/test].  The message is the
    body's, and ["test"] when the body has none; it is not checked.  A
    body whose message is [null] makes [None] the content of the
    message sent to the provider, which a [call] cannot hold: [test] is
    [None] on such a body.  The provider is the fixed name "DeepInfra",
    and the provider classes are taken as imported: with a failed import
    the [except] clause of lines 311-318 answers instead. *)
Definition test (data : body) : option (M World (Z * payload)) :=
  message ← get_or (message data) "test";
  Some (bind (get_chat_response create time_time message (Some "DeepInfra") false 20)
          (λ result, ret (200, Envelope result))).

End Endpoints.

Arguments test {World} create time_time data.

(** The JSON body of a direct request.  The message, the provider and
    the model are strings when given, the timeout a number. *)
Record direct_body : Type := DirectBody {
  d_message : field string;
  d_provider : field string;
  d_model : field string;
  d_timeout : field Q
}.

(** [data.get(key)]. *)
Definition get {A : Type} (f : field A) : option A :=
  match f with Given a => Some a | _ => None end.

(** The call [provider(prompt=message, model=model, timeout=timeout)] of
    lines 265-269; [Attr] is the type of the attributes of the module
    [g4f.Provider]. *)
Record direct_call (Attr : Type) : Type := DirectCall {
  dc_provider : Attr;
  dc_prompt : string;
  dc_model : option string;
  dc_timeout : option Q
}.
Arguments DirectCall {Attr} dc_provider dc_prompt dc_model dc_timeout.
Arguments dc_provider {Attr} d.
Arguments dc_prompt {Attr} d.
Arguments dc_model {Attr} d.
Arguments dc_timeout {Attr} d.

(** What the call hands back: a [str], or an object of another type, of
    which [jsonify] makes JSON or on which it raises. *)
Inductive direct_response : Type :=
  | Text (text : string)
  | Dumped (json : string)
  | NotSerializable (error : string).

Inductive direct_outcome : Type :=
  | DirectReturned (response : direct_response)
  | DirectRaised (error : string).

(** The dicts [chat_direct] answers with. *)
Inductive direct_payload : Type :=
  | Answered (response : direct_response) (provider : string) (model : option string)
      (elapsed : Q)
  | Failure (error response provider : string)
  | NoMessage (error : string).

(** [f"{provider_name}"]. *)
Definition show (provider_name : option string) : string :=
  default "None" provider_name.

(** The dict of lines 294-298. *)
Definition direct_error (e : string) : Z * direct_payload :=
  (500, Failure e ("Ошибка при вызове провайдера: " +:+ e) "error").

Section Direct.

Variable Attr : Type.
Variable World : Type.

(** The attributes of the module [g4f.Provider], as [hasattr] and
    [getattr] see them. *)
Variable g4f_Provider : gmap string Attr.
Variable invoke : World → direct_call Attr → direct_outcome * World.
Variable time_time : World → Q * World.

(** Line 262: [provider_name and hasattr(g4f.Provider, provider_name)],
    with the attribute when the test holds. *)
Definition direct_provider (provider_name : option string) : option Attr :=
  match provider_name with
  | None | Some "" => None
  | Some name => g4f_Provider !! name
  end.

(** [chat_direct()]: status and body, the world after the request, and
    the calls made, in order. *)
Definition chat_direct (data : direct_body) (w : World)
    : (Z * direct_payload) * World * list (direct_call Attr) :=
  let message := get_or (d_message data) "" in
  let provider_name := get (d_provider data) in
  let model := get (d_model data) in
  let timeout := get_or (d_timeout data) 20%Q in
  match message with
  | None | Some "" => ((400, NoMessage "Отсутствует сообщение"), w, [])
  | Some message =>
      match direct_provider provider_name with
      | Some provider =>
          let start_time := (time_time w).1 in
          let w1 := (time_time w).2 in
          let c := DirectCall provider message model timeout in
          let w2 := (invoke w1 c).2 in
          match (invoke w1 c).1 with
          | DirectReturned response =>
              let elapsed := ((time_time w2).1 - start_time)%Q in
              let w3 := (time_time w2).2 in
              match response with
              | Text text =>
                  if is_html text then
                    (direct_error ("Провайдер " +:+ show provider_name +:+
                                   " вернул HTML вместо текста"), w3, [c])
                  else ((200, Answered response (show provider_name) model elapsed), w3, [c])
              | Dumped _ =>
                  ((200, Answered response (show provider_name) model elapsed), w3, [c])
              | NotSerializable e => (direct_error e, w3, [c])
              end
          | DirectRaised e => (direct_error e, w2, [c])
          end
      | None =>
          ((404, Failure ("Провайдер " +:+ show provider_name +:+ " не найден")
                   ("Провайдер " +:+ show provider_name +:+ " не найден в системе")
                   "unknown"), w, [])
      end
  end.

End Direct.

Arguments direct_provider {Attr} g4f_Provider provider_name.
Arguments chat_direct {Attr World} g4f_Provider invoke time_time data w.

(** A module with one provider class, which answers with the prompt. *)
Definition one_class : gmap string nat := {[ "Echo" := 0%nat ]}.

Definition echo : unit → direct_call nat → direct_outcome * unit :=
  λ w c, (DirectReturned (Text (dc_prompt c)), w).


End G4fPythonProvider.

(** ** src/server/stream_server.py *)

Module StreamServer.

(** The keyword arguments of the [g4f.ChatCompletion.create] call of
    [test_provider]; [Provider] is the type of the objects found in
    [g4f.Provider]. *)
Record call (Provider : Type) : Type := Call {
  c_model : string;
  c_message : string;
  c_provider : Provider;
  c_timeout : Q
}.
Arguments Call {Provider} c_model c_message c_provider c_timeout.
Arguments c_model {Provider} c.
Arguments c_message {Provider} c.
Arguments c_provider {Provider} c.
Arguments c_timeout {Provider} c.

(** The call returns an object, seen through [str(response)], or raises
    an [Exception], seen through [str(e)]. *)
Inductive outcome : Type :=
  | Returned (response : string)
  | Raised (error : string).

(** The dict [test_provider] hands to [jsonify]; a key that is not in it
    is [None]. *)
Record reply : Type := Reply {
  status : string;
  message : string;
  error : option string;
  requires_api_key : option bool;
  response : option string
}.

(** Line 191: the answer for a name that is not registered. *)
Definition not_found (provider_name : string) : reply :=
  {| status := "error";
     message := "Провайдер " +:+ provider_name +:+ " не найден";
     error := None;
     requires_api_key := None;
     response := None |}.

Section Probe.

Variable Provider : Type.
Variable World : Type.
Variable create : World → call Provider → outcome * World.

(** The registry [providers], filled when the module is imported
    (lines 23-89) and only read afterwards. *)
Variable providers : gmap string Provider.

(** [test_provider(provider_name)]: the reply, the world after it, and
    the [create] calls made, in order. *)
Definition test_provider (provider_name : string) (w : World)
    : reply * World * list (call Provider) :=
  match providers !! provider_name with
  | None => (not_found provider_name, w, [])
  | Some provider =>
      let probe := {| c_model := "gpt-3.5-turbo";
                      c_message := "Say just one word: Test";
                      c_provider := provider;
                      c_timeout := 5 |} in
      match (create w probe).1 with
      | Returned response =>
          ({| status := "ok";
              message := "Провайдер " +:+ provider_name +:+ " доступен";
              error := None;
              requires_api_key := Some false;
              response := Some (Py.slice_to 100 response) |},
           (create w probe).2, [probe])
      | Raised e =>
          let error_str := e in
          let requires_api_key :=
            Py.any_in ["api_key"; "apikey"; "key"; "token"] (Py.lower error_str) in
          ({| status := "error";
              message := "Ошибка при проверке провайдера " +:+ provider_name;
              error := Some error_str;
              requires_api_key := Some requires_api_key;
              response := None |},
           (create w probe).2, [probe])
      end
  end.

End Probe.

Arguments test_provider {Provider World} create providers provider_name w.

(** A registry with two providers, in a world that counts the calls made
    and in which "You" answers and "Gemini" asks for a key. *)
Definition two_providers : gmap string nat :=
  list_to_map [("You", 1%nat); ("Gemini", 2%nat)].

Definition counting : nat → call nat → outcome * nat :=
  λ w c, (if Nat.eqb (c_provider c) 1
          then Returned "Test"
          else Raised "Missing API_KEY for Gemini", S w).

(** *** The registry, lines 16-123 *)

Definition wishlist : list string :=
  ["Qwen_Qwen_2_72B"; "Qwen_Qwen_2_5_Max"; "Qwen_Qwen_2_5"; "Qwen_Qwen_2_5M"; "FreeGpt";
   "Liaobots"; "HuggingChat"; "DeepInfra"; "You"; "Gemini"; "Phind"; "Anthropic";
   "Blackbox"; "ChatGpt"].

Definition gpt_potential_providers : list string :=
  ["DeepAI"; "AiChats"; "Poe"; "AIChatOnline"; "GigaChat"; "GPTalk";
   "ChatGpt"; "Chatgpt4Online"; "OpenaiChat"; "GPROChat"; "FreeChatgpt";
   "You"; "MyShell"; "FreeGpt"; "Gemini"; "Bing"; "OpenaiAPI";
   "DeepInfra"; "GptGo"].

(** The names of the loop of line 78. *)
Definition llama3_providers : list string :=
  ["HuggingFace"; "HuggingSpace"; "HuggingChat"; "Ollama"; "Replicate"].

(** [provider_groups], lines 105-109, before the insertions. *)
Definition primary_base : list string :=
  ["Qwen_Qwen_2_5_Max"; "Qwen_Qwen_3"; "You"; "DeepInfra"].

Definition secondary : list string := ["Gemini"; "GeminiPro"; "Phind"; "ChatGpt"].


(** The test of line 46. *)
Definition llama_named (name : string) : bool := Py.contains "llama" (Py.lower name).

(** What the module has built once it is imported. *)
Record registry (Provider : Type) : Type := Registry {
  providers : gmap string Provider;
  llama_providers : list string;
  gpt_providers : list string;
  primary : list string
}.
Arguments Registry {Provider} providers llama_providers gpt_providers primary.
Arguments providers {Provider} r.
Arguments llama_providers {Provider} r.
Arguments gpt_providers {Provider} r.
Arguments primary {Provider} r.

Section Registry.

Variable Provider : Type.

(** The attributes of the module [g4f.Provider] as [getattr] sees them,
    Python's truth value of such an attribute, and [dir(g4f.Provider)]. *)
Variable g4f_Provider : gmap string Provider.
Variable truthy : Provider → bool.
Variable dir : list string.

(** [get_provider(name)]; Python's [None] is [None]. *)
Definition get_provider (name : string) : option Provider := g4f_Provider !! name.

(** [provider = get_provider(name)] and the test [if provider:] that
    follows it each time: the provider when the test holds. *)
Definition found (name : string) : option Provider :=
  match get_provider name with
  | Some provider => if truthy provider then Some provider else None
  | None => None
  end.

(** Line 38. *)
Definition all_provider_names : list string :=
  List.filter (λ name, negb (String.prefix "_" name)) dir.

(** One round of the loop of lines 25-31. *)
Definition load (providers : gmap string Provider) (name : string)
    : gmap string Provider :=
  match found name with
  | Some provider => <[name := provider]> providers
  | None => providers
  end.

(** One round of the loop of lines 45-52, on [providers] and
    [llama_providers]. *)
Definition load_llama (st : gmap string Provider * list string) (name : string)
    : gmap string Provider * list string :=
  if llama_named name then
    match found name with
    | Some provider => (<[name := provider]> st.1, st.2 ++ [name])
    | None => st
    end
  else st.

(** One round of the loop of lines 62-68, on [providers] and
    [gpt_providers]. *)
Definition load_gpt (st : gmap string Provider * list string) (name : string)
    : gmap string Provider * list string :=
  if bool_decide (st.1 !! name = None) && bool_decide (name ∈ all_provider_names) then
    match found name with
    | Some provider => (<[name := provider]> st.1, st.2 ++ [name])
    | None => st
    end
  else st.

(** One round of the loop of lines 78-83. *)
Definition load_llama3 (providers : gmap string Provider) (name : string)
    : gmap string Provider :=
  if bool_decide (providers !! name = None) && bool_decide (name ∈ all_provider_names) then
    load providers name
  else providers.

(** Lines 86-89. *)
Definition append_if_loaded (providers : gmap string Provider) (name : string)
    (llama_providers : list string) : list string :=
  if bool_decide (is_Some (providers !! name)) then llama_providers ++ [name]
  else llama_providers.

(** [l.insert(0, x)]. *)
Definition insert_0 (l : list string) (x : string) : list string := x :: l.

(** Lines 23-123, from top to bottom. *)
Definition build : registry Provider :=
  let providers := foldl load ∅ wishlist in
  let st := foldl load_llama (providers, []) all_provider_names in
  let st' := foldl load_gpt (st.1, []) gpt_potential_providers in
  let providers := foldl load_llama3 st'.1 llama3_providers in
  let llama_providers := append_if_loaded providers "HuggingChat" st.2 in
  let llama_providers := append_if_loaded providers "Ollama" llama_providers in
  let anthropic_available := bool_decide (is_Some (providers !! "Anthropic")) in
  let llama_available := bool_decide (0 < length llama_providers)%nat in
  let primary :=
    if anthropic_available then insert_0 primary_base "Anthropic" else primary_base in
  let primary := if llama_available then foldl insert_0 primary llama_providers else primary in
  {| providers := providers;
     llama_providers := llama_providers;
     gpt_providers := st'.2;
     primary := primary |}.

(** The names of a list that contain "llama" and that [get_provider]
    finds: what the loop of lines 45-52 appends to [llama_providers]. *)
Definition llamas (names : list string) : list string :=
  List.filter (λ n, llama_named n && bool_decide (is_Some (found n))) names.

(** The names the loops ask [get_provider] for. *)
Definition wanted (name : string) : bool :=
  bool_decide (name ∈ wishlist) ||
  bool_decide (name ∈ all_provider_names) &&
  (llama_named name || bool_decide (name ∈ gpt_potential_providers) ||
   bool_decide (name ∈ llama3_providers)).

End Registry.

Arguments get_provider {Provider} g4f_Provider name.
Arguments found {Provider} g4f_Provider truthy name.
Arguments build {Provider} g4f_Provider truthy dir.
Arguments llamas {Provider} g4f_Provider truthy names.

(** A module [g4f.Provider] in which every attribute is true. *)
Definition small_module : gmap string nat :=
  list_to_map [("You", 1%nat); ("Gemini", 2%nat); ("Ollama", 3%nat);
               ("Llama2", 4%nat); ("__name__", 5%nat)].

Definition small_dir : list string := ["Gemini"; "Llama2"; "Ollama"; "You"; "__name__"].

(** *** [get_demo_response], lines 128-150 *)

Definition greeting : string :=
  "Привет! Я BOOOMERANGS AI ассистент. Чем могу помочь вам сегодня?".

Definition how_are_you : string :=
  "У меня всё отлично, спасибо что спросили! Как ваши дела?".

Definition about_images : string :=
  "Вы можете создать изображение, перейдя на вкладку " +:+
  String (ascii_of_N 34) "Генератор изображений" +:+
  String (ascii_of_N 34) ". Просто опишите, что хотите увидеть!".

Definition about_bot : string :=
  "Да, я бот-ассистент BOOOMERANGS. Я использую различные AI модели для ответов на ваши вопросы без необходимости платных API ключей.".

Definition about_service : string :=
  "BOOOMERANGS - это бесплатный мультимодальный AI-сервис для общения и создания изображений без необходимости платных API ключей.".

Definition random_responses : list string :=
  ["BOOOMERANGS использует различные AI-провайдеры, чтобы предоставлять ответы даже без платных API ключей. Наша система автоматически выбирает лучший доступный провайдер в каждый момент времени.";
   "BOOOMERANGS позволяет не только общаться с AI, но и генерировать изображения по текстовому описанию, а также конвертировать их в векторный формат SVG.";
   "BOOOMERANGS стремится сделать технологии искусственного интеллекта доступными для всех. Наше приложение работает прямо в браузере и оптимизирован для использования на мобильных устройствах."].

(** The answers that do not depend on chance. *)
Definition canned : list string :=
  [greeting; how_are_you; about_images; about_bot; about_service].

(** Whether one of the keywords of lines 132-140 is in the message. *)
Definition has_keyword (message : string) : bool :=
  let message_lower := Py.lower message in
  Py.any_in ["привет"; "здравствуй"; "hello"; "hi"] message_lower ||
  Py.any_in ["как дела"; "как ты"; "how are you"] message_lower ||
  Py.any_in ["изображен"; "картин"; "image"; "picture"] message_lower ||
  Py.contains "бот" message_lower ||
  Py.any_in ["booomerangs"; "буумеранг"] message_lower.

Section Demo.

Variable World : Type.

(** [random.choice]: the global random generator is part of the world. *)
Variable random_choice : World → list string → string * World.

Definition get_demo_response (message : string) (w : World) : string * World :=
  let message_lower := Py.lower message in
  if Py.any_in ["привет"; "здравствуй"; "hello"; "hi"] message_lower then (greeting, w)
  else if Py.any_in ["как дела"; "как ты"; "how are you"] message_lower then (how_are_you, w)
  else if Py.any_in ["изображен"; "картин"; "image"; "picture"] message_lower then
    (about_images, w)
  else if Py.contains "бот" message_lower then (about_bot, w)
  else if Py.any_in ["booomerangs"; "буумеранг"] message_lower then (about_service, w)
  else random_choice w random_responses.

End Demo.

Arguments get_demo_response {World} random_choice message w.

(** A generator that always picks the first item, and counts its calls. *)
Definition pick_first : nat → list string → string * nat :=
  λ w l, (hd "" l, S w).

End StreamServer.

(** * Part II: properties *)

(** ** Python's [str] operations *)

Module PyFacts.
Import Py.

Example lower_ascii : lower "<HTML Lang=EN>" = "<html lang=en>".
Proof. reflexivity. Qed.

Example lower_cyrillic : lower "ПРИВЕТ, Ёж и Яр" = "привет, ёж и яр".
Proof. reflexivity. Qed.

Example contains_inside : contains "<html" (lower "<!doctype html><HTML>") = true.
Proof. reflexivity. Qed.

Example contains_absent : contains "<html" "html>" = false.
Proof. reflexivity. Qed.

Example slice_to_codepoints : slice_to 3 "привет" = "при".
Proof. reflexivity. Qed.

Lemma append_cons (x : ascii) (a b : string) : String x a +:+ b = String x (a +:+ b).
Proof. reflexivity. Qed.

Lemma append_assoc (a b c : string) : (a +:+ b) +:+ c = a +:+ (b +:+ c).
Proof. induction a as [|x a IH]; [done|]. by rewrite !append_cons, IH. Qed.

Lemma append_nil_r (a : string) : a +:+ "" = a.
Proof. induction a as [|x a IH]; [done|]. by rewrite append_cons, IH. Qed.

Lemma append_ne_self (s suffix : string) : suffix ≠ "" → s +:+ suffix ≠ s.
Proof.
  intros Hne. induction s as [|x s IH]; [done|].
  rewrite append_cons. intros [= H]. by apply IH.
Qed.

Lemma endswith_app (suffix s : string) : endswith suffix (s +:+ suffix) = true.
Proof.
  induction s as [|a s IH].
  - change ("" +:+ suffix) with suffix.
    destruct suffix as [|b suffix]; [done|].
    cbn [endswith]. by rewrite String.eqb_refl.
  - rewrite append_cons. cbn [endswith]. rewrite IH. apply orb_true_r.
Qed.

(** The order of the doubles: two of them that are not NaN compare, and
    one way round or the other. *)
Lemma SFcompare_antisym (x y : spec_float) (c : comparison) :
  SFcompare x y = Some c → SFcompare y x = Some (CompOpp c).
Proof.
  destruct x as [sx|sx| |sx mx ex], y as [sy|sy| |sy my ey]; cbn [SFcompare];
    try discriminate;
    try (intros [= <-]; by repeat match goal with b : bool |- _ => destruct b end).
  intros [= <-]. f_equal. rewrite (Z.compare_antisym ey ex).
  pose proof (Pos.compare_cont_antisym mx my Eq) as Hm. cbn [CompOpp] in Hm.
  destruct sx, sy; cbn [CompOpp]; try done;
    destruct (ey ?= ex); cbn [CompOpp]; try done.
  f_equal. symmetry. exact Hm.
Qed.

Lemma SFcompare_numbers (x y : float) :
  is_nan x = false → is_nan y = false →
  ∃ c, SFcompare (Prim2SF x) (Prim2SF y) = Some c.
Proof.
  unfold is_nan. intros Hx Hy. rewrite FloatAxioms.eqb_spec in Hx, Hy.
  unfold SFeqb in Hx, Hy.
  destruct (Prim2SF x) as [sx|sx| |sx mx ex], (Prim2SF y) as [sy|sy| |sy my ey];
    simpl in *; try discriminate; by eexists.
Qed.

Lemma ltb_false_leb (x y : float) :
  is_nan x = false → is_nan y = false →
  PrimFloat.ltb x y = false → PrimFloat.leb y x = true.
Proof.
  intros Hx Hy. rewrite ltb_spec, leb_spec. unfold SFltb, SFleb.
  destruct (SFcompare_numbers x y Hx Hy) as [c Hc].
  rewrite Hc, (SFcompare_antisym _ _ _ Hc). by destruct c.
Qed.

Lemma leb_false_ltb (x y : float) :
  is_nan x = false → is_nan y = false →
  PrimFloat.leb x y = false → PrimFloat.ltb y x = true.
Proof.
  intros Hx Hy. rewrite ltb_spec, leb_spec. unfold SFltb, SFleb.
  destruct (SFcompare_numbers x y Hx Hy) as [c Hc].
  rewrite Hc, (SFcompare_antisym _ _ _ Hc). by destruct c.
Qed.

Lemma ltb_leb (x y : float) : PrimFloat.ltb x y = true → PrimFloat.leb x y = true.
Proof.
  rewrite ltb_spec, leb_spec. unfold SFltb, SFleb.
  by destruct (SFcompare (Prim2SF x) (Prim2SF y)) as [[]|].
Qed.

Lemma leb_refl (x : float) : is_nan x = false → PrimFloat.leb x x = true.
Proof.
  unfold is_nan. rewrite FloatAxioms.eqb_spec, leb_spec. unfold SFeqb, SFleb.
  by destruct (SFcompare (Prim2SF x) (Prim2SF x)) as [[]|].
Qed.

(** NaN compares with nothing. *)
Lemma nan_incomparable (x y : float) :
  is_nan x = true →
  PrimFloat.ltb x y = false ∧ PrimFloat.ltb y x = false ∧
  PrimFloat.leb x y = false ∧ PrimFloat.leb y x = false.
Proof.
  unfold is_nan. rewrite FloatAxioms.eqb_spec, !ltb_spec, !leb_spec.
  unfold SFeqb, SFltb, SFleb.
  destruct (Prim2SF x) as [sx|sx| |sx mx ex] eqn:Hx; cbn [SFcompare].
  - done.
  - by destruct sx.
  - by destruct (Prim2SF y).
  - destruct sx; rewrite Z.compare_refl, Pos.compare_cont_refl; done.
Qed.

(** [Py.max] of two numbers is the greater of them; of a NaN and a
    number, in this order, it is the NaN. *)
Lemma max_numbers (a b : float) :
  is_nan a = false → is_nan b = false →
  (max a b = a ∨ max a b = b) ∧
  PrimFloat.leb a (max a b) = true ∧ PrimFloat.leb b (max a b) = true.
Proof.
  intros Ha Hb. unfold max. destruct (PrimFloat.ltb a b) eqn:Hlt.
  - split; [by right|]. split; [by apply ltb_leb|by apply leb_refl].
  - split; [by left|]. split; [by apply leb_refl|by apply ltb_false_leb].
Qed.

Lemma max_nan (a b : float) : is_nan a = true → max a b = a.
Proof.
  intros Ha. unfold max. by destruct (nan_incomparable a b Ha) as (-> & _).
Qed.

(** [s[:n]] is a beginning of [s] of at most [n] code points, and all of
    [s] when [s] has no more than [n]. *)
Lemma slice_to_prefix (n : nat) (s : string) : String.prefix (slice_to n s) s = true.
Proof.
  revert n. induction s as [|a s IH]; intros n; [done|]. cbn [slice_to].
  destruct (between 128 191 a).
  - cbn [String.prefix]. destruct (ascii_dec a a); [apply IH|done].
  - destruct n as [|n]; [done|].
    cbn [String.prefix]. destruct (ascii_dec a a); [apply IH|done].
Qed.

Lemma slice_to_len (n : nat) (s : string) : (len (slice_to n s) ≤ n)%nat.
Proof.
  revert n. induction s as [|a s IH]; intros n; cbn [slice_to len]; [lia|].
  destruct (between 128 191 a) eqn:Ha.
  - cbn [len]. rewrite Ha. apply IH.
  - destruct n as [|n]; cbn [len]; [lia|]. rewrite Ha. specialize (IH n). lia.
Qed.

Lemma slice_to_short (n : nat) (s : string) : (len s ≤ n)%nat → slice_to n s = s.
Proof.
  revert n. induction s as [|a s IH]; intros n; cbn [slice_to len]; [done|].
  destruct (between 128 191 a).
  - intros Hn. by rewrite IH.
  - destruct n as [|n]; [lia|]. intros Hn. rewrite IH; [done|lia].
Qed.

(** A string that contains [a + b] contains [b]. *)
Lemma prefix_contains (a b s : string) :
  String.prefix (a +:+ b) s = true → contains b s = true.
Proof.
  revert s. induction a as [|x a IH]; intros s.
  - change ("" +:+ b) with b. intros Hp. destruct s; cbn [contains]; by rewrite Hp.
  - rewrite append_cons. destruct s as [|y s]; cbn [String.prefix]; [done|].
    destruct (ascii_dec x y); [|done]. intros Hp. cbn [contains].
    rewrite (IH s Hp). apply orb_true_r.
Qed.

Lemma contains_app_r (a b s : string) :
  contains (a +:+ b) s = true → contains b s = true.
Proof.
  induction s as [|y s IH].
  - cbn [contains]. rewrite orb_false_r. apply prefix_contains.
  - intros [Hp|Hrest]%orb_prop; [by eapply prefix_contains|].
    cbn [contains]. rewrite (IH Hrest). apply orb_true_r.
Qed.

End PyFacts.

(** ** src/converters/raster2svg.py *)

Module Raster2SvgFacts.
Import Raster2Svg.

(** Membership in a list that is written out. *)
Ltac in_neighbours :=
  unfold neighbours; rewrite !elem_of_cons; auto 10.

Section Trace.
Variable img : gray_image.
Variable threshold : Z.
Hypothesis Hshape : shape_ok img.

Let binary := binarize (img_array img) threshold.

Lemma index2_binary (x y : Z) :
  0 ≤ x < width img → 0 ≤ y < height img →
  ∃ v, pixel img x y = Some v ∧
       index2 binary y x = Some (bool_decide (v < threshold)).
Proof using Hshape.
  destruct Hshape as (Hw & Hh & Hlen & Hrows). intros Hx Hy.
  destruct (lookup_lt_is_Some_2 (img_array img) (Z.to_nat y)) as [row Hrow];
    [lia|].
  assert (Hrl : length row = Z.to_nat (width img)).
  { eapply Forall_lookup_1 in Hrows; eauto. }
  destruct (lookup_lt_is_Some_2 row (Z.to_nat x)) as [v Hv]; [lia|].
  exists v. split.
  - unfold pixel. rewrite bool_decide_eq_true_2 by lia.
    rewrite Hrow. simpl. exact Hv.
  - unfold index2, binary, binarize, axis_index.
    rewrite length_map, Hlen, Z2Nat.id by lia.
    rewrite bool_decide_eq_true_2 by lia. simpl.
    rewrite list_lookup_fmap, Hrow. simpl.
    rewrite length_map, Hrl, Z2Nat.id by lia.
    rewrite bool_decide_eq_true_2 by lia. simpl.
    rewrite list_lookup_fmap, Hv. reflexivity.
Qed.

Lemma is_contour_interior (x y : Z) :
  1 ≤ x ≤ width img - 2 → 1 ≤ y ≤ height img - 2 →
  ∃ hit, is_contour binary y x = Some hit ∧
         (hit = true → interior_contour img threshold (x, y)).
Proof using Hshape.
  intros Hx Hy.
  destruct (index2_binary x y) as (v & Hpv & Hbv); [lia..|].
  destruct (index2_binary x (y - 1)) as (vu & Hpu & Hbu); [lia..|].
  destruct (index2_binary x (y + 1)) as (vd & Hpd & Hbd); [lia..|].
  destruct (index2_binary (x - 1) y) as (vl & Hpl & Hbl); [lia..|].
  destruct (index2_binary (x + 1) y) as (vr & Hpr & Hbr); [lia..|].
  unfold is_contour. rewrite Hbv. simpl.
  destruct (bool_decide_reflect (v < threshold)) as [Hv|Hv];
    [|exists false; split; [done|discriminate]].
  assert (Hin : ∀ q w, q ∈ neighbours x y → pixel img q.1 q.2 = Some w →
                       ¬ w < threshold → interior_contour img threshold (x, y)).
  { intros q w Hq Hw Hnw. repeat split; try lia; eauto. }
  rewrite Hbu. simpl. destruct (bool_decide_reflect (vu < threshold)) as [Hu|Hu]; simpl; last first.
  { eexists; split; [done|]. intros _.
    apply (Hin (x, y - 1) vu); [in_neighbours|done..]. }
  rewrite Hbd. simpl. destruct (bool_decide_reflect (vd < threshold)) as [Hd|Hd]; simpl; last first.
  { eexists; split; [done|]. intros _.
    apply (Hin (x, y + 1) vd); [in_neighbours|done..]. }
  rewrite Hbl. simpl. destruct (bool_decide_reflect (vl < threshold)) as [Hl|Hl]; simpl; last first.
  { eexists; split; [done|]. intros _.
    apply (Hin (x - 1, y) vl); [in_neighbours|done..]. }
  rewrite Hbr. simpl. eexists; split; [done|].
  destruct (bool_decide_reflect (vr < threshold)) as [Hr|Hr]; simpl; [done|]. intros _.
  apply (Hin (x + 1, y) vr); [in_neighbours|done..].
Qed.

Lemma scan_row_interior (y : Z) (xs : list Z) (paths : list (Z * Z)) :
  1 ≤ y ≤ height img - 2 →
  Forall (λ x, 1 ≤ x ≤ width img - 2) xs →
  Forall (interior_contour img threshold) paths →
  ∃ paths', scan_row binary y xs paths = Some paths' ∧
            Forall (interior_contour img threshold) paths'.
Proof using Hshape.
  intros Hy Hxs. revert paths.
  induction Hxs as [|x xs Hx _ IH]; intros paths Hpaths; simpl.
  - by exists paths.
  - destruct (is_contour_interior x y Hx Hy) as (hit & -> & Hhit). simpl.
    apply IH. destruct hit; [|done].
    apply Forall_app; split; [done|]. constructor; [by apply Hhit|constructor].
Qed.

Lemma scan_rows_interior (ys xs : list Z) (paths : list (Z * Z)) :
  Forall (λ y, 1 ≤ y ≤ height img - 2) ys →
  Forall (λ x, 1 ≤ x ≤ width img - 2) xs →
  Forall (interior_contour img threshold) paths →
  ∃ paths', scan_rows binary ys xs paths = Some paths' ∧
            Forall (interior_contour img threshold) paths'.
Proof using Hshape.
  intros Hys Hxs. revert paths.
  induction Hys as [|y ys Hy _ IH]; intros paths Hpaths; simpl.
  - by exists paths.
  - destruct (scan_row_interior y xs paths Hy Hxs Hpaths) as (p1 & -> & Hp1).
    simpl. by apply IH.
Qed.

Lemma range_interior (n : Z) : Forall (λ i, 1 ≤ i ≤ n - 2) (range 1 (n - 1)).
Proof.
  apply Forall_forall. intros i Hi. unfold range in Hi.
  apply elem_of_seqZ in Hi. lia.
Qed.
(** C10. On an image whose array has the shape PIL reports, [simple_trace]
    returns (it raises no IndexError), hands back the image's width and
    height, and every traced point [(x, y)] has [1 <= x <= width - 2] and
    [1 <= y <= height - 2], a grayscale value strictly below the
    threshold, and an orthogonal neighbour whose value is not below it;
    so no point of the outermost rows and columns is ever traced. *)
Theorem simple_trace_interior_contour :
  ∃ paths, simple_trace img threshold = Some (paths, width img, height img) ∧
           Forall (λ p, interior_contour img threshold p ∧ ¬ on_border img p) paths.
Proof using Hshape.
  unfold simple_trace, width, height. destruct (size img) as [w h] eqn:Hsize.
  simpl.
  destruct (scan_rows_interior (range 1 (h - 1)) (range 1 (w - 1)) [])
    as (paths & Hrun & Hpaths).
  - replace h with (height img) by (unfold height; by rewrite Hsize).
    apply range_interior.
  - replace w with (width img) by (unfold width; by rewrite Hsize).
    apply range_interior.
  - constructor.
  - exists paths. fold binary. rewrite Hrun. split; [done|].
    eapply Forall_impl; [exact Hpaths|].
    intros [x y] Hp. split; [exact Hp|].
    destruct Hp as (Hx & Hy & _). unfold on_border, width, height in *.
    rewrite Hsize in *. simpl in *. lia.
Qed.

End Trace.

(** [sample] has the shape it claims. *)
Lemma shape_ok_sample : shape_ok sample.
Proof.
  unfold shape_ok. repeat split; try (vm_compute; congruence).
  repeat constructor.
Qed.

Example simple_trace_sample :
  simple_trace sample default_threshold = Some ([(1, 1); (2, 1); (1, 2); (2, 2)], 4, 4).
Proof. reflexivity. Qed.

(** A dark pixel on the border is not traced: here the whole image is
    dark but for one interior pixel, and only its neighbours are found. *)
Example simple_trace_dark_border :
  simple_trace (GrayImage (4, 3) [[0; 0; 0; 0]; [0; 0; 255; 0]; [0; 0; 0; 0]]) 128
  = Some ([(1, 1)], 4, 3).
Proof. reflexivity. Qed.

Lemma simple_trace_interior_contour_sample :
  shape_ok sample ∧
  ∃ paths, simple_trace sample default_threshold = Some (paths, width sample, height sample) ∧
           Forall (λ p, interior_contour sample default_threshold p ∧ ¬ on_border sample p) paths.
Proof.
  split; [exact shape_ok_sample|].
  apply (simple_trace_interior_contour sample default_threshold shape_ok_sample).
Defined.

(** *** What is traced, and in which order *)

Lemma range_sorted (lo hi : Z) : StronglySorted Z.lt (range lo hi).
Proof.
  unfold range. generalize (hi - lo). intros n.
  destruct (decide (n ≤ 0)) as [Hn|Hn]; [rewrite seqZ_nil by done; constructor|].
  rewrite <- (Z2Nat.id n) by lia. generalize (Z.to_nat n). clear n Hn. intros n.
  revert lo. induction n as [|n IH]; intros lo.
  - rewrite seqZ_nil by done. constructor.
  - rewrite seqZ_cons by lia. constructor.
    + replace (Z.pred (Z.of_nat (S n))) with (Z.of_nat n) by lia. apply IH.
    + apply Forall_forall. intros k Hk. apply elem_of_seqZ in Hk. lia.
Qed.

Lemma row_sorted (f : Z * Z → bool) (y : Z) (xs : list Z) :
  StronglySorted Z.lt xs →
  StronglySorted scanned_before
    (map (λ x, (x, y)) (List.filter (λ x, f (x, y)) xs)).
Proof.
  induction 1 as [|x xs _ IH Hx]; simpl; [constructor|].
  destruct (f (x, y)); [|done]. simpl. constructor; [done|].
  apply Forall_forall. intros [x' y'] Hin.
  apply list_elem_of_In, in_map_iff in Hin as (x'' & [= -> ->] & Hin).
  apply filter_In in Hin as [Hin _]. apply list_elem_of_In in Hin.
  rewrite Forall_forall in Hx. right. cbn [fst snd]. split; [done|by apply Hx].
Qed.

Lemma rows_sorted (f : Z * Z → bool) (xs ys : list Z) :
  StronglySorted Z.lt xs → StronglySorted Z.lt ys →
  StronglySorted scanned_before
    (flat_map (λ y, map (λ x, (x, y)) (List.filter (λ x, f (x, y)) xs)) ys).
Proof.
  intros Hxs. induction 1 as [|y ys _ IH Hy]; simpl; [constructor|].
  apply StronglySorted_app_2; [|by apply row_sorted|done].
  intros [x1 y1] [x2 y2] H1 H2.
  apply list_elem_of_In, in_map_iff in H1 as (? & [= -> ->] & _).
  apply list_elem_of_In, in_flat_map in H2 as (y' & Hy' & H2).
  apply in_map_iff in H2 as (? & [= -> ->] & _).
  apply list_elem_of_In in Hy'. rewrite Forall_forall in Hy.
  left. cbn [fst snd]. by apply Hy.
Qed.

Lemma scanned_before_irrefl (p : Z * Z) : ¬ scanned_before p p.
Proof. unfold scanned_before. lia. Qed.

Lemma sorted_NoDup (paths : list (Z * Z)) :
  StronglySorted scanned_before paths → NoDup paths.
Proof.
  induction 1 as [|p paths _ IH Hp]; constructor; [|done].
  intros Hin. rewrite Forall_forall in Hp.
  exact (scanned_before_irrefl p (Hp p Hin)).
Qed.

Section Scan.

Variable img : gray_image.
Variable threshold : Z.
Hypothesis Hshape : shape_ok img.

Let binary := binarize (img_array img) threshold.

Lemma dark_index2 (x y : Z) :
  0 ≤ x < width img → 0 ≤ y < height img →
  index2 binary y x = Some (dark img threshold x y) ∧
  ∃ v, pixel img x y = Some v.
Proof using Hshape.
  intros Hx Hy.
  destruct (index2_binary img threshold Hshape x y Hx Hy) as (v & Hv & Hb).
  unfold dark. rewrite Hv. split; [exact Hb|by exists v].
Qed.

Lemma is_contour_on_contour (x y : Z) :
  1 ≤ x ≤ width img - 2 → 1 ≤ y ≤ height img - 2 →
  is_contour binary y x = Some (on_contour img threshold (x, y)).
Proof using Hshape.
  intros Hx Hy. unfold is_contour, on_contour. cbn [fst snd].
  destruct (dark_index2 x y) as [-> _]; [lia..|].
  destruct (dark_index2 x (y - 1)) as [Hu _]; [lia..|].
  destruct (dark_index2 x (y + 1)) as [Hd _]; [lia..|].
  destruct (dark_index2 (x - 1) y) as [Hl _]; [lia..|].
  destruct (dark_index2 (x + 1) y) as [Hr _]; [lia..|].
  simpl. destruct (dark img threshold x y); [|done].
  rewrite Hu. simpl. destruct (dark img threshold x (y - 1)); [|done].
  rewrite Hd. simpl. destruct (dark img threshold x (y + 1)); [|done].
  rewrite Hl. simpl. destruct (dark img threshold (x - 1) y); [|done].
  rewrite Hr. simpl. by destruct (dark img threshold (x + 1) y).
Qed.

(** In the interior, the test of the loop is the claim's description. *)
Lemma on_contour_interior (x y : Z) :
  1 ≤ x ≤ width img - 2 → 1 ≤ y ≤ height img - 2 →
  on_contour img threshold (x, y) = true ↔ interior_contour img threshold (x, y).
Proof using Hshape.
  intros Hx Hy. unfold on_contour, interior_contour, dark. cbn [fst snd].
  destruct (dark_index2 x y) as [_ [v Hv]]; [lia..|].
  destruct (dark_index2 x (y - 1)) as [_ [vu Hu]]; [lia..|].
  destruct (dark_index2 x (y + 1)) as [_ [vd Hd]]; [lia..|].
  destruct (dark_index2 (x - 1) y) as [_ [vl Hl]]; [lia..|].
  destruct (dark_index2 (x + 1) y) as [_ [vr Hr]]; [lia..|].
  rewrite Hv, Hu, Hd, Hl, Hr. split.
  - intros [Hdark Hnb]%andb_prop. apply bool_decide_eq_true in Hdark.
    repeat split; try lia; [by exists v|].
    apply negb_true_iff in Hnb.
    destruct (bool_decide_reflect (vu < threshold)) as [?|Hnu];
      [|exists (x, y - 1), vu; split; [in_neighbours|done]].
    destruct (bool_decide_reflect (vd < threshold)) as [?|Hnd];
      [|exists (x, y + 1), vd; split; [in_neighbours|done]].
    destruct (bool_decide_reflect (vl < threshold)) as [?|Hnl];
      [|exists (x - 1, y), vl; split; [in_neighbours|done]].
    destruct (bool_decide_reflect (vr < threshold)) as [?|Hnr];
      [done|exists (x + 1, y), vr; split; [in_neighbours|done]].
  - intros (_ & _ & (v' & Hv' & Hlt) & (q & w & Hq & Hw & Hnw)).
    simplify_eq. rewrite bool_decide_eq_true_2 by done. simpl.
    apply negb_true_iff.
    unfold neighbours in Hq. rewrite !elem_of_cons in Hq.
    destruct Hq as [->|[->|[->|[->|Hq]]]]; [..|by apply elem_of_nil in Hq];
      cbn [fst snd] in Hw; simplify_eq;
      match goal with
      | H : ¬ ?u < threshold |- _ => rewrite (bool_decide_eq_false_2 (u < threshold) H)
      end;
      by rewrite ?andb_false_r.
Qed.

Lemma scan_row_points (y : Z) (xs : list Z) (paths : list (Z * Z)) :
  1 ≤ y ≤ height img - 2 →
  Forall (λ x, 1 ≤ x ≤ width img - 2) xs →
  scan_row binary y xs paths
  = Some (paths ++ map (λ x, (x, y))
                     (List.filter (λ x, on_contour img threshold (x, y)) xs)).
Proof using Hshape.
  intros Hy Hxs. revert paths.
  induction Hxs as [|x xs Hx _ IH]; intros paths; simpl.
  - by rewrite app_nil_r.
  - rewrite (is_contour_on_contour x y Hx Hy). simpl. rewrite IH.
    destruct (on_contour img threshold (x, y)); [|done].
    simpl. by rewrite <- app_assoc.
Qed.

Lemma scan_rows_points (ys xs : list Z) (paths : list (Z * Z)) :
  Forall (λ y, 1 ≤ y ≤ height img - 2) ys →
  Forall (λ x, 1 ≤ x ≤ width img - 2) xs →
  scan_rows binary ys xs paths
  = Some (paths ++
          flat_map (λ y, map (λ x, (x, y))
                           (List.filter (λ x, on_contour img threshold (x, y)) xs)) ys).
Proof using Hshape.
  intros Hys Hxs. revert paths.
  induction Hys as [|y ys Hy _ IH]; intros paths; simpl.
  - by rewrite app_nil_r.
  - rewrite (scan_row_points y xs paths Hy Hxs). simpl. rewrite IH.
    by rewrite <- app_assoc.
Qed.

(** The two loops compute the list comprehension over the interior. *)
Lemma simple_trace_points :
  simple_trace img threshold
  = Some (flat_map (λ y, map (λ x, (x, y))
                             (List.filter (λ x, on_contour img threshold (x, y))
                                (range 1 (width img - 1))))
            (range 1 (height img - 1)),
          width img, height img).
Proof using Hshape.
  unfold simple_trace, width, height. destruct (size img) as [w h] eqn:Hsize.
  simpl. fold binary.
  rewrite scan_rows_points.
  - done.
  - replace h with (height img) by (unfold height; by rewrite Hsize).
    apply range_interior.
  - replace w with (width img) by (unfold width; by rewrite Hsize).
    apply range_interior.
Qed.

Lemma elem_of_points (p : Z * Z) :
  p ∈ flat_map (λ y, map (λ x, (x, y))
                       (List.filter (λ x, on_contour img threshold (x, y))
                          (range 1 (width img - 1))))
        (range 1 (height img - 1))
  ↔ interior_contour img threshold p.
Proof using Hshape.
  destruct p as [x y]. rewrite list_elem_of_In, in_flat_map. split.
  - intros (y' & Hy' & Hin). apply in_map_iff in Hin as (x' & [= -> ->] & Hx').
    apply filter_In in Hx' as [Hx' Hon].
    apply list_elem_of_In, elem_of_seqZ in Hx'.
    apply list_elem_of_In, elem_of_seqZ in Hy'.
    apply on_contour_interior; [lia..|done].
  - intros Hp. assert (Hb := Hp). destruct Hb as (Hx & Hy & _).
    exists y. split; [apply list_elem_of_In, elem_of_seqZ; lia|].
    apply in_map_iff. exists x. split; [done|].
    apply filter_In. split; [apply list_elem_of_In, elem_of_seqZ; lia|].
    by apply on_contour_interior.
Qed.

(** [simple_trace] finds every pixel of the kind it is after, and no
    other: a point is traced exactly when it lies in the interior, is
    below the threshold and has an orthogonal neighbour that is not. *)
Theorem simple_trace_traces_exactly :
  ∃ paths,
    simple_trace img threshold = Some (paths, width img, height img) ∧
    ∀ p, p ∈ paths ↔ interior_contour img threshold p.
Proof using Hshape.
  eexists. split; [apply simple_trace_points|]. apply elem_of_points.
Qed.

(** The points are listed in the order of the scan, rows from the top and
    each row from the left, so that no point is listed twice: a pixel
    with several bright neighbours is still one point of the trace. *)
Theorem simple_trace_scan_order :
  ∃ paths,
    simple_trace img threshold = Some (paths, width img, height img) ∧
    StronglySorted scanned_before paths ∧ NoDup paths.
Proof using Hshape.
  eexists. split; [apply simple_trace_points|].
  assert (Hs : StronglySorted scanned_before
    (flat_map (λ y, map (λ x, (x, y))
                        (List.filter (λ x, on_contour img threshold (x, y))
                           (range 1 (width img - 1))))
       (range 1 (height img - 1))))
    by (apply rows_sorted; apply range_sorted).
  split; [exact Hs|by apply sorted_NoDup].
Qed.

End Scan.

(** [shape_ok] witnesses on [sample]. *)
Lemma simple_trace_traces_exactly_sample :
  shape_ok sample ∧
  ∃ paths,
    simple_trace sample default_threshold = Some (paths, width sample, height sample) ∧
    ∀ p, p ∈ paths ↔ interior_contour sample default_threshold p.
Proof.
  split; [exact shape_ok_sample|].
  apply (simple_trace_traces_exactly sample default_threshold shape_ok_sample).
Defined.

Lemma simple_trace_scan_order_sample :
  shape_ok sample ∧
  ∃ paths,
    simple_trace sample default_threshold = Some (paths, width sample, height sample) ∧
    StronglySorted scanned_before paths ∧ NoDup paths.
Proof.
  split; [exact shape_ok_sample|].
  apply (simple_trace_scan_order sample default_threshold shape_ok_sample).
Defined.

(** *** The circles of the SVG *)

(** From a running index [i] on, the loop of lines 74-76 picks the points
    whose index is a multiple of ten. *)
Lemma every_tenth_lookup (points : list (Z * Z)) (i k : nat) :
  every_tenth i points !! k
  = circle <$> points !! (10 * k + (10 - i mod 10) mod 10)%nat.
Proof.
  revert i k. induction points as [|p rest IH]; intros i k; [done|].
  pose proof (Nat.mod_upper_bound i 10 ltac:(lia)) as Hi.
  pose proof (Nat.div_mod_eq i 10) as Hi'.
  pose proof (Nat.mod_upper_bound (S i) 10 ltac:(lia)) as Hs.
  pose proof (Nat.div_mod_eq (S i) 10) as Hs'.
  assert (Hnext : ((10 - S i mod 10) mod 10
                   = if Nat.eqb (i mod 10) 0 then 9 else 10 - i mod 10 - 1)%nat).
  { destruct (Nat.eqb_spec (i mod 10) 0) as [H0|H0].
    - assert (S i mod 10 = 1)%nat as -> by lia. done.
    - destruct (decide (i mod 10 = 9)%nat) as [H9|H9].
      + assert (S i mod 10 = 0)%nat as -> by lia. rewrite H9. done.
      + assert (S i mod 10 = S (i mod 10))%nat as -> by lia.
        rewrite Nat.mod_small by lia. lia. }
  cbn [every_tenth]. destruct (Nat.eqb_spec (i mod 10) 0) as [H0|H0].
  - rewrite H0. change ((10 - 0) mod 10)%nat with 0%nat. rewrite Nat.add_0_r.
    destruct k as [|k]; [done|].
    replace (10 * S k)%nat with (S (10 * k + 9))%nat by lia.
    change ((circle p :: every_tenth (S i) rest) !! S k) with (every_tenth (S i) rest !! k).
    change ((p :: rest) !! S (10 * k + 9)%nat) with (rest !! (10 * k + 9)%nat).
    rewrite IH. by rewrite Hnext.
  - rewrite IH, Hnext. rewrite (Nat.mod_small (10 - i mod 10)) by lia.
    replace (10 * k + (10 - i mod 10))%nat with (S (10 * k + (10 - i mod 10 - 1)))%nat by lia.
    done.
Qed.

Lemma circles_lookup (paths : list (Z * Z)) (k : nat) :
  circles paths !! k
  = if decide (k < 100)%nat then circle <$> paths !! (10 * k)%nat else None.
Proof.
  unfold circles. rewrite every_tenth_lookup.
  change ((10 - 0 mod 10) mod 10)%nat with 0%nat. rewrite Nat.add_0_r.
  destruct (decide (k < 100)%nat) as [Hlt|Hge].
  - by rewrite lookup_take_lt by lia.
  - by rewrite lookup_take_ge by lia.
Qed.

(** The SVG shows the points of the trace at the indices 0, 10, 20, ...,
    990 and no others: circle number [k] is drawn at point number [10 k]
    of the trace, and there are at most a hundred circles however many
    points were traced. *)
Theorem circles_sampling (paths : list (Z * Z)) :
  (∀ k : nat, circles paths !! k
              = if decide (k < 100)%nat then circle <$> paths !! (10 * k)%nat else None) ∧
  (length (circles paths) ≤ 100)%nat.
Proof.
  split; [apply circles_lookup|].
  apply lookup_ge_None_1. by rewrite circles_lookup.
Qed.

Lemma circles_elem_of (paths : list (Z * Z)) (line : string) :
  line ∈ circles paths → ∃ p, p ∈ paths ∧ line = circle p.
Proof.
  intros [k Hk]%list_elem_of_lookup_1.
  rewrite circles_lookup in Hk.
  destruct (decide (k < 100)%nat); [|done].
  apply fmap_Some in Hk as (p & Hp & ->).
  exists p. split; [by eapply list_elem_of_lookup_2|done].
Qed.

(** *** Images without a contour *)

(** Nothing is traced on an image that is at most two pixels wide or
    high, since it has no interior, and nothing on an image whose pixels
    lie all below the threshold or all not below it, since a traced
    pixel needs a neighbour on the other side. *)
Theorem simple_trace_empty (img : gray_image) (threshold : Z) :
  shape_ok img →
  width img ≤ 2 ∨ height img ≤ 2 ∨
  (∀ x y v, pixel img x y = Some v → v < threshold) ∨
  (∀ x y v, pixel img x y = Some v → ¬ v < threshold) →
  simple_trace img threshold = Some ([], width img, height img).
Proof.
  intros Hshape Hflat. rewrite (simple_trace_points img threshold Hshape).
  do 3 f_equal. apply elem_of_nil_inv. intros [x y] Hin.
  apply (elem_of_points img threshold Hshape) in Hin.
  destruct Hin as (Hx & Hy & (v & Hv & Hdark) & (q & u & _ & Hu & Hbright)).
  destruct Hflat as [Hw|[Hh|[Hall|Hnone]]]; [lia|lia|..].
  - by apply Hbright, (Hall q.1 q.2).
  - by apply (Hnone x y v).
Qed.

Lemma shape_ok_tiny : shape_ok tiny.
Proof.
  unfold shape_ok. repeat split; try (vm_compute; congruence).
  repeat constructor.
Qed.

Lemma simple_trace_empty_tiny :
  shape_ok tiny ∧
  (width tiny ≤ 2 ∨ height tiny ≤ 2 ∨
   (∀ x y v, pixel tiny x y = Some v → v < 128) ∨
   (∀ x y v, pixel tiny x y = Some v → ¬ v < 128)) ∧
  simple_trace tiny 128 = Some ([], width tiny, height tiny).
Proof.
  assert (Hsmall : width tiny ≤ 2 ∨ height tiny ≤ 2 ∨
                   (∀ x y v, pixel tiny x y = Some v → v < 128) ∨
                   (∀ x y v, pixel tiny x y = Some v → ¬ v < 128))
    by (left; vm_compute; congruence).
  split; [exact shape_ok_tiny|]. split; [exact Hsmall|].
  exact (simple_trace_empty tiny 128 shape_ok_tiny Hsmall).
Defined.

(** *** [create_simple_svg] and [main] *)

Section Converter.

Variable download_image : string → option gray_image.

Local Abbreviation create_simple_svg := (Raster2Svg.create_simple_svg download_image).
Local Abbreviation main := (Raster2Svg.main download_image).

Lemma create_simple_svg_run (image_url : string) (img : gray_image) :
  download_image image_url = Some img → shape_ok img →
  ∃ paths,
    simple_trace img default_threshold = Some (paths, width img, height img) ∧
    create_simple_svg image_url
    = Some (join_lines (svg_lines image_url (width img) (height img) paths)).
Proof.
  intros Himg Hshape.
  pose proof (simple_trace_points img default_threshold Hshape) as Htrace.
  eexists. split; [exact Htrace|].
  unfold Raster2Svg.create_simple_svg. rewrite Himg. simpl.
  unfold width, height in *. destruct (size img) as [w h]. simpl in *.
  by rewrite Htrace.
Qed.

(** Once the image is there, [create_simple_svg] cannot fail: the trace
    raises nothing, and the document is the fixed frame around the
    circles.  Every circle is centred on a traced point, so none lies on
    the border of the image or outside it, and each marks a pixel below
    the default threshold of 128 that has a neighbour which is not. *)
Theorem create_simple_svg_circles (image_url : string) (img : gray_image) :
  download_image image_url = Some img → shape_ok img →
  ∃ paths,
    create_simple_svg image_url
    = Some (join_lines (svg_lines image_url (width img) (height img) paths)) ∧
    ∀ line, line ∈ circles paths →
            ∃ p, line = circle p ∧ interior_contour img 128 p ∧ ¬ on_border img p.
Proof.
  intros Himg Hshape.
  pose proof (simple_trace_points img default_threshold Hshape) as Htrace.
  destruct (create_simple_svg_run image_url img Himg Hshape) as (paths & Htrace' & Hrun).
  rewrite Htrace in Htrace'. injection Htrace' as <-.
  eexists. split; [exact Hrun|].
  intros line (p & Hp & ->)%circles_elem_of. exists p. split; [done|].
  apply (elem_of_points img default_threshold Hshape) in Hp. split; [exact Hp|].
  destruct p as [x y]. destruct Hp as (Hx & Hy & _). unfold on_border. simpl. lia.
Qed.

(** [main] prints a document and ends normally exactly when it is given
    one argument and the image behind it can be fetched; in every other
    case it leaves with status 1 and prints nothing on standard output.
    The images that [download_image] hands over have the shape PIL
    reports. *)
Theorem main_exit_status (argv : list string) :
  (∀ url img, download_image url = Some img → shape_ok img) →
  ((∃ svg, main argv = (0, Some svg)) ↔
   (∃ prog url, argv = [prog; url] ∧ is_Some (download_image url))) ∧
  (main argv = (1, None) ↔
   ¬ ∃ prog url, argv = [prog; url] ∧ is_Some (download_image url)).
Proof.
  intros Hshapes.
  assert (Hrun : ∀ prog url, is_Some (download_image url) →
                             ∃ svg, main [prog; url] = (0, Some svg)).
  { intros prog url [img Himg].
    destruct (create_simple_svg_run url img Himg (Hshapes url img Himg))
      as (paths & _ & Hsvg).
    eexists. unfold Raster2Svg.main. by rewrite Hsvg. }
  assert (Hfail : ∀ prog url, download_image url = None →
                              main [prog; url] = (1, None)).
  { intros prog url Hnone. unfold Raster2Svg.main, Raster2Svg.create_simple_svg.
    by rewrite Hnone. }
  destruct argv as [|prog [|url [|extra argv]]].
  1,2,4: split; [split; [intros [svg [=]]|intros (? & ? & [=] & _)]
               |split; [intros _ (? & ? & [=] & _)|done]].
  destruct (download_image url) as [img|] eqn:Himg.
  - destruct (Hrun prog url) as [svg Hsvg]; [by rewrite Himg|].
    split; split.
    + intros _. exists prog, url. by rewrite Himg.
    + intros _. by exists svg.
    + rewrite Hsvg. intros [=].
    + intros []. exists prog, url. by rewrite Himg.
  - rewrite (Hfail prog url Himg). split; split.
    + intros [svg [=]].
    + intros (? & ? & [= <- <-] & Hsome). rewrite Himg in Hsome. by destruct Hsome.
    + intros _ (? & ? & [= <- <-] & Hsome). rewrite Himg in Hsome. by destruct Hsome.
    + done.
Qed.

End Converter.

Lemma create_simple_svg_circles_sample :
  only_at "http://example.org/a.png" sample "http://example.org/a.png" = Some sample ∧
  shape_ok sample ∧
  ∃ paths,
    create_simple_svg (only_at "http://example.org/a.png" sample) "http://example.org/a.png"
    = Some (join_lines (svg_lines "http://example.org/a.png"
                          (width sample) (height sample) paths)) ∧
    ∀ line, line ∈ circles paths →
            ∃ p, line = circle p ∧ interior_contour sample 128 p ∧ ¬ on_border sample p.
Proof.
  split; [reflexivity|]. split; [exact shape_ok_sample|].
  apply (create_simple_svg_circles (only_at "http://example.org/a.png" sample)
           "http://example.org/a.png" sample);
    [reflexivity|exact shape_ok_sample].
Defined.

Lemma only_at_sample_shape (image_url : string) :
  ∀ url img, only_at image_url sample url = Some img → shape_ok img.
Proof.
  intros url img. unfold only_at.
  destruct (String.eqb url image_url); [|discriminate].
  intros [= <-]. exact shape_ok_sample.
Qed.

Lemma main_exit_status_sample :
  (∀ url img, only_at "http://example.org/a.png" sample url = Some img → shape_ok img) ∧
  ((∃ svg, main (only_at "http://example.org/a.png" sample)
             ["raster2svg.py"; "http://example.org/a.png"] = (0, Some svg)) ↔
   (∃ prog url, ["raster2svg.py"; "http://example.org/a.png"] = [prog; url] ∧
                is_Some (only_at "http://example.org/a.png" sample url))) ∧
  (main (only_at "http://example.org/a.png" sample)
     ["raster2svg.py"; "http://example.org/a.png"] = (1, None) ↔
   ¬ ∃ prog url, ["raster2svg.py"; "http://example.org/a.png"] = [prog; url] ∧
                 is_Some (only_at "http://example.org/a.png" sample url)).
Proof.
  split; [apply only_at_sample_shape|].
  exact (main_exit_status (only_at "http://example.org/a.png" sample)
           ["raster2svg.py"; "http://example.org/a.png"]
           (only_at_sample_shape "http://example.org/a.png")).
Defined.

(** The document for [sample]: one circle, at the first traced point. *)
Example create_simple_svg_sample :
  ∃ svg, create_simple_svg (λ _, Some sample) "a.png" = Some svg ∧
         Py.contains (circle (1, 1)) svg = true ∧
         Py.contains (circle (2, 1)) svg = false.
Proof. eexists. split; [reflexivity|]. split; vm_compute; reflexivity. Qed.

(** Without an argument, and with one too many, [main] gives up. *)
Example main_usage :
  main (λ _, Some sample) ["raster2svg.py"] = (1, None) ∧
  main (λ _, Some sample) ["raster2svg.py"; "a.png"; "b.png"] = (1, None) ∧
  main (only_at "a.png" sample) ["raster2svg.py"; "b.png"] = (1, None).
Proof. repeat split; reflexivity. Qed.

End Raster2SvgFacts.

(** ** src/server/g4f_python_provider.py *)

Module G4fPythonProviderFacts.
Import G4fPythonProvider.

(** *** The pure parts *)

Lemma relay_chunks_clean provider stream raises full_response :
  Forall (λ chunk, is_html chunk = false) stream →
  relay_chunks provider stream raises full_response
  = (map (λ chunk, ChunkEvent chunk provider) stream,
     match raises with
     | Some error => LoopRaised error
     | None => LoopDone (full_response +:+ Py.join stream)
     end).
Proof.
  intros Hclean. revert full_response.
  induction Hclean as [|chunk rest Hchunk _ IH]; intros full_response; simpl.
  - rewrite PyFacts.append_nil_r. by destruct raises.
  - rewrite Hchunk, IH. rewrite PyFacts.append_assoc. by destruct raises.
Qed.

Lemma relay_chunks_html provider pre html post raises full_response :
  Forall (λ chunk, is_html chunk = false) pre → is_html html = true →
  relay_chunks provider (pre ++ html :: post) raises full_response
  = (map (λ chunk, ChunkEvent chunk provider) pre ++ [ErrorEvent html_error_msg],
     LoopDone (full_response +:+ Py.join pre)).
Proof.
  intros Hclean Hhtml. revert full_response.
  induction Hclean as [|chunk rest Hchunk _ IH]; intros full_response; simpl.
  - by rewrite Hhtml, PyFacts.append_nil_r.
  - by rewrite Hchunk, IH, PyFacts.append_assoc.
Qed.

Lemma filter_chunk_events name (stream : list string) :
  List.filter is_chunk_event (map (λ chunk, ChunkEvent chunk name) stream)
  = map (λ chunk, ChunkEvent chunk name) stream.
Proof. induction stream as [|chunk rest IH]; simpl; [done|]. by rewrite IH. Qed.

Lemma first_html_chunk (stream : list string) :
  Exists (λ chunk, is_html chunk = true) stream →
  ∃ pre html post,
    stream = pre ++ html :: post ∧
    Forall (λ chunk, is_html chunk = false) pre ∧ is_html html = true.
Proof.
  induction stream as [|chunk rest IH]; intros Hex; [by inversion Hex|].
  destruct (is_html chunk) eqn:Hchunk.
  - by exists [], chunk, rest.
  - apply Exists_cons in Hex as [Hhere|Hlater]; [congruence|].
    destruct (IH Hlater) as (pre & html & post & -> & Hpre & Hhtml).
    exists (chunk :: pre), html, post. repeat split; [by constructor|done].
Qed.



Lemma apology_is_not_greeting name : apology name ≠ greeting.
Proof.
  unfold apology, greeting. rewrite !PyFacts.append_cons. discriminate.
Qed.

(** What passes the guard of line 334 is a time within a minute, or NaN,
    of which neither comparison holds. *)
Lemma guard_passes (t : float) :
  PrimFloat.leb t 0 || PrimFloat.ltb 60 t = false →
  is_nan t = true ∨ within_a_minute t = true.
Proof.
  intros [Hlo Hhi]%orb_false_elim.
  destruct (is_nan t) eqn:Hnan; [by left|right].
  unfold within_a_minute. apply andb_true_iff. split.
  - by apply PyFacts.leb_false_ltb.
  - by apply PyFacts.ltb_false_leb.
Qed.

Lemma stream_timeout_passed (t : field timeout_value) (v : float) :
  stream_timeout t = Some v → is_nan v = true ∨ within_a_minute v = true.
Proof.
  unfold stream_timeout.
  destruct (py_float (get_or t (IntValue 20000))) as [f| |]; [|by intros [= <-]; right|done].
  cbv zeta. destruct (PrimFloat.leb (f / 1000) 0 || PrimFloat.ltb 60 (f / 1000)) eqn:Hguard.
  - intros [= <-]. by right.
  - intros [= <-]. by apply guard_passes.
Qed.

(** The keys of [provider_map], each with its provider. *)
Lemma registered_names (name : string) (p : capability) :
  provider_map !! name = Some p →
  (name, p) ∈ [("Qwen_Qwen_2_72B", Qwen_Qwen_2_72B);
               ("Qwen_Qwen_2_5_Max", Qwen_Qwen_2_5_Max);
               ("Qwen_Qwen_2_5", Qwen_Qwen_2_5);
               ("Qwen_Qwen_2_5M", Qwen_Qwen_2_5M);
               ("FreeGpt", FreeGpt);
               ("HuggingChat", HuggingChat);
               ("DeepInfra", DeepInfra);
               ("You", You)].
Proof. apply elem_of_list_to_map_2. Qed.

(** For a registered name, and for the default that stands in for
    [None], lines 65-69 apply the floor of the provider that is called. *)
Lemma effective_timeout_floor_table (name : string) (p : capability) (timeout : float) :
  provider_map !! name = Some p →
  effective_timeout name timeout = floor_table p timeout.
Proof.
  intros Hin%registered_names.
  repeat (apply elem_of_cons in Hin as [[= -> ->]|Hin]; [reflexivity|]).
  by apply elem_of_nil in Hin.
Qed.

Lemma first_call_floor_table message specific_provider use_stream timeout :
  registered specific_provider →
  ∃ p, provider_map !! default "Qwen_Qwen_2_72B" specific_provider = Some p ∧
       c_provider (first_call message specific_provider use_stream timeout) = Some p ∧
       c_timeout (first_call message specific_provider use_stream timeout)
       = floor_table p timeout.
Proof.
  destruct specific_provider as [name|]; [intros [p Hp]|intros _].
  2: by exists Qwen_Qwen_2_72B.
  - exists p. unfold first_call. cbn [c_provider c_timeout].
    change (default "Qwen_Qwen_2_72B" (Some name)) with name.
    rewrite Hp. split; [done|]. split; [done|]. by apply effective_timeout_floor_table.
Qed.

(** The providers behind the backup list are four different ones. *)
Lemma backup_capabilities_distinct :
  NoDup ((λ b, provider_map !! b) <$> backup_providers).
Proof. apply (bool_decide_unpack _). vm_compute. exact I. Qed.

Lemma candidates_sublist sp bs : candidates sp bs `sublist_of` bs.
Proof.
  induction bs as [|b bs IH]; simpl; [done|].
  destruct (negb (String.eqb b sp)); by constructor.
Qed.

(** *** Runs of the dispatcher, in any world *)

Section Dispatcher.

Variable World : Type.
Variable create : World → call → outcome * World.
Variable time_time : World → Q * World.
Variable import_error : option string.

Local Abbreviation now := (G4fPythonProvider.now time_time).
Local Abbreviation try_backups := (G4fPythonProvider.try_backups create time_time).
Local Abbreviation get_chat_response :=
  (G4fPythonProvider.get_chat_response create time_time).
Local Abbreviation stream_response_generator :=
  (G4fPythonProvider.stream_response_generator create time_time).
Local Abbreviation event_stream :=
  (G4fPythonProvider.event_stream create time_time import_error).
Local Abbreviation chat := (G4fPythonProvider.chat create time_time import_error).
Local Abbreviation chat_stream :=
  (G4fPythonProvider.chat_stream create time_time import_error).

Lemma try_backups_spec message sp us t t0 bs st :
  ∃ tried,
    (try_backups message sp us t t0 bs st).2.2 = st.2 ++ tried ∧
    map fst tried
      = map (backup_call message us t) (take (length tried) (candidates sp bs)) ∧
    match (try_backups message sp us t t0 bs st).1 with
    | None => Forall failed tried ∧ length tried = length (candidates sp bs)
    | Some r =>
        ∃ pre b resp el,
          tried = pre ++ [(backup_call message us t b, Returned resp)] ∧
          Forall failed pre ∧
          r = answer us resp b (backup_model_for b) el ∧
          b ∈ bs ∧ b ≠ sp
    end.
Proof.
  revert st. induction bs as [|b bs IH]; intros [w l]; simpl.
  - exists []. by rewrite app_nil_r.
  - destruct (String.eqb b sp) eqn:Hb; simpl.
    + destruct (IH (w, l)) as (tried & Hlog & Hcalls & Hres).
      exists tried. split; [done|]. split; [done|].
      destruct (try_backups _ _ _ _ _ bs (w, l)).1 as [r|]; [|done].
      destruct Hres as (pre & b' & resp & el & ? & ? & ? & ? & ?).
      exists pre, b', resp, el. repeat split; try done. by apply list_elem_of_further.
    + apply String.eqb_neq in Hb. unfold bind, G4fPythonProvider.g4f_create. simpl.
      fold (backup_call message us t b).
      destruct (create w (backup_call message us t b)) as [[resp|e] w'] eqn:Hc; simpl.
      * exists [(backup_call message us t b, Returned resp)].
        repeat split; try done.
        exists [], b, resp. eexists. repeat split; try done. apply list_elem_of_here.
      * destruct (IH (w', l ++ [(backup_call message us t b, Raised e)]))
          as (tried & Hlog & Hcalls & Hres).
        exists ((backup_call message us t b, Raised e) :: tried).
        split; [by rewrite Hlog; simpl; rewrite <- app_assoc|].
        split; [by simpl; rewrite Hcalls|].
        destruct (try_backups _ _ _ _ _ bs _).1 as [r|].
        -- destruct Hres as (pre & b' & resp & el & -> & ? & ? & ? & ?).
           exists ((backup_call message us t b, Raised e) :: pre), b', resp, el.
           repeat split; try done; [by constructor|by apply list_elem_of_further].
        -- destruct Hres as [? ?]. split; [by constructor|simpl; by f_equal].
Qed.

(** Every run of [get_chat_response] is of one of three kinds: the first
    call returns; or it raises and the candidates are called in order up
    to the first that returns; or all of them raise as well. *)
Lemma get_chat_response_spec message p us t st :
  let sp := default "Qwen_Qwen_2_72B" p in
  let t' := effective_timeout sp t in
  let run := get_chat_response message p us t st in
  ∃ o tried,
    run.2.2 = st.2 ++ (first_call message p us t, o) :: tried ∧
    match o with
    | Returned resp =>
        tried = [] ∧ ∃ el, run.1 = answer us resp sp (model_for sp) el
    | Raised _ =>
        map fst tried
          = map (backup_call message us t')
              (take (length tried) (candidates sp backup_providers)) ∧
        ((run.1 = soft_failure sp ∧ Forall failed tried ∧
          length tried = length (candidates sp backup_providers)) ∨
         (∃ pre b resp el,
            tried = pre ++ [(backup_call message us t' b, Returned resp)] ∧
            Forall failed pre ∧
            run.1 = answer us resp b (backup_model_for b) el ∧
            b ∈ backup_providers ∧ b ≠ sp))
    end.
Proof.
  intros sp t' run. subst run. destruct st as [w l].
  unfold G4fPythonProvider.get_chat_response, bind, G4fPythonProvider.now,
    G4fPythonProvider.g4f_create.
  cbn [fst snd]. fold sp. fold t'.
  change (Call (model_for sp) message
            (Some (default Qwen_Qwen_2_72B (provider_map !! sp))) us t')
    with (first_call message p us t).
  destruct (time_time w) as [t0 w0] eqn:Ht0. cbn [fst snd].
  destruct (create w0 (first_call message p us t)) as [[resp|e] w1] eqn:Hc;
    cbn [fst snd].
  - exists (Returned resp), []. split; [done|]. split; [done|]. by eexists.
  - exists (Raised e).
    destruct (try_backups_spec message sp us t' t0 backup_providers
                (w1, l ++ [(first_call message p us t, Raised e)]))
      as (tried & Hlog & Hcalls & Hres).
    exists tried.
    set (bk := try_backups message sp us t' t0 backup_providers _) in *.
    split.
    { destruct bk.1; unfold ret; cbn [fst snd] in *; rewrite Hlog;
        by rewrite <- app_assoc. }
    split; [done|].
    destruct bk.1 as [r|]; unfold ret; cbn [fst snd].
    + right. exact Hres.
    + left. by destruct Hres.
Qed.

Lemma attempts_get_chat_response message p us t st :
  ∃ o tried,
    attempts (get_chat_response message p us t) st
      = (first_call message p us t, o) :: tried ∧
    (get_chat_response message p us t st).2.2
      = st.2 ++ (first_call message p us t, o) :: tried.
Proof.
  destruct (get_chat_response_spec message p us t st) as (o & tried & Hlog & _).
  exists o, tried. split; [|done]. unfold attempts. rewrite Hlog.
  apply drop_app_length.
Qed.

(** A run all of whose attempts raised ends in the soft failure. *)
Lemma all_failed_soft_failure message p us t st :
  Forall failed (attempts (get_chat_response message p us t) st) →
  (get_chat_response message p us t st).1
    = soft_failure (default "Qwen_Qwen_2_72B" p).
Proof.
  unfold attempts.
  destruct (get_chat_response_spec message p us t st) as (o & tried & Hlog & Hres).
  rewrite Hlog, drop_app_length. intros Hall.
  apply Forall_cons in Hall as [Ho Htried].
  destruct o as [resp|e]; [done|].
  destruct Hres as (_ & [(Hr & _)|(pre & b & resp & el & -> & _)]); [done|].
  apply Forall_app in Htried as [_ Hlast].
  by apply Forall_cons in Hlast as [? _].
Qed.

(** Without streaming every dict reports success and has no ["error"]. *)
Lemma blocking_result_success message p t st :
  r_success (get_chat_response message p false t st).1 = Some true ∧
  r_error (get_chat_response message p false t st).1 = None.
Proof.
  destruct (get_chat_response_spec message p false t st) as (o & tried & _ & Hres).
  destruct o as [resp|e].
  - destruct Hres as (_ & el & ->). done.
  - destruct Hres as (_ & [(-> & _)|(pre & b & resp & el & _ & _ & -> & _)]); done.
Qed.

(** No dict the dispatcher builds has the key ["error"], so the branch
    of lines 195-203 of the relay is never taken. *)
Lemma result_has_no_error message p us t st :
  r_error (get_chat_response message p us t st).1 = None.
Proof.
  destruct (get_chat_response_spec message p us t st) as (o & tried & _ & Hres).
  destruct o as [resp|e].
  - destruct Hres as (_ & el & ->). by destruct us.
  - destruct Hres as (_ & [(-> & _)|(pre & b & resp & el & _ & _ & -> & _)]);
      [done|by destruct us].
Qed.

(** When the last attempt of a dispatch returned, the dict holds what it
    returned. *)
Lemma last_attempt_returned message p us t st c response :
  last (attempts (get_chat_response message p us t) st) = Some (c, Returned response) →
  ∃ name model el,
    (get_chat_response message p us t st).1 = answer us response name model el.
Proof.
  unfold attempts.
  destruct (get_chat_response_spec message p us t st) as (o & tried & Hlog & Hres).
  rewrite Hlog, drop_app_length. intros Hlast.
  destruct o as [resp|e].
  - destruct Hres as (-> & el & ->). simpl in Hlast. simplify_eq. by eexists _, _, _.
  - destruct Hres as (_ & [(_ & Hall & _)|(pre & b & resp & el & -> & _ & -> & _)]).
    + apply last_Some in Hlast as [l' Hl'].
      assert (Hf : Forall failed ((first_call message p us t, Raised e) :: tried))
        by by constructor.
      rewrite Hl' in Hf. apply Forall_app in Hf as [_ Hf].
      by apply Forall_cons in Hf as [? _].
    + rewrite app_comm_cons, last_snoc in Hlast. simplify_eq. by eexists _, _, _.
Qed.

(** C1. Whenever the preferred provider's attempt and every backup
    attempt of a dispatch raise, [get_chat_response] returns the dict
    with [success = True], the apology string as its text, the preferred
    provider's name followed by ["_fallback"] as its provider and
    ["fallback"] as its model, and no ["error"] entry.  The preferred
    name is the caller's, or ["Qwen_Qwen_2_72B"] when the caller gave
    none. *)
Theorem exhaustion_returns_soft_failure message specific_provider use_stream timeout st :
  Forall failed
    (attempts (get_chat_response message specific_provider use_stream timeout) st) →
  let r := (get_chat_response message specific_provider use_stream timeout st).1 in
  let preferred := default "Qwen_Qwen_2_72B" specific_provider in
  r_success r = Some true ∧
  r_response r = Some (apology preferred) ∧
  r_provider r = preferred +:+ "_fallback" ∧
  r_model r = "fallback" ∧
  r_error r = None.
Proof.
  intros Hall r preferred. subst r.
  by rewrite (all_failed_soft_failure _ _ _ _ _ Hall).
Qed.

(** The walk over the backup list, lines 103-147: after the first call
    has raised, the backups other than the preferred name are called in
    the order of the list, each at most once, and every call of the
    dispatch is given the one timeout computed for the preferred
    provider. *)
Theorem backups_tried_in_order message specific_provider use_stream timeout st :
  let preferred := default "Qwen_Qwen_2_72B" specific_provider in
  let passed := effective_timeout preferred timeout in
  ∃ first tried,
    attempts (get_chat_response message specific_provider use_stream timeout) st
      = first :: tried ∧
    first.1 = first_call message specific_provider use_stream timeout ∧
    (succeeded first → tried = []) ∧
    map fst tried
      = map (backup_call message use_stream passed)
          (take (length tried) (candidates preferred backup_providers)) ∧
    NoDup (map (λ a, c_provider a.1) tried) ∧
    Forall (λ a, c_timeout a.1 = passed) (first :: tried).
Proof.
  intros preferred passed. unfold attempts.
  destruct (get_chat_response_spec message specific_provider use_stream timeout st)
    as (o & tried & Hlog & Hres).
  rewrite Hlog, drop_app_length. eexists _, tried. split; [done|]. split; [done|].
  assert (Hcalls : map fst tried
                   = map (backup_call message use_stream passed)
                       (take (length tried) (candidates preferred backup_providers))).
  { destruct o as [resp|e]; [by destruct Hres as [-> _]|by destruct Hres as [? _]]. }
  split; [|split; [done|split]].
  - unfold succeeded. cbn [snd]. destruct o; [by destruct Hres|done].
  - assert (Hmap : map (λ a, c_provider a.1) tried
                   = (λ b, provider_map !! b)
                       <$> take (length tried) (candidates preferred backup_providers)).
    { by rewrite <- (map_map fst c_provider), Hcalls, map_map. }
    rewrite Hmap. eapply sublist_NoDup; [exact backup_capabilities_distinct|].
    apply fmap_sublist. etrans; [apply sublist_take|apply candidates_sublist].
  - constructor; [done|].
    apply (Forall_map fst (λ c, c_timeout c = passed)). rewrite Hcalls.
    apply Forall_map. by apply Forall_forall.
Qed.

(** The walk stops at the first call that returns: every attempt but the
    last has raised; if the last one returned, the dict is built from
    what it returned; if it raised too, every candidate has been tried
    and the dict is the soft failure. *)
Theorem dispatch_stops_at_first_success message specific_provider use_stream timeout st :
  let preferred := default "Qwen_Qwen_2_72B" specific_provider in
  let run := get_chat_response message specific_provider use_stream timeout st in
  ∃ pre final,
    attempts (get_chat_response message specific_provider use_stream timeout) st
      = pre ++ [final] ∧
    Forall failed pre ∧
    match final.2 with
    | Returned response =>
        ∃ name model el, run.1 = answer use_stream response name model el
    | Raised _ =>
        run.1 = soft_failure preferred ∧
        length pre = length (candidates preferred backup_providers)
    end.
Proof.
  intros preferred run. subst run. unfold attempts.
  destruct (get_chat_response_spec message specific_provider use_stream timeout st)
    as (o & tried & Hlog & Hres).
  rewrite Hlog, drop_app_length.
  destruct o as [resp|e].
  - destruct Hres as (-> & el & ->).
    exists [], (first_call message specific_provider use_stream timeout, Returned resp).
    split; [done|]. split; [done|]. by eexists _, _, _.
  - destruct Hres as (_ & [(-> & Hall & Hlen)|(pre & b & resp & el & -> & Hpre & -> & _)]).
    + destruct tried as [|z tried _] using rev_ind.
      * exists [], (first_call message specific_provider use_stream timeout, Raised e).
        by repeat split.
      * apply Forall_app in Hall as [Hall Hz]. apply Forall_cons in Hz as [Hz _].
        exists ((first_call message specific_provider use_stream timeout, Raised e)
                :: tried), z.
        split; [done|]. split; [by constructor|].
        unfold failed in Hz. destruct z.2; [done|]. split; [done|].
        rewrite length_app in Hlen. cbn [length] in Hlen |- *. unfold preferred. lia.
    + exists ((first_call message specific_provider use_stream timeout, Raised e) :: pre),
        (backup_call message use_stream
           (effective_timeout preferred timeout) b, Returned resp).
      split; [done|]. split; [by constructor|]. by eexists _, _, _.
Qed.

(** What [preamble] does, by the provider of the request. *)
Lemma preamble_returns (provider : option provider_value) (p : option string) :
  preamble import_error provider = inr p ↔
  import_error = None ∧
  ((provider = None ∧ p = None) ∨ ∃ name, provider = Some (Name name) ∧ p = Some name).
Proof.
  unfold preamble. destruct import_error as [e|]; [split; [done|by intros [? _]]|].
  destruct provider as [[name|e]|]; split.
  - intros [= <-]. split; [done|]. right. by exists name.
  - intros (_ & [[? _]|(? & [= <-] & ->)]); done.
  - done.
  - intros (_ & [[? _]|(? & ? & _)]); done.
  - intros [= <-]. split; [done|]. by left.
  - intros (_ & [[_ ->]|(? & ? & _)]); done.
Qed.

Lemma preamble_raises (provider : option provider_value) (error : string) :
  preamble import_error provider = inl error ↔
  import_error = Some error ∨
  (import_error = None ∧ provider = Some (Unhashable error)).
Proof.
  unfold preamble. destruct import_error as [e|].
  { split; [intros [= ->]; by left|intros [[= ->]|[? _]]; done]. }
  destruct provider as [[name|e]|]; split; try done.
  - intros [?|(_ & ?)]; done.
  - intros [= ->]. by right.
  - by intros [?|(_ & [= ->])].
  - intros [?|(_ & ?)]; done.
Qed.

Lemma chat_run data st text p :
  message data = Given text → text ≠ "" →
  preamble import_error (get_or (provider data) (Name "Qwen_Qwen_2_72B")) = inr p →
  chat data st = ((200, Envelope (get_chat_response text p false 20 st).1),
                  (get_chat_response text p false 20 st).2).
Proof.
  intros Hmsg Hne Hp. unfold G4fPythonProvider.chat. rewrite Hmsg, Hp. cbn [get_or].
  by destruct text as [|a text].
Qed.

Lemma chat_raised data st text error :
  message data = Given text → text ≠ "" →
  preamble import_error (get_or (provider data) (Name "Qwen_Qwen_2_72B")) = inl error →
  chat data st = ((500, ErrorDict error ("Ошибка AI провайдера: " +:+ error) "error"), st).
Proof.
  intros Hmsg Hne Hp. unfold G4fPythonProvider.chat. rewrite Hmsg, Hp. cbn [get_or].
  by destruct text as [|a text].
Qed.

(** C7, as the code has it.  A chat request with a non-empty message
    whose provider is missing, [null] or a string is answered, when the
    provider classes import, with status 200 and a dict whose [success]
    is [True] and that has no ["error"] entry, whatever the providers
    do.  When the provider is a list or an object, or when the import
    fails, [get_chat_response] raises before its [try]: the answer is
    status 500 with the dict of lines 240-244, and no provider has been
    called. *)
Theorem chat_success_envelope data st text :
  message data = Given text → text ≠ "" →
  (import_error = None →
   provider data = Absent ∨ provider data = Null ∨
   (∃ name, provider data = Given (Name name)) →
   ∃ r, (chat data st).1 = (200, Envelope r) ∧
        r_success r = Some true ∧ r_error r = None) ∧
  (∀ error,
     import_error = Some error ∨
     (import_error = None ∧ provider data = Given (Unhashable error)) →
     chat data st
     = ((500, ErrorDict error ("Ошибка AI провайдера: " +:+ error) "error"), st)).
Proof.
  intros Hmsg Hne. split.
  - intros Himport Hprovider.
    assert (Hp : ∃ p, preamble import_error
                        (get_or (provider data) (Name "Qwen_Qwen_2_72B")) = inr p).
    { rewrite Himport.
      destruct Hprovider as [->|[->|[name ->]]]; cbn [get_or preamble]; by eexists. }
    destruct Hp as [p Hp]. rewrite (chat_run data st text p Hmsg Hne Hp). cbn [fst].
    eexists. split; [done|]. apply blocking_result_success.
  - intros error Herror. apply (chat_raised data st text error Hmsg Hne).
    apply preamble_raises. destruct Herror as [?|[? Hp]]; [by left|right].
    split; [done|]. by rewrite Hp.
Qed.

(** *** The stream relay *)

(** The generator reads the clock, dispatches, reads the clock once
    more, and its frames are [render] of what it has read. *)
Lemma stream_response_generator_run message provider timeout st :
  stream_response_generator message provider timeout st
  = (render message
       (get_chat_response message provider true timeout (now st).2).1
       (now st).1
       (now (get_chat_response message provider true timeout (now st).2).2).1,
     (now (get_chat_response message provider true timeout (now st).2).2).2).
Proof.
  unfold G4fPythonProvider.stream_response_generator, bind at 1 2. unfold render.
  set (run := get_chat_response message provider true timeout (now st).2).
  destruct (r_streaming run.1) as [[|]|]; try (destruct (r_error run.1); done).
  destruct (r_response_stream run.1) as [response_stream|];
    [|destruct (r_error run.1); done].
  destruct (relay_chunks _ _ _ _) as [frames [full_response|error]]; done.
Qed.

Lemma attempts_stream_response_generator message provider timeout st :
  attempts (stream_response_generator message provider timeout) st
  = attempts (get_chat_response message provider true timeout) (now st).2.
Proof. unfold attempts. by rewrite stream_response_generator_run. Qed.

(** *** The endpoints of the dispatcher *)

Lemma event_stream_returns message provider timeout p :
  preamble import_error provider = inr p →
  event_stream message provider timeout = stream_response_generator message p timeout.
Proof. intros Hp. unfold G4fPythonProvider.event_stream. by rewrite Hp. Qed.




Lemma chat_stream_run data st text t :
  message data = Given text → text ≠ "" →
  stream_timeout (timeout data) = Some t →
  chat_stream data st
  = ((200, EventStream (event_stream text (provider_of data) t st).1),
     (event_stream text (provider_of data) t st).2).
Proof.
  intros Hmsg Hne Ht. unfold G4fPythonProvider.chat_stream. rewrite Hmsg, Ht.
  cbn [get_or]. by destruct text as [|a text].
Qed.

Lemma chat_stream_overflow data st :
  stream_timeout (timeout data) = None →
  chat_stream data st = ((500, InternalServerError), st).
Proof. intros Ht. unfold G4fPythonProvider.chat_stream. by rewrite Ht. Qed.

Lemma attempts_chat_stream data st text t p :
  message data = Given text → text ≠ "" →
  stream_timeout (timeout data) = Some t →
  preamble import_error (provider_of data) = inr p →
  attempts (chat_stream data) st = attempts (stream_response_generator text p t) st.
Proof.
  intros Hmsg Hne Ht Hp. unfold attempts.
  by rewrite (chat_stream_run _ _ _ _ Hmsg Hne Ht), (event_stream_returns _ _ _ _ Hp).
Qed.

Lemma attempts_chat data st text p :
  message data = Given text → text ≠ "" →
  preamble import_error (get_or (provider data) (Name "Qwen_Qwen_2_72B")) = inr p →
  attempts (chat data) st = attempts (get_chat_response text p false 20) st.
Proof.
  intros Hmsg Hne Hp. unfold attempts. by rewrite (chat_run _ _ _ _ Hmsg Hne Hp).
Qed.

Lemma first_attempt_floor_table message specific_provider use_stream timeout st :
  registered specific_provider →
  ∃ first rest p,
    attempts (get_chat_response message specific_provider use_stream timeout) st
      = first :: rest ∧
    provider_map !! default "Qwen_Qwen_2_72B" specific_provider = Some p ∧
    c_provider first.1 = Some p ∧ c_timeout first.1 = floor_table p timeout.
Proof.
  intros Hreg.
  destruct (attempts_get_chat_response message specific_provider use_stream timeout st)
    as (o & tried & -> & _).
  destruct (first_call_floor_table message specific_provider use_stream timeout Hreg)
    as (p & Hname & Hp & Ht).
  by eexists _, _, p.
Qed.

(** C4, as the code has it.  (1) When the preferred provider is [None]
    or a registered name, the first call of a dispatch goes to the
    provider of that name and its timeout is [max(timeout, 45)] for
    Qwen_Qwen_2_72B, [max(timeout, 30)] for Qwen_Qwen_2_5_Max and
    Qwen_Qwen_2_5, and the caller's timeout unchanged for every other
    provider.  (2) Python's [max] returns the larger of two numbers and
    its first argument when that is NaN.  (3) The streaming endpoint
    reads the field ["timeout"] through [float] and divides by 1000: the
    quotient is the caller's timeout unless it is [<= 0] or [> 60], when
    20 is; a NaN passes that test; a missing field stands for 20000; a
    [ValueError] or [TypeError] gives 20; an [OverflowError] is not
    caught, and the request is answered with status 500 before any
    provider is called.  So the caller's timeout is a NaN or lies in
    (0, 60], and nothing raises it to one second.  (4) The chat
    endpoint's caller timeout is 20. *)
Theorem first_attempt_timeout message specific_provider use_stream timeout st :
  (registered specific_provider →
   ∃ first rest p,
     attempts (get_chat_response message specific_provider use_stream timeout) st
       = first :: rest ∧
     provider_map !! default "Qwen_Qwen_2_72B" specific_provider = Some p ∧
     c_provider first.1 = Some p ∧ c_timeout first.1 = floor_table p timeout) ∧
  (∀ floor,
     PrimFloat.is_nan timeout = false → PrimFloat.is_nan floor = false →
     (Py.max timeout floor = timeout ∨ Py.max timeout floor = floor) ∧
     PrimFloat.leb timeout (Py.max timeout floor) = true ∧
     PrimFloat.leb floor (Py.max timeout floor) = true) ∧
  (∀ floor, PrimFloat.is_nan timeout = true → Py.max timeout floor = timeout) ∧
  (∀ data : body,
     match py_float (get_or (G4fPythonProvider.timeout data) (IntValue 20000)) with
     | Float f =>
         stream_timeout (G4fPythonProvider.timeout data)
         = Some (if PrimFloat.leb (f / 1000) 0 || PrimFloat.ltb 60 (f / 1000)
                 then 20%float else (f / 1000)%float)
     | ValueOrTypeError => stream_timeout (G4fPythonProvider.timeout data) = Some 20%float
     | OverflowError =>
         stream_timeout (G4fPythonProvider.timeout data) = None ∧
         chat_stream data st = ((500, InternalServerError), st)
     end ∧
     ∀ t, stream_timeout (G4fPythonProvider.timeout data) = Some t →
       (PrimFloat.is_nan t = true ∨ within_a_minute t = true) ∧
       ∀ text p,
         G4fPythonProvider.message data = Given text → text ≠ "" →
         preamble import_error (provider_of data) = inr p → registered p →
         ∃ first rest q,
           attempts (chat_stream data) st = first :: rest ∧
           provider_map !! default "Qwen_Qwen_2_72B" p = Some q ∧
           c_provider first.1 = Some q ∧ c_timeout first.1 = floor_table q t) ∧
  (∀ (data : body) text p,
     G4fPythonProvider.message data = Given text → text ≠ "" →
     preamble import_error
       (get_or (G4fPythonProvider.provider data) (Name "Qwen_Qwen_2_72B")) = inr p →
     registered p →
     ∃ first rest q,
       attempts (chat data) st = first :: rest ∧
       provider_map !! default "Qwen_Qwen_2_72B" p = Some q ∧
       c_provider first.1 = Some q ∧ c_timeout first.1 = floor_table q 20).
Proof.
  split; [apply first_attempt_floor_table|].
  split; [intros floor Ht Hf; apply (PyFacts.max_numbers _ _ Ht Hf)|].
  split; [intros floor Ht; apply (PyFacts.max_nan _ _ Ht)|].
  split.
  - intros data. split.
    + unfold stream_timeout.
      destruct (py_float _) as [f| |] eqn:Hf; [cbv zeta; by destruct (_ || _)|done|].
      split; [done|]. apply chat_stream_overflow. unfold stream_timeout.
      by rewrite Hf.
    + intros t Ht. split; [by apply (stream_timeout_passed _ _ Ht)|].
      intros text p Hmsg Hne Hp Hreg.
      rewrite (attempts_chat_stream _ _ _ _ _ Hmsg Hne Ht Hp).
      rewrite attempts_stream_response_generator.
      by apply first_attempt_floor_table.
  - intros data text p Hmsg Hne Hp Hreg. rewrite (attempts_chat _ _ _ _ Hmsg Hne Hp).
    by apply first_attempt_floor_table.
Qed.

(** C5. When the provider's stream holds a chunk that contains "<html"
    in any letter case, the relay emits the start event, one chunk event
    for each chunk before the first such chunk, then the error event and
    the closing "done" event with the text gathered so far: no chunk
    event for the HTML chunk or for anything after it. *)
Theorem html_chunk_ends_relay message provider timeout st c response_stream :
  last (attempts (stream_response_generator message provider timeout) st)
    = Some (c, Returned response_stream) →
  Exists (λ chunk, is_html chunk = true) (chunks response_stream) →
  ∃ pre html post name model elapsed,
    chunks response_stream = pre ++ html :: post ∧
    Forall (λ chunk, is_html chunk = false) pre ∧
    is_html html = true ∧
    (stream_response_generator message provider timeout st).1
      = StartEvent name :: map (λ chunk, ChunkEvent chunk name) pre ++
        [ErrorEvent html_error_msg;
         DoneEvent (Some (Py.join pre)) name model elapsed] ∧
    List.filter is_chunk_event
      (stream_response_generator message provider timeout st).1
      = map (λ chunk, ChunkEvent chunk name) pre.
Proof.
  rewrite attempts_stream_response_generator. intros Hlast Hex.
  destruct (last_attempt_returned _ _ _ _ _ _ _ Hlast) as (name & model & el & Hres).
  destruct (first_html_chunk _ Hex) as (pre & html & post & Hsplit & Hpre & Hhtml).
  exists pre, html, post, name, model. eexists.
  split; [done|]. split; [done|]. split; [done|].
  rewrite stream_response_generator_run. cbn [fst]. rewrite Hres.
  unfold render. cbn [answer r_streaming r_response_stream r_provider r_model].
  rewrite Hsplit, (relay_chunks_html _ _ _ _ _ _ Hpre Hhtml). cbn [fst snd].
  rewrite <- app_assoc. split; [done|].
  cbn [List.filter is_chunk_event]. rewrite List.filter_app, filter_chunk_events.
  cbn [List.filter is_chunk_event]. apply app_nil_r.
Qed.


(** C8, as the code has it.  When the message is "привет" and every
    attempt raises, the response text is the apology that names the
    preferred provider, which is not the greeting the Fallback Responder
    has for this message, and the provider ends with ["_fallback"]. *)
Theorem greeting_message_exhaustion specific_provider use_stream timeout st :
  Forall failed
    (attempts (get_chat_response "привет" specific_provider use_stream timeout) st) →
  let r := (get_chat_response "привет" specific_provider use_stream timeout st).1 in
  let preferred := default "Qwen_Qwen_2_72B" specific_provider in
  r_response r = Some (apology preferred) ∧
  apology preferred ≠ greeting ∧
  get_demo_response "привет" = greeting ∧
  Py.endswith "_fallback" (r_provider r) = true.
Proof.
  intros Hall r preferred. subst r.
  rewrite (all_failed_soft_failure _ _ _ _ _ Hall).
  split; [done|]. split; [apply apology_is_not_greeting|]. split; [done|].
  apply PyFacts.endswith_app.
Qed.

End Dispatcher.

(** *** Runs in the worlds of Part I *)

Example dispatch_first_answers :
  (get_chat_response (all_up hello) stopped_clock "hi" (Some "You") false 20 fresh).1
  = {| r_streaming := None; r_success := Some true; r_response := Some "Hello";
       r_provider := "You"; r_model := "gpt-4o-mini"; r_response_stream := None;
       r_elapsed := 0; r_error := None |}.
Proof. reflexivity. Qed.

Example dispatch_backup_answers :
  r_provider (get_chat_response (down_only [FreeGpt; Qwen_Qwen_2_72B] hello)
                stopped_clock "hi" (Some "FreeGpt") false 20 fresh).1
  = "Qwen_Qwen_2_5_Max".
Proof. reflexivity. Qed.

Example relay_plain_stream :
  (stream_response_generator (all_up hello) stopped_clock "hi" (Some "You") 20 fresh).1
  = [StartEvent "You"; ChunkEvent "Hel" "You"; ChunkEvent "lo" "You";
     DoneEvent (Some "Hello") "You" "gpt-4o-mini" 0].
Proof. reflexivity. Qed.

Example relay_blocked_stream :
  (stream_response_generator (all_up blocked) stopped_clock "hi" (Some "You") 20 fresh).1
  = [StartEvent "You"; ChunkEvent "Hello " "You"; ErrorEvent html_error_msg;
     DoneEvent (Some "Hello ") "You" "gpt-4o-mini" 0].
Proof. reflexivity. Qed.

(** A provider that cannot be hashed: the generator yields the frames
    of its [except] clause, and no start event. *)
Example relay_unhashable_provider :
  event_stream (all_up hello) stopped_clock None "hi"
    (Some (Unhashable "unhashable type: 'dict'")) 20 fresh
  = ([ErrorEvent "unhashable type: 'dict'";
      TextEvent (Some (get_demo_response "hi")) "BOOOMERANGS-Error";
      DoneEvent (Some (get_demo_response "hi")) "BOOOMERANGS-Error" "error-mode" 0],
     fresh).
Proof. reflexivity. Qed.

Example demo_greeting : get_demo_response "Привет, как дела?" = greeting.
Proof. reflexivity. Qed.

Example chat_without_message :
  (chat (all_up hello) stopped_clock None (Body Absent (Given (Name "You")) Absent) fresh)
  = ((400, ErrorBody "Отсутствует сообщение"), fresh) ∧
  (chat_stream (all_up hello) stopped_clock None (Body (Given "") Absent Absent) fresh)
  = ((400, ErrorBody "Отсутствует сообщение"), fresh).
Proof. split; reflexivity. Qed.

Example stream_timeout_values :
  stream_timeout (Given (IntValue 45000)) = Some 45%float ∧
  stream_timeout (Given (IntValue 60000)) = Some 60%float ∧
  stream_timeout (Given (IntValue 60001)) = Some 20%float ∧
  stream_timeout (Given (IntValue 0)) = Some 20%float ∧
  stream_timeout (Given (IntValue (-5))) = Some 20%float ∧
  stream_timeout (Given (FloatValue 1500)) = Some 1.5%float ∧
  stream_timeout (Given (FloatValue infinity)) = Some 20%float ∧
  stream_timeout (Given (FloatValue 0x1p-1074)) = Some 20%float ∧
  stream_timeout (Given (FloatValue nan)) = Some nan ∧
  stream_timeout (Given NoNumber) = Some 20%float ∧
  stream_timeout Null = Some 20%float ∧
  stream_timeout Absent = Some 20%float ∧
  stream_timeout (Given (IntValue (10 ^ 400))) = None.
Proof. repeat split; reflexivity. Qed.

(** [float(n)] raises from [2 ** 1024 - 2 ** 970] on, where the nearest
    double would be beyond the largest one. *)
Example float_of_int_limit :
  float_of_int (2 ^ 1024 - 2 ^ 970) = None ∧
  float_of_int (2 ^ 1024 - 2 ^ 970 - 1) = Some 0x1.fffffffffffffp+1023%float ∧
  float_of_int (2 ^ 53 + 1) = Some 0x1p+53%float ∧
  float_of_int (2 ^ 53 + 3) = Some 0x1.0000000000002p+53%float ∧
  float_of_int (- (2 ^ 1024)) = None.
Proof. repeat split; reflexivity. Qed.

Lemma exhaustion_returns_soft_failure_all_down :
  Forall failed
    (attempts (get_chat_response all_down stopped_clock "hi" (Some "FreeGpt") true 20)
       fresh) ∧
  let r := (get_chat_response all_down stopped_clock "hi" (Some "FreeGpt") true 20
              fresh).1 in
  r_success r = Some true ∧
  r_response r = Some (apology "FreeGpt") ∧
  r_provider r = "FreeGpt_fallback" ∧
  r_model r = "fallback" ∧
  r_error r = None.
Proof.
  assert (H : Forall failed
                (attempts (get_chat_response all_down stopped_clock "hi"
                             (Some "FreeGpt") true 20) fresh)).
  { vm_compute. repeat constructor. }
  split; [exact H|].
  exact (exhaustion_returns_soft_failure unit all_down stopped_clock "hi"
           (Some "FreeGpt") true 20 fresh H).
Defined.

Lemma chat_success_envelope_all_down :
  message (Body (Given "привет") Absent Absent) = Given "привет" ∧ "привет" ≠ "" ∧
  ∃ r, (chat all_down stopped_clock None (Body (Given "привет") Absent Absent) fresh).1
       = (200, Envelope r) ∧
       r_success r = Some true ∧ r_error r = None.
Proof.
  split; [reflexivity|]. split; [discriminate|].
  apply (proj1 (chat_success_envelope unit all_down stopped_clock None
                  (Body (Given "привет") Absent Absent) fresh "привет"
                  eq_refl ltac:(discriminate)));
    [reflexivity|left; reflexivity].
Defined.

(** C7, refuted as stated.  The provider of the request is a JSON list:
    the lookup of line 42 cannot hash it, the TypeError leaves
    [get_chat_response] before its [try], and the chat endpoint answers
    with status 500 and a dict that has an ["error"] entry and no
    [success]; no provider has been called.  The same answer is given to
    every request when the provider classes cannot be imported. *)
Lemma unhashable_provider_hard_error :
  chat (all_up hello) stopped_clock None
    (Body (Given "hi") (Given (Unhashable "unhashable type: 'list'")) Absent) fresh
  = ((500, ErrorDict "unhashable type: 'list'"
             "Ошибка AI провайдера: unhashable type: 'list'" "error"), fresh) ∧
  chat (all_up hello) stopped_clock (Some "No module named 'g4f'")
    (Body (Given "hi") Absent Absent) fresh
  = ((500, ErrorDict "No module named 'g4f'"
             "Ошибка AI провайдера: No module named 'g4f'" "error"), fresh).
Proof. split; reflexivity. Qed.

(** C3, where the code departs from it.  "Foo" is not registered.  Line
    42 calls the default provider Qwen_Qwen_2_72B in its place, and the
    rest of the function goes on under the name "Foo": the call carries
    the model "gpt-4o-mini" of line 60 and the caller's 20 seconds, and
    the result names "Foo" as its provider.  When no provider is
    preferred, line 39 renames it first: the same provider is called
    with its model "qwen-2.5-72b" and its floor of 45 seconds, and the
    result names it; a backup that answers is named as well.  In a world
    where Qwen_Qwen_2_72B needs 40 seconds, the dispatch for "Foo" calls
    it twice with 20 seconds and ends in the soft failure, while the
    dispatch without a preferred provider is answered. *)
Lemma unregistered_name_is_reported :
  provider_map !! "Foo" = None ∧
  map (λ a, (c_provider a.1, c_model a.1, c_timeout a.1))
    (attempts (get_chat_response (all_up hello) stopped_clock "hi" (Some "Foo") false 20)
       fresh)
  = [(Some Qwen_Qwen_2_72B, "gpt-4o-mini", 20%float)] ∧
  (get_chat_response (all_up hello) stopped_clock "hi" (Some "Foo") false 20 fresh).1
  = {| r_streaming := None; r_success := Some true; r_response := Some "Hello";
       r_provider := "Foo"; r_model := "gpt-4o-mini"; r_response_stream := None;
       r_elapsed := 0; r_error := None |} ∧
  map (λ a, (c_provider a.1, c_model a.1, c_timeout a.1))
    (attempts (get_chat_response (all_up hello) stopped_clock "hi" None false 20) fresh)
  = [(Some Qwen_Qwen_2_72B, "qwen-2.5-72b", 45%float)] ∧
  (get_chat_response (all_up hello) stopped_clock "hi" None false 20 fresh).1
  = {| r_streaming := None; r_success := Some true; r_response := Some "Hello";
       r_provider := "Qwen_Qwen_2_72B"; r_model := "qwen-2.5-72b";
       r_response_stream := None; r_elapsed := 0; r_error := None |} ∧
  r_provider (get_chat_response (down_only [FreeGpt] hello) stopped_clock "hi"
                (Some "FreeGpt") false 20 fresh).1 = "Qwen_Qwen_2_72B" ∧
  map (λ a, (c_provider a.1, c_timeout a.1))
    (take 2 (attempts (get_chat_response (slow_72b hello) stopped_clock "hi"
                         (Some "Foo") false 20) fresh))
  = [(Some Qwen_Qwen_2_72B, 20%float); (Some Qwen_Qwen_2_72B, 20%float)] ∧
  r_provider (get_chat_response (slow_72b hello) stopped_clock "hi" (Some "Foo")
                false 20 fresh).1 = "Foo_fallback" ∧
  r_provider (get_chat_response (slow_72b hello) stopped_clock "hi" None
                false 20 fresh).1 = "Qwen_Qwen_2_72B".
Proof. repeat split; reflexivity. Qed.

(** C4, refuted as stated.  FreeGpt is not in the floor table.  A request
    for it with 500 ms is passed on with half a second, below the claimed
    lower bound of one second; a request with 70000 ms is passed on with
    20 seconds, where clamping to [1, 60] would give 60; so is a request
    with the smallest positive double, whose quotient by 1000 is zero.
    A NaN is passed on as it is.  An integer beyond the doubles is
    answered with status 500, and no provider is called.  Under a name
    that is not registered Qwen_Qwen_2_72B is called with the caller's
    20 seconds, not with 45. *)
Lemma stream_timeout_is_not_clamped :
  map (λ a, (c_provider a.1, c_timeout a.1))
    (attempts (chat_stream (all_up hello) stopped_clock None
                 (Body (Given "hi") (Given (Name "FreeGpt")) (Given (IntValue 500))))
       fresh)
  = [(Some FreeGpt, 0.5%float)] ∧
  PrimFloat.ltb 0.5 1 = true ∧
  map (λ a, (c_provider a.1, c_timeout a.1))
    (attempts (chat_stream (all_up hello) stopped_clock None
                 (Body (Given "hi") (Given (Name "FreeGpt")) (Given (IntValue 70000))))
       fresh)
  = [(Some FreeGpt, 20%float)] ∧
  map (λ a, (c_provider a.1, c_timeout a.1))
    (attempts (chat_stream (all_up hello) stopped_clock None
                 (Body (Given "hi") (Given (Name "FreeGpt"))
                    (Given (FloatValue 0x1p-1074))))
       fresh)
  = [(Some FreeGpt, 20%float)] ∧
  (∃ t, map (λ a, (c_provider a.1, c_timeout a.1))
          (attempts (chat_stream (all_up hello) stopped_clock None
                       (Body (Given "hi") (Given (Name "Qwen_Qwen_2_72B"))
                          (Given (FloatValue nan))))
             fresh)
        = [(Some Qwen_Qwen_2_72B, t)] ∧
        PrimFloat.is_nan t = true ∧ within_a_minute t = false) ∧
  chat_stream (all_up hello) stopped_clock None
    (Body (Given "hi") (Given (Name "FreeGpt")) (Given (IntValue (10 ^ 400)))) fresh
  = ((500, InternalServerError), fresh) ∧
  map (λ a, (c_provider a.1, c_timeout a.1))
    (attempts (chat (all_up hello) stopped_clock None
                 (Body (Given "hi") (Given (Name "Foo")) Absent))
       fresh)
  = [(Some Qwen_Qwen_2_72B, 20%float)].
Proof.
  split; [reflexivity|]. split; [reflexivity|]. split; [reflexivity|].
  split; [reflexivity|]. split; [|split; reflexivity].
  exists nan. repeat split; reflexivity.
Qed.

Lemma first_attempt_timeout_stream_request :
  stream_timeout (Given (IntValue 5000)) = Some 5%float ∧
  preamble None (Some (Name "Qwen_Qwen_2_5")) = inr (Some "Qwen_Qwen_2_5") ∧
  registered (Some "Qwen_Qwen_2_5") ∧
  ∃ first rest q,
    attempts (chat_stream (all_up hello) stopped_clock None
                (Body (Given "hi") (Given (Name "Qwen_Qwen_2_5")) (Given (IntValue 5000))))
      fresh
      = first :: rest ∧
    provider_map !! default "Qwen_Qwen_2_72B" (Some "Qwen_Qwen_2_5") = Some q ∧
    c_provider first.1 = Some q ∧ c_timeout first.1 = floor_table q 5.
Proof.
  assert (Hreg : registered (Some "Qwen_Qwen_2_5")) by (exists Qwen_Qwen_2_5; reflexivity).
  split; [reflexivity|]. split; [reflexivity|]. split; [exact Hreg|].
  destruct (first_attempt_timeout unit (all_up hello) stopped_clock None "hi" None false 20
              fresh) as (_ & _ & _ & Hstream & _).
  destruct (Hstream (Body (Given "hi") (Given (Name "Qwen_Qwen_2_5"))
                       (Given (IntValue 5000)))) as [_ Hpassed].
  destruct (Hpassed 5%float eq_refl) as [_ Hcall].
  apply (Hcall "hi" (Some "Qwen_Qwen_2_5")); [reflexivity|discriminate|reflexivity|].
  exact Hreg.
Defined.

Lemma html_chunk_ends_relay_blocked :
  last (attempts (stream_response_generator (all_up blocked) stopped_clock "hi"
                    (Some "You") 20) fresh)
    = Some (first_call "hi" (Some "You") true 20, Returned blocked) ∧
  Exists (λ chunk, is_html chunk = true) (chunks blocked) ∧
  ∃ pre html post name model elapsed,
    chunks blocked = pre ++ html :: post ∧
    Forall (λ chunk, is_html chunk = false) pre ∧
    is_html html = true ∧
    (stream_response_generator (all_up blocked) stopped_clock "hi" (Some "You") 20
       fresh).1
      = StartEvent name :: map (λ chunk, ChunkEvent chunk name) pre ++
        [ErrorEvent html_error_msg;
         DoneEvent (Some (Py.join pre)) name model elapsed] ∧
    List.filter is_chunk_event
      (stream_response_generator (all_up blocked) stopped_clock "hi" (Some "You") 20
         fresh).1
      = map (λ chunk, ChunkEvent chunk name) pre.
Proof.
  assert (Hex : Exists (λ chunk, is_html chunk = true) (chunks blocked)).
  { apply Exists_cons_tl, Exists_cons_hd. reflexivity. }
  split; [reflexivity|]. split; [exact Hex|].
  apply (html_chunk_ends_relay unit (all_up blocked) stopped_clock "hi" (Some "You") 20
           fresh (first_call "hi" (Some "You") true 20) blocked);
    [reflexivity|exact Hex].
Defined.



(** C8, refuted as stated: with every provider down, the chat endpoint
    answers "привет" with the apology, not with the greeting. *)
Lemma exhaustion_text_is_not_the_greeting :
  Forall failed
    (attempts (chat all_down stopped_clock None (Body (Given "привет") Absent Absent))
       fresh) ∧
  ∃ r, (chat all_down stopped_clock None (Body (Given "привет") Absent Absent) fresh).1
       = (200, Envelope r) ∧
       r_response r
       = Some "Извините, возникла проблема с провайдером Qwen_Qwen_2_72B. Попробуйте еще раз." ∧
       r_response r ≠ Some (get_demo_response "привет") ∧
       get_demo_response "привет" = greeting.
Proof.
  split; [vm_compute; repeat constructor|].
  eexists. split; [reflexivity|]. split; [reflexivity|]. split; [|reflexivity].
  discriminate.
Qed.

Lemma greeting_message_exhaustion_all_down :
  Forall failed
    (attempts (get_chat_response all_down stopped_clock "привет" None false 20)
       fresh) ∧
  let r := (get_chat_response all_down stopped_clock "привет" None false 20 fresh).1 in
  r_response r = Some (apology "Qwen_Qwen_2_72B") ∧
  apology "Qwen_Qwen_2_72B" ≠ greeting ∧
  get_demo_response "привет" = greeting ∧
  Py.endswith "_fallback" (r_provider r) = true.
Proof.
  assert (H : Forall failed
                (attempts (get_chat_response all_down stopped_clock "привет"
                             None false 20) fresh)).
  { vm_compute. repeat constructor. }
  split; [exact H|].
  exact (greeting_message_exhaustion unit all_down stopped_clock None false 20 fresh H).
Defined.

(** C2, where the code departs from it.  FreeGpt is preferred with the
    default timeout of 20 seconds and is down.  The first backup,
    Qwen_Qwen_2_72B, is called with those 20 seconds, although its own
    floor (line 67) is 45.  In a world where that provider needs 40
    seconds the dispatch therefore ends in the soft failure, while the
    same provider answers when it is the preferred one. *)
Lemma backup_keeps_preferred_timeout :
  map (λ a, (c_provider a.1, c_timeout a.1))
    (attempts (get_chat_response (down_only [FreeGpt] hello) stopped_clock "hi"
                 (Some "FreeGpt") false 20) fresh)
  = [(Some FreeGpt, 20%float); (Some Qwen_Qwen_2_72B, 20%float)] ∧
  effective_timeout "Qwen_Qwen_2_72B" 20 = 45%float ∧
  r_provider (get_chat_response (slow_72b hello) stopped_clock "hi"
                (Some "FreeGpt") false 20 fresh).1 = "FreeGpt_fallback" ∧
  r_provider (get_chat_response (slow_72b hello) stopped_clock "hi"
                (Some "Qwen_Qwen_2_72B") false 20 fresh).1 = "Qwen_Qwen_2_72B".
Proof. repeat split; reflexivity. Qed.

(** The floor of the preferred provider is handed on to backups that
    have none of their own: Qwen_Qwen_2_5M is called with 45 seconds. *)
Example backup_inherits_floor :
  map (λ a, (c_provider a.1, c_timeout a.1))
    (attempts (get_chat_response all_down stopped_clock "hi" None false 20) fresh)
  = [(Some Qwen_Qwen_2_72B, 45%float); (Some Qwen_Qwen_2_5_Max, 45%float);
     (Some Qwen_Qwen_2_5, 45%float); (Some Qwen_Qwen_2_5M, 45%float)].
Proof. reflexivity. Qed.

(** The loop skips the preferred name, not the provider that was called
    under it: for a name that is not registered the default provider is
    called first and once more as the first backup. *)
Example default_provider_called_again :
  map (λ a, (c_provider a.1, c_model a.1))
    (attempts (get_chat_response all_down stopped_clock "hi" (Some "Foo") false 20) fresh)
  = [(Some Qwen_Qwen_2_72B, "gpt-4o-mini"); (Some Qwen_Qwen_2_72B, "qwen-2.5-72b");
     (Some Qwen_Qwen_2_5_Max, "qwen-max"); (Some Qwen_Qwen_2_5, "qwen-2.5");
     (Some Qwen_Qwen_2_5M, "qwen-2.5")].
Proof. reflexivity. Qed.

(** *** More on the runs of the dispatcher *)

Lemma backup_registered (b : string) :
  b ∈ backup_providers → is_Some (provider_map !! b).
Proof.
  unfold backup_providers. rewrite !elem_of_cons.
  intros [->|[->|[->|[->|H]]]]; [by eexists..|by apply elem_of_nil in H].
Qed.

Lemma candidates_length (sp : string) :
  (length (candidates sp backup_providers) ≤ 4)%nat ∧
  (sp ∈ backup_providers → length (candidates sp backup_providers) = 3%nat).
Proof.
  split.
  - apply (sublist_length _ backup_providers), candidates_sublist.
  - unfold backup_providers. rewrite !elem_of_cons.
    intros [->|[->|[->|[->|H]]]]; [done..|by apply elem_of_nil in H].
Qed.


Section Runs.

Variable World : Type.
Variable create : World → call → outcome * World.
Variable time_time : World → Q * World.
Variable import_error : option string.

Local Abbreviation now := (G4fPythonProvider.now time_time).
Local Abbreviation get_chat_response :=
  (G4fPythonProvider.get_chat_response create time_time).
Local Abbreviation stream_response_generator :=
  (G4fPythonProvider.stream_response_generator create time_time).
Local Abbreviation event_stream :=
  (G4fPythonProvider.event_stream create time_time import_error).
Local Abbreviation chat := (G4fPythonProvider.chat create time_time import_error).
Local Abbreviation chat_stream :=
  (G4fPythonProvider.chat_stream create time_time import_error).
Local Abbreviation test := (G4fPythonProvider.test create time_time).

(** A dispatch makes at least one call and at most five, at most four
    when the preferred provider is itself on the backup list.  Every
    call carries the caller's message and streaming flag, and names a
    provider: no backup is ever called without one. *)
Theorem dispatch_calls message specific_provider use_stream timeout st :
  let preferred := default "Qwen_Qwen_2_72B" specific_provider in
  let tried :=
    attempts (get_chat_response message specific_provider use_stream timeout) st in
  (1 ≤ length tried ≤ 5)%nat ∧
  (preferred ∈ backup_providers → (length tried ≤ 4)%nat) ∧
  Forall (λ a, c_message a.1 = message ∧ c_stream a.1 = use_stream ∧
               is_Some (c_provider a.1)) tried.
Proof.
  intros preferred tried. subst tried. unfold attempts.
  destruct (get_chat_response_spec World create time_time
              message specific_provider use_stream timeout st)
    as (o & tried & Hlog & Hres).
  rewrite Hlog, drop_app_length. cbn [length].
  assert (Hcalls : map fst tried
                   = map (backup_call message use_stream
                            (effective_timeout preferred timeout))
                       (take (length tried) (candidates preferred backup_providers))).
  { destruct o as [resp|e]; [by destruct Hres as [-> _]|by destruct Hres as [? _]]. }
  assert (Hlen : (length tried ≤ length (candidates preferred backup_providers))%nat).
  { pose proof (f_equal length Hcalls) as Hl.
    rewrite !length_map, length_take in Hl. lia. }
  destruct (candidates_length preferred) as [H4 H3].
  split; [lia|]. split; [intros Hin; specialize (H3 Hin); lia|].
  constructor; [by repeat split; eexists|].
  apply (Forall_map fst (λ c, c_message c = message ∧ c_stream c = use_stream ∧
                              is_Some (c_provider c))).
  rewrite Hcalls. apply Forall_map, Forall_forall. intros b Hb.
  repeat split. cbn [backup_call c_provider]. apply backup_registered.
  eapply elem_of_sublist; [exact Hb|].
  etrans; [apply sublist_take|apply candidates_sublist].
Qed.

(** The dict is honest about the call that answered: when the last call
    of a dispatch returned, the dict's model is the model that call was
    given, the dict carries what the call returned (the object itself
    when streaming, in a dict without ["success"] and ["response"]; its
    [str()] otherwise), and the provider the dict names is the provider
    that was called, but for an unregistered preferred name, which
    stands for the default provider. *)
Theorem answer_from_last_call message specific_provider use_stream timeout st c response :
  last (attempts (get_chat_response message specific_provider use_stream timeout) st)
    = Some (c, Returned response) →
  let r := (get_chat_response message specific_provider use_stream timeout st).1 in
  r_model r = c_model c ∧
  (if use_stream
   then r_streaming r = Some true ∧ r_response_stream r = Some response ∧
        r_success r = None ∧ r_response r = None
   else r_streaming r = None ∧ r_response_stream r = None ∧
        r_success r = Some true ∧ r_response r = Some (str response)) ∧
  (provider_map !! r_provider r = c_provider c ∨
   (provider_map !! r_provider r = None ∧ c_provider c = Some Qwen_Qwen_2_72B ∧
    specific_provider = Some (r_provider r))).
Proof.
  unfold attempts.
  destruct (get_chat_response_spec World create time_time
              message specific_provider use_stream timeout st)
    as (o & tried & Hlog & Hres).
  rewrite Hlog, drop_app_length. intros Hlast. cbv zeta.
  destruct o as [resp|e].
  - destruct Hres as (-> & el & ->). simpl in Hlast. simplify_eq.
    split; [by destruct use_stream|]. split; [by destruct use_stream|].
    assert (Hp : r_provider (answer use_stream response
                               (default "Qwen_Qwen_2_72B" specific_provider)
                               (model_for (default "Qwen_Qwen_2_72B" specific_provider))
                               el)
                 = default "Qwen_Qwen_2_72B" specific_provider) by by destruct use_stream.
    rewrite Hp. unfold first_call. cbn [c_provider].
    destruct (provider_map !! default "Qwen_Qwen_2_72B" specific_provider)
      as [p|] eqn:Hmap; [by left|right].
    split; [done|]. split; [done|].
    destruct specific_provider as [name|]; [done|]. by vm_compute in Hmap.
  - destruct Hres as (_ & [(_ & Hall & _)|(pre & b & resp & el & -> & _ & -> & _)]).
    + apply last_Some in Hlast as [l' Hl'].
      assert (Hf : Forall failed ((first_call message specific_provider use_stream timeout,
                                   Raised e) :: tried)) by by constructor.
      rewrite Hl' in Hf. apply Forall_app in Hf as [_ Hf].
      by apply Forall_cons in Hf as [? _].
    + rewrite app_comm_cons, last_snoc in Hlast. simplify_eq.
      split; [by destruct use_stream|]. split; [by destruct use_stream|].
      left. by destruct use_stream.
Qed.

(** *** The relay, in any world *)




(** A stream that holds no HTML chunk and ends normally is relayed
    whole: one chunk event per chunk, in order, and a done event whose
    text is the chunks put together. *)
Theorem clean_stream_relayed message provider timeout st c response_stream :
  last (attempts (stream_response_generator message provider timeout) st)
    = Some (c, Returned response_stream) →
  Forall (λ chunk, is_html chunk = false) (chunks response_stream) →
  raises response_stream = None →
  ∃ name model elapsed,
    (stream_response_generator message provider timeout st).1
      = StartEvent name ::
        map (λ chunk, ChunkEvent chunk name) (chunks response_stream) ++
        [DoneEvent (Some (Py.join (chunks response_stream))) name model elapsed] ∧
    omap chunk_of (stream_response_generator message provider timeout st).1
      = chunks response_stream.
Proof.
  rewrite (attempts_stream_response_generator World create time_time).
  intros Hlast Hclean Hraises.
  destruct (last_attempt_returned World create time_time _ _ _ _ _ _ _ Hlast)
    as (name & model & el & Hres).
  rewrite (stream_response_generator_run World create time_time). cbn [fst].
  rewrite Hres. unfold render.
  cbn [answer r_streaming r_response_stream r_provider r_model].
  rewrite (relay_chunks_clean _ _ _ _ Hclean), Hraises. cbn [fst snd].
  change ("" +:+ Py.join (chunks response_stream)) with (Py.join (chunks response_stream)).
  eexists name, model, _. split; [done|].
  cbn [omap list_omap chunk_of]. rewrite omap_app. cbn [omap list_omap chunk_of].
  rewrite app_nil_r. clear. induction (chunks response_stream) as [|chunk rest IH];
    [done|]. cbn. by rewrite IH.
Qed.


(** *** The endpoints *)




End Runs.

Lemma answer_from_last_call_backup :
  last (attempts (get_chat_response (down_only [FreeGpt; Qwen_Qwen_2_72B] hello)
                    stopped_clock "hi" (Some "FreeGpt") false 20) fresh)
    = Some (backup_call "hi" false 20 "Qwen_Qwen_2_5_Max", Returned hello) ∧
  let r := (get_chat_response (down_only [FreeGpt; Qwen_Qwen_2_72B] hello)
              stopped_clock "hi" (Some "FreeGpt") false 20 fresh).1 in
  r_model r = c_model (backup_call "hi" false 20 "Qwen_Qwen_2_5_Max") ∧
  (r_streaming r = None ∧ r_response_stream r = None ∧
   r_success r = Some true ∧ r_response r = Some (str hello)) ∧
  (provider_map !! r_provider r = c_provider (backup_call "hi" false 20 "Qwen_Qwen_2_5_Max") ∨
   (provider_map !! r_provider r = None ∧
    c_provider (backup_call "hi" false 20 "Qwen_Qwen_2_5_Max") = Some Qwen_Qwen_2_72B ∧
    Some "FreeGpt" = Some (r_provider r))).
Proof.
  split; [reflexivity|].
  apply (answer_from_last_call unit (down_only [FreeGpt; Qwen_Qwen_2_72B] hello)
           stopped_clock "hi" (Some "FreeGpt") false 20 fresh
           (backup_call "hi" false 20 "Qwen_Qwen_2_5_Max") hello).
  reflexivity.
Defined.

Lemma clean_stream_relayed_hello :
  last (attempts (stream_response_generator (all_up hello) stopped_clock "hi"
                    (Some "You") 20) fresh)
    = Some (first_call "hi" (Some "You") true 20, Returned hello) ∧
  Forall (λ chunk, is_html chunk = false) (chunks hello) ∧
  raises hello = None ∧
  ∃ name model elapsed,
    (stream_response_generator (all_up hello) stopped_clock "hi" (Some "You") 20 fresh).1
      = StartEvent name ::
        map (λ chunk, ChunkEvent chunk name) (chunks hello) ++
        [DoneEvent (Some (Py.join (chunks hello))) name model elapsed] ∧
    omap chunk_of
      (stream_response_generator (all_up hello) stopped_clock "hi" (Some "You") 20 fresh).1
      = chunks hello.
Proof.
  assert (Hclean : Forall (λ chunk, is_html chunk = false) (chunks hello))
    by (repeat constructor).
  split; [reflexivity|]. split; [exact Hclean|]. split; [reflexivity|].
  apply (clean_stream_relayed unit (all_up hello) stopped_clock "hi" (Some "You") 20 fresh
           (first_call "hi" (Some "You") true 20) hello);
    [reflexivity|exact Hclean|reflexivity].
Defined.



Example test_default_message :
  ∃ run, test all_down stopped_clock (Body Absent Absent Absent) = Some run ∧
         map (λ a, c_message a.1) (attempts run fresh)
         = ["test"; "test"; "test"; "test"; "test"].
Proof. eexists. split; reflexivity. Qed.

(** *** [chat_direct], in any world *)

Section Direct.

Variable Attr : Type.
Variable World : Type.
Variable g4f_Provider : gmap string Attr.
Variable invoke : World → direct_call Attr → direct_outcome * World.
Variable time_time : World → Q * World.

Local Abbreviation chat_direct :=
  (G4fPythonProvider.chat_direct g4f_Provider invoke time_time).
Local Abbreviation direct_provider := (G4fPythonProvider.direct_provider g4f_Provider).

Lemma chat_direct_found data w text provider :
  get_or (d_message data) "" = Some text → text ≠ "" →
  direct_provider (get (d_provider data)) = Some provider →
  let c := DirectCall provider text (get (d_model data)) (get_or (d_timeout data) 20%Q) in
  let run := chat_direct data w in
  run.2 = [c] ∧
  match (invoke (time_time w).2 c).1 with
  | DirectReturned (Text answer) =>
      if is_html answer
      then run.1.1 = direct_error ("Провайдер " +:+ show (get (d_provider data)) +:+
                                   " вернул HTML вместо текста")
      else ∃ elapsed,
             run.1.1 = (200, Answered (Text answer) (show (get (d_provider data)))
                               (get (d_model data)) elapsed)
  | DirectReturned (Dumped json) =>
      ∃ elapsed,
        run.1.1 = (200, Answered (Dumped json) (show (get (d_provider data)))
                          (get (d_model data)) elapsed)
  | DirectReturned (NotSerializable e) => run.1.1 = direct_error e
  | DirectRaised e => run.1.1 = direct_error e
  end.
Proof.
  intros Hmsg Hne Hp c run. subst run c. unfold G4fPythonProvider.chat_direct.
  rewrite Hmsg, Hp. destruct text as [|a text]; [done|]. cbv zeta.
  destruct (invoke _ _).1 as [[answer|json|e]|e]; [destruct (is_html answer)|..];
    cbn [fst snd]; split; try done; by eexists.
Qed.


Lemma chat_direct_no_message data w :
  get_or (d_message data) "" = None ∨ get_or (d_message data) "" = Some "" →
  chat_direct data w = ((400, NoMessage "Отсутствует сообщение"), w, []).
Proof.
  unfold G4fPythonProvider.chat_direct. by intros [->| ->].
Qed.

Lemma chat_direct_no_provider data w text :
  get_or (d_message data) "" = Some text → text ≠ "" →
  direct_provider (get (d_provider data)) = None →
  ∃ error response,
    chat_direct data w = ((404, Failure error response "unknown"), w, []).
Proof.
  intros Hmsg Hne Hp. unfold G4fPythonProvider.chat_direct. rewrite Hmsg, Hp.
  destruct text as [|a text]; [done|]. by eexists _, _.
Qed.


(** A direct request calls the named provider once at most, and never
    another one: there is no failover and no second try.  The call is
    given the message, the model and the timeout of the body as they
    are: the timeout is neither floored nor capped, and is 20 when the
    body has none.  The request is answered with 200 when the call
    returns something other than a text that contains "<html" in any
    letter case and [jsonify] accepts it; when the call raises, returns
    such a text or something [jsonify] rejects, the answer is the 500
    dict, whose provider is ["error"]. *)
Theorem chat_direct_single_call data w :
  let run := chat_direct data w in
  (length run.2 ≤ 1)%nat ∧
  ∀ c, c ∈ run.2 →
    (∃ name, d_provider data = Given name ∧ name ≠ "" ∧
             g4f_Provider !! name = Some (dc_provider c)) ∧
    d_message data = Given (dc_prompt c) ∧
    dc_model c = get (d_model data) ∧
    dc_timeout c = get_or (d_timeout data) 20%Q ∧
    let o := (invoke (time_time w).2 c).1 in
    (run.1.1.1 = 200 ↔
       (∃ answer, o = DirectReturned (Text answer) ∧ is_html answer = false) ∨
       (∃ json, o = DirectReturned (Dumped json))) ∧
    (run.1.1.1 ≠ 200 → ∃ error response, run.1.1 = (500, Failure error response "error")).
Proof.
  intros run. subst run.
  destruct (decide (get_or (d_message data) "" = None ∨
                    get_or (d_message data) "" = Some "")) as [Hmissing|Hgiven].
  { rewrite (chat_direct_no_message data w Hmissing). cbn [fst snd length].
    split; [lia|]. by intros c ?%elem_of_nil. }
  destruct (get_or (d_message data) "") as [text|] eqn:Hmsg; [|by destruct Hgiven; auto].
  assert (Hne : text ≠ "") by (intros ->; destruct Hgiven; auto).
  destruct (direct_provider (get (d_provider data))) as [provider|] eqn:Hp; last first.
  { destruct (chat_direct_no_provider data w text Hmsg Hne Hp) as (e & r & ->).
    cbn [fst snd length]. split; [lia|]. by intros c ?%elem_of_nil. }
  destruct (chat_direct_found data w text provider Hmsg Hne Hp) as [Hcalls Hrun].
  rewrite Hcalls. split; [done|].
  intros c ->%list_elem_of_singleton. cbn [dc_provider dc_prompt dc_model dc_timeout].
  split.
  { unfold G4fPythonProvider.direct_provider in Hp.
    destruct (d_provider data) as [| |name]; try done. cbn [get] in Hp.
    exists name. destruct name as [|b name]; [done|]. by repeat split. }
  split.
  { destruct (d_message data) as [| |m]; cbn [get_or] in Hmsg; by simplify_eq. }
  split; [done|]. split; [done|]. cbv zeta.
  destruct (invoke _ _).1 as [[answer|json|e]|e].
  - destruct (is_html answer) eqn:Hhtml.
    + rewrite Hrun. unfold direct_error. cbn [fst snd].
      split; [split; [done|]|by eexists _, _].
      intros [(? & [= <-] & ?)|(? & [=])]. congruence.
    + destruct Hrun as [el ->]. cbn [fst snd].
      split; [split; [by left; eexists|done]|done].
  - destruct Hrun as [el ->]. cbn [fst snd].
    split; [split; [by right; eexists|done]|done].
  - rewrite Hrun. unfold direct_error. cbn [fst snd].
    split; [split; [done|intros [(? & [=] & _)|(? & [=])]]|by eexists _, _].
  - rewrite Hrun. unfold direct_error. cbn [fst snd].
    split; [split; [done|intros [(? & [=] & _)|(? & [=])]]|by eexists _, _].
Qed.

End Direct.

(** A direct request to the one class there is, and one to a class that
    is not there. *)
Example chat_direct_echo :
  chat_direct one_class echo stopped_clock
    (DirectBody (Given "hi") (Given "Echo") Absent Absent) tt
  = ((200, Answered (Text "hi") "Echo" None 0), tt,
     [DirectCall 0%nat "hi" None (Some 20%Q)]) ∧
  (chat_direct one_class echo stopped_clock
     (DirectBody (Given "<HTML>") (Given "Echo") Absent Absent) tt).1.1.1 = 500 ∧
  (chat_direct one_class echo stopped_clock
     (DirectBody (Given "hi") (Given "FreeGpt") Absent Absent) tt).1.1.1 = 404 ∧
  (chat_direct one_class echo stopped_clock
     (DirectBody (Given "") (Given "FreeGpt") Absent Absent) tt).1.1.1 = 400.
Proof. repeat split; reflexivity. Qed.

End G4fPythonProviderFacts.

(** ** src/server/stream_server.py *)

Module StreamServerFacts.
Import StreamServer.

Section Probe.

Variable Provider : Type.
Variable World : Type.
Variable create : World → call Provider → outcome * World.
Variable providers : gmap string Provider.

Local Abbreviation test_provider := (StreamServer.test_provider create providers).

(** C9. For a name that is not in the registry, [test_provider] answers
    with the "not found" dict of line 191, which depends on the name
    only: any two calls, in whatever worlds, give the same answer; no
    provider is invoked and the world is left as it was. *)
Theorem test_provider_not_found provider_name w1 w2 :
  providers !! provider_name = None →
  (test_provider provider_name w1).1.1 = not_found provider_name ∧
  (test_provider provider_name w1).1.1 = (test_provider provider_name w2).1.1 ∧
  (test_provider provider_name w1).2 = [] ∧
  (test_provider provider_name w1).1.2 = w1.
Proof. intros Hname. unfold StreamServer.test_provider. by rewrite Hname. Qed.

End Probe.

Example test_provider_ok :
  test_provider counting two_providers "You" 0%nat
  = ({| status := "ok"; message := "Провайдер You доступен"; error := None;
        requires_api_key := Some false; response := Some "Test" |},
     1%nat,
     [Call "gpt-3.5-turbo" "Say just one word: Test" 1%nat 5]).
Proof. reflexivity. Qed.

Example test_provider_needs_key :
  (test_provider counting two_providers "Gemini" 0%nat).1.1
  = {| status := "error"; message := "Ошибка при проверке провайдера Gemini";
       error := Some "Missing API_KEY for Gemini";
       requires_api_key := Some true; response := None |}.
Proof. reflexivity. Qed.

Lemma test_provider_not_found_twice :
  two_providers !! "Llama" = None ∧
  (test_provider counting two_providers "Llama" 0%nat).1.1 = not_found "Llama" ∧
  (test_provider counting two_providers "Llama" 0%nat).1.1
  = (test_provider counting two_providers "Llama" 7%nat).1.1 ∧
  (test_provider counting two_providers "Llama" 0%nat).2 = [] ∧
  (test_provider counting two_providers "Llama" 0%nat).1.2 = 0%nat.
Proof.
  split; [reflexivity|].
  apply (test_provider_not_found nat nat counting two_providers "Llama" 0%nat 7%nat).
  reflexivity.
Defined.

(** *** The registry *)

Lemma bool_decide_elem_of_cons (n x : string) (l : list string) :
  bool_decide (n ∈ x :: l) = bool_decide (n = x) || bool_decide (n ∈ l).
Proof.
  destruct (decide (n = x)) as [->|Hne].
  - rewrite (bool_decide_eq_true_2 (x ∈ x :: l)) by apply list_elem_of_here.
    by rewrite (bool_decide_eq_true_2 (x = x)).
  - rewrite (bool_decide_eq_false_2 (n = x)) by done. cbn [orb].
    apply bool_decide_ext. rewrite elem_of_cons. split; [by intros [?|?]|auto].
Qed.

Lemma foldl_insert_0 (l base : list string) :
  foldl insert_0 base l = reverse l ++ base.
Proof.
  revert base. induction l as [|x l IH]; intros base; [done|].
  cbn [foldl]. rewrite IH, reverse_cons, <- app_assoc. done.
Qed.

Section Registry.

Variable Provider : Type.
Variable g4f_Provider : gmap string Provider.
Variable truthy : Provider → bool.
Variable dir : list string.

Local Abbreviation found := (StreamServer.found g4f_Provider truthy).
Local Abbreviation load := (StreamServer.load Provider g4f_Provider truthy).
Local Abbreviation load_llama := (StreamServer.load_llama Provider g4f_Provider truthy).
Local Abbreviation load_gpt := (StreamServer.load_gpt Provider g4f_Provider truthy dir).
Local Abbreviation load_llama3 :=
  (StreamServer.load_llama3 Provider g4f_Provider truthy dir).
Local Abbreviation build := (StreamServer.build g4f_Provider truthy dir).
Local Abbreviation all_provider_names := (StreamServer.all_provider_names dir).

Local Abbreviation llamas := (StreamServer.llamas g4f_Provider truthy).

Lemma found_sound (name : string) (p : Provider) :
  found name = Some p → g4f_Provider !! name = Some p ∧ truthy p = true.
Proof.
  unfold StreamServer.found, get_provider.
  destruct (g4f_Provider !! name) as [q|]; [|done].
  destruct (truthy q) eqn:Hq; [|done]. by intros [= <-].
Qed.

Lemma load_lookup (W : string → bool) (ps : gmap string Provider) (x n : string) :
  (∀ n, ps !! n = if W n then found n else None) →
  load ps x !! n = if W n || bool_decide (n = x) then found n else None.
Proof.
  intros Hps. unfold StreamServer.load.
  destruct (decide (n = x)) as [->|Hne].
  - rewrite bool_decide_eq_true_2, orb_true_r by done.
    destruct (found x) as [p|] eqn:Hx; [by rewrite lookup_insert_eq|].
    rewrite Hps, Hx. by destruct (W x).
  - rewrite (bool_decide_eq_false_2 (n = x)), orb_false_r by done.
    destruct (found x) as [p|]; [by rewrite lookup_insert_ne|done].
Qed.

Lemma foldl_load_lookup (l : list string) (W : string → bool)
    (ps : gmap string Provider) (n : string) :
  (∀ n, ps !! n = if W n then found n else None) →
  foldl load ps l !! n = if W n || bool_decide (n ∈ l) then found n else None.
Proof.
  revert W ps. induction l as [|x l IH]; intros W ps Hps; cbn [foldl].
  - rewrite bool_decide_eq_false_2, orb_false_r by apply not_elem_of_nil. apply Hps.
  - rewrite (IH (λ n, W n || bool_decide (n = x))).
    + by rewrite bool_decide_elem_of_cons, orb_assoc.
    + intros m. by apply load_lookup.
Qed.

Lemma foldl_load_llama (l : list string) (W : string → bool)
    (st : gmap string Provider * list string) :
  (∀ n, st.1 !! n = if W n then found n else None) →
  (∀ n, (foldl load_llama st l).1 !! n
        = if W n || llama_named n && bool_decide (n ∈ l) then found n else None) ∧
  (foldl load_llama st l).2 = st.2 ++ llamas l.
Proof.
  revert W st. induction l as [|x l IH]; intros W st Hst; cbn [foldl].
  - split; [|by rewrite app_nil_r]. intros n.
    rewrite bool_decide_eq_false_2, andb_false_r, orb_false_r by apply not_elem_of_nil.
    apply Hst.
  - destruct (IH (λ n, W n || llama_named n && bool_decide (n = x)) (load_llama st x))
      as [Hmap Hlist].
    + intros n. unfold StreamServer.load_llama.
      destruct (llama_named x) eqn:Hx.
      * destruct (decide (n = x)) as [->|Hne].
        -- rewrite Hx, bool_decide_eq_true_2, orb_true_r by done.
           destruct (found x) as [p|] eqn:Hf; cbn [fst]; [by rewrite lookup_insert_eq|].
           rewrite Hst, Hf. by destruct (W x).
        -- rewrite (bool_decide_eq_false_2 (n = x)), andb_false_r, orb_false_r by done.
           destruct (found x) as [p|]; cbn [fst]; [by rewrite lookup_insert_ne|done].
      * destruct (decide (n = x)) as [->|Hne].
        -- by rewrite Hx, orb_false_r.
        -- by rewrite (bool_decide_eq_false_2 (n = x)), andb_false_r, orb_false_r.
    + split.
      * intros n. rewrite Hmap, bool_decide_elem_of_cons.
        by rewrite andb_orb_distrib_r, orb_assoc.
      * rewrite Hlist. unfold StreamServer.load_llama, StreamServer.llamas. cbn [List.filter].
        destruct (llama_named x); cbn [andb]; [|done].
        destruct (found x) as [p|]; cbn [snd].
        -- rewrite bool_decide_eq_true_2 by by eexists. by rewrite <- app_assoc.
        -- rewrite bool_decide_eq_false_2 by by intros [? ?]. done.
Qed.

Lemma foldl_load_gpt (l : list string) (W : string → bool)
    (st : gmap string Provider * list string) (n : string) :
  (∀ n, st.1 !! n = if W n then found n else None) →
  (foldl load_gpt st l).1 !! n
  = if W n || bool_decide (n ∈ all_provider_names) && bool_decide (n ∈ l)
    then found n else None.
Proof.
  revert W st. induction l as [|x l IH]; intros W st Hst; cbn [foldl].
  - rewrite (bool_decide_eq_false_2 (n ∈ [])), andb_false_r, orb_false_r
      by apply not_elem_of_nil.
    apply Hst.
  - rewrite (IH (λ n, W n || bool_decide (n ∈ all_provider_names) && bool_decide (n = x))).
    + by rewrite bool_decide_elem_of_cons, andb_orb_distrib_r, orb_assoc.
    + intros m. unfold StreamServer.load_gpt.
      destruct (bool_decide_reflect (st.1 !! x = None)) as [Hnone|Hsome]; cbn [andb].
      * destruct (bool_decide_reflect (x ∈ all_provider_names)) as [Hin|Hout].
        -- destruct (decide (m = x)) as [->|Hne].
           ++ rewrite !bool_decide_eq_true_2, orb_true_r by done.
              destruct (found x) as [p|] eqn:Hf; cbn [fst];
                [by rewrite lookup_insert_eq|by rewrite Hnone].
           ++ rewrite (bool_decide_eq_false_2 (m = x)), andb_false_r, orb_false_r by done.
              destruct (found x) as [p|]; cbn [fst]; [by rewrite lookup_insert_ne|done].
        -- rewrite Hst. destruct (decide (m = x)) as [->|Hne].
           ++ by rewrite (bool_decide_eq_false_2 (x ∈ all_provider_names)), orb_false_r.
           ++ by rewrite (bool_decide_eq_false_2 (m = x)), andb_false_r, orb_false_r.
      * rewrite Hst. destruct (decide (m = x)) as [->|Hne].
        -- rewrite Hst in Hsome. destruct (W x); [done|]. done.
        -- by rewrite (bool_decide_eq_false_2 (m = x)), andb_false_r, orb_false_r.
Qed.

Lemma foldl_load_llama3 (l : list string) (W : string → bool)
    (ps : gmap string Provider) (n : string) :
  (∀ n, ps !! n = if W n then found n else None) →
  foldl load_llama3 ps l !! n
  = if W n || bool_decide (n ∈ all_provider_names) && bool_decide (n ∈ l)
    then found n else None.
Proof.
  revert W ps. induction l as [|x l IH]; intros W ps Hps; cbn [foldl].
  - rewrite (bool_decide_eq_false_2 (n ∈ [])), andb_false_r, orb_false_r
      by apply not_elem_of_nil.
    apply Hps.
  - rewrite (IH (λ n, W n || bool_decide (n ∈ all_provider_names) && bool_decide (n = x))).
    + by rewrite bool_decide_elem_of_cons, andb_orb_distrib_r, orb_assoc.
    + intros m. unfold StreamServer.load_llama3.
      destruct (bool_decide_reflect (ps !! x = None)) as [Hnone|Hsome]; cbn [andb].
      * destruct (bool_decide_reflect (x ∈ all_provider_names)) as [Hin|Hout].
        -- rewrite (load_lookup W ps x m Hps).
           destruct (decide (m = x)) as [->|Hne].
           ++ by rewrite !bool_decide_eq_true_2, !orb_true_r.
           ++ by rewrite (bool_decide_eq_false_2 (m = x)), andb_false_r.
        -- rewrite Hps. destruct (decide (m = x)) as [->|Hne].
           ++ by rewrite (bool_decide_eq_false_2 (x ∈ all_provider_names)), orb_false_r.
           ++ by rewrite (bool_decide_eq_false_2 (m = x)), andb_false_r, orb_false_r.
      * rewrite Hps. destruct (decide (m = x)) as [->|Hne].
        -- rewrite Hps in Hsome. destruct (W x); [done|]. done.
        -- by rewrite (bool_decide_eq_false_2 (m = x)), andb_false_r, orb_false_r.
Qed.

Lemma providers_build (name : string) :
  providers build !! name = if wanted dir name then found name else None.
Proof.
  unfold StreamServer.build. cbn [providers].
  assert (H1 : ∀ n, foldl load ∅ wishlist !! n
                    = if false || bool_decide (n ∈ wishlist) then found n else None).
  { intros n. apply (foldl_load_lookup wishlist (λ _, false)). intros m.
    apply lookup_empty. }
  destruct (foldl_load_llama all_provider_names _ (foldl load ∅ wishlist, []) H1)
    as [H2 _].
  pose proof (λ n, foldl_load_gpt gpt_potential_providers _
                     ((foldl load_llama (foldl load ∅ wishlist, []) all_provider_names).1, [])
                     n H2) as H3.
  rewrite (foldl_load_llama3 llama3_providers _ _ name H3).
  unfold wanted. cbn [orb].
  destruct (bool_decide (name ∈ wishlist)); [done|].
  destruct (bool_decide (name ∈ all_provider_names));
    [|by rewrite !andb_false_r]. cbn [andb orb].
  by rewrite !andb_true_r.
Qed.

Lemma llama_providers_build :
  llama_providers build
  = llamas all_provider_names ++
    (if bool_decide (is_Some (providers build !! "HuggingChat")) then ["HuggingChat"] else []) ++
    (if bool_decide (is_Some (providers build !! "Ollama")) then ["Ollama"] else []).
Proof.
  unfold StreamServer.build. cbn [providers llama_providers].
  assert (H1 : ∀ n, foldl load ∅ wishlist !! n
                    = if false || bool_decide (n ∈ wishlist) then found n else None).
  { intros n. apply (foldl_load_lookup wishlist (λ _, false)). intros m.
    apply lookup_empty. }
  destruct (foldl_load_llama all_provider_names _ (foldl load ∅ wishlist, []) H1)
    as [_ ->].
  unfold append_if_loaded. cbn [snd app].
  destruct (bool_decide (is_Some (_ !! "HuggingChat")));
    destruct (bool_decide (is_Some (_ !! "Ollama")));
    by rewrite <- ?app_assoc, ?app_nil_r.
Qed.

Lemma primary_build :
  primary build
  = reverse (llama_providers build) ++
    (if bool_decide (is_Some (providers build !! "Anthropic")) then ["Anthropic"] else []) ++
    primary_base.
Proof.
  unfold StreamServer.build. cbn [providers llama_providers primary].
  set (ll := append_if_loaded _ _ "Ollama" _).
  destruct (bool_decide_reflect (0 < length ll)%nat) as [Hpos|Hzero].
  - rewrite foldl_insert_0. by destruct (bool_decide (is_Some _)).
  - destruct ll; [|cbn in Hzero; lia]. by destruct (bool_decide (is_Some _)).
Qed.

(** The registry holds exactly the names the loops ask for that
    [getattr] finds and that are true, each with the attribute found: a
    name of the wish list, or a public name of the module that contains
    "llama" or is on one of the two other lists.  Nothing else is ever
    registered, and no name is registered with another object than its
    own attribute. *)
Theorem registry_contents (name : string) :
  providers build !! name = (if wanted dir name then found name else None) ∧
  ∀ p, providers build !! name = Some p →
       g4f_Provider !! name = Some p ∧ truthy p = true ∧
       (name ∈ wishlist ∨
        name ∈ dir ∧ String.prefix "_" name = false ∧
        (llama_named name = true ∨ name ∈ gpt_potential_providers ∨
         name ∈ llama3_providers)).
Proof.
  split; [apply providers_build|].
  intros p. rewrite providers_build. unfold wanted.
  destruct (bool_decide_reflect (name ∈ wishlist)) as [Hwish|_]; cbn [orb].
  { intros [? ?]%found_sound. auto. }
  destruct (bool_decide_reflect (name ∈ all_provider_names)) as [Hall|_];
    cbn [andb]; [|done].
  apply list_elem_of_In, filter_In in Hall as [Hdir Hpublic].
  apply list_elem_of_In in Hdir. apply negb_true_iff in Hpublic.
  destruct (llama_named name); cbn [orb].
  { intros [? ?]%found_sound. auto 10. }
  destruct (bool_decide_reflect (name ∈ gpt_potential_providers)); cbn [orb].
  { intros [? ?]%found_sound. auto 10. }
  destruct (bool_decide_reflect (name ∈ llama3_providers)); [|done].
  intros [? ?]%found_sound. auto 10.
Qed.

End Registry.

(** *** The priority groups *)

Section Groups.

Variable Provider : Type.
Variable g4f_Provider : gmap string Provider.
Variable truthy : Provider → bool.
Variable dir : list string.

Local Abbreviation found := (StreamServer.found g4f_Provider truthy).
Local Abbreviation build := (StreamServer.build g4f_Provider truthy dir).
Local Abbreviation all_provider_names := (StreamServer.all_provider_names dir).
Local Abbreviation llamas := (StreamServer.llamas g4f_Provider truthy).

Lemma elem_of_llamas (n : string) (names : list string) :
  n ∈ llamas names ↔ n ∈ names ∧ llama_named n = true ∧ is_Some (found n).
Proof.
  unfold StreamServer.llamas. rewrite list_elem_of_In, filter_In, <- list_elem_of_In.
  rewrite andb_true_iff, bool_decide_eq_true. tauto.
Qed.

Lemma NoDup_llamas : NoDup dir → NoDup (llamas all_provider_names).
Proof.
  intros Hdir. unfold StreamServer.llamas, StreamServer.all_provider_names.
  apply NoDup_ListNoDup. do 2 apply List.NoDup_filter. by apply NoDup_ListNoDup.
Qed.

Lemma ollama_registered :
  is_Some (providers build !! "Ollama") ↔ "Ollama" ∈ llamas all_provider_names.
Proof.
  rewrite (providers_build Provider g4f_Provider truthy dir), elem_of_llamas.
  unfold wanted. change (bool_decide ("Ollama" ∈ wishlist)) with false.
  change (llama_named "Ollama") with true. cbn [orb].
  destruct (bool_decide_reflect ("Ollama" ∈ all_provider_names)) as [Hin|Hout];
    cbn [andb]; [tauto|].
  split; [by intros [? ?]|tauto].
Qed.

(** The llama providers are put in front of the primary group in the
    reverse of the order in which they were found, ahead of Anthropic.
    The group lists Ollama twice whenever Ollama is registered, and has
    no other repetition: Ollama contains "llama", so it is appended by
    the loop of lines 45-52 and again by line 89. *)
Theorem primary_group_order :
  primary build
  = reverse (llama_providers build) ++
    (if bool_decide (is_Some (providers build !! "Anthropic")) then ["Anthropic"] else []) ++
    primary_base ∧
  (NoDup dir → (NoDup (primary build) ↔ providers build !! "Ollama" = None)).
Proof.
  split; [apply primary_build|]. intros Hdir.
  rewrite (primary_build Provider g4f_Provider truthy dir).
  rewrite (llama_providers_build Provider g4f_Provider truthy dir).
  pose proof ollama_registered as Hollama.
  pose proof (NoDup_llamas Hdir) as Hnd.
  assert (Hnamed : ∀ n, n ∈ llamas all_provider_names → llama_named n = true)
    by (intros n Hn; by apply elem_of_llamas in Hn as (_ & ? & _)).
  set (anthropic := if bool_decide (is_Some (providers build !! "Anthropic"))
                    then ["Anthropic"] else []).
  set (hugging := if bool_decide (is_Some (providers build !! "HuggingChat"))
                  then ["HuggingChat"] else []).
  assert (Hrest : NoDup (anthropic ++ primary_base) ∧
                  ∀ n, n ∈ hugging ++ anthropic ++ primary_base → llama_named n = false).
  { subst anthropic hugging.
    destruct (bool_decide (is_Some (providers build !! "Anthropic")));
      destruct (bool_decide (is_Some (providers build !! "HuggingChat")));
      (split; [apply (bool_decide_unpack _); vm_compute; exact I|]);
      intros n Hn; cbn in Hn; unfold primary_base in Hn;
      repeat (apply elem_of_cons in Hn as [->|Hn]; [done|]);
      by apply elem_of_nil in Hn. }
  destruct Hrest as [Hbase Hplain].
  assert (Hhugging : NoDup hugging ∧ ∀ n, n ∈ hugging → n ∉ anthropic ++ primary_base).
  { subst anthropic hugging.
    destruct (bool_decide (is_Some (providers build !! "Anthropic")));
      destruct (bool_decide (is_Some (providers build !! "HuggingChat")));
      (split; [apply (bool_decide_unpack _); vm_compute; exact I|]);
      intros n Hn; cbn in Hn;
      repeat (apply elem_of_cons in Hn as [->|Hn];
                [apply (bool_decide_unpack _); vm_compute; exact I|]);
      by apply elem_of_nil in Hn. }
  destruct Hhugging as [Hhnd Hhbase].
  destruct (bool_decide_reflect (is_Some (providers build !! "Ollama"))) as [Hsome|Hnone].
  - split; [|intros Hcontra; rewrite Hcontra in Hsome; by destruct Hsome].
    intros Hprimary. exfalso.
    apply NoDup_app in Hprimary as (Hrev & _ & _).
    rewrite reverse_Permutation in Hrev.
    apply NoDup_app in Hrev as (_ & Hdisjoint & _).
    apply (Hdisjoint "Ollama"); [by apply Hollama|].
    apply elem_of_app. right. apply list_elem_of_here.
  - split; [intros _; by apply eq_None_not_Some|intros _].
    rewrite app_nil_r. apply NoDup_app. split; [|split; [|exact Hbase]].
    + rewrite reverse_Permutation. apply NoDup_app. split; [exact Hnd|].
      split; [|exact Hhnd].
      intros n Hn Hh. apply Hnamed in Hn.
      rewrite (Hplain n) in Hn; [done|]. apply elem_of_app. by left.
    + intros n Hn Hb. apply elem_of_reverse, elem_of_app in Hn as [Hn|Hn].
      * apply Hnamed in Hn. rewrite (Hplain n) in Hn; [done|].
        apply elem_of_app. by right.
      * by apply (Hhbase n).
Qed.

(** The groups are not checked against the registry.  Whatever the
    module [g4f.Provider] holds, the four names the primary group starts
    with are in it, yet "Qwen_Qwen_3" of the primary group and
    "GeminiPro" of the secondary group are never registered: no loop
    asks for them.  So [test_provider] reports both as not found, in any
    world and without a call. *)
Theorem groups_name_unregistered_providers :
  primary_base ⊆ primary build ∧
  "Qwen_Qwen_3" ∈ primary build ∧ "GeminiPro" ∈ secondary ∧
  ∀ name, name = "Qwen_Qwen_3" ∨ name = "GeminiPro" →
    providers build !! name = None ∧
    ∀ (World : Type) (create : World → call Provider → outcome * World) (w : World),
      test_provider create (providers build) name w = (not_found name, w, []).
Proof.
  assert (Hbase : primary_base ⊆ primary build).
  { rewrite (primary_build Provider g4f_Provider truthy dir).
    intros n Hn. apply elem_of_app. right. apply elem_of_app. by right. }
  split; [exact Hbase|].
  split; [apply Hbase; apply (bool_decide_unpack _); vm_compute; exact I|].
  split; [apply (bool_decide_unpack _); vm_compute; exact I|].
  intros name Hname.
  assert (Hnone : providers build !! name = None).
  { rewrite (providers_build Provider g4f_Provider truthy dir). unfold wanted.
    destruct Hname as [-> | ->].
    - change (bool_decide ("Qwen_Qwen_3" ∈ wishlist)) with false.
      change (llama_named "Qwen_Qwen_3") with false.
      change (bool_decide ("Qwen_Qwen_3" ∈ gpt_potential_providers)) with false.
      change (bool_decide ("Qwen_Qwen_3" ∈ llama3_providers)) with false.
      by rewrite andb_false_r.
    - change (bool_decide ("GeminiPro" ∈ wishlist)) with false.
      change (llama_named "GeminiPro") with false.
      change (bool_decide ("GeminiPro" ∈ gpt_potential_providers)) with false.
      change (bool_decide ("GeminiPro" ∈ llama3_providers)) with false.
      by rewrite andb_false_r. }
  split; [exact Hnone|]. intros World create w.
  unfold StreamServer.test_provider. by rewrite Hnone.
Qed.

End Groups.

(** In [small_module], Ollama is found twice and "__name__" is left out. *)
Example build_small_module :
  llama_providers (build small_module (λ _, true) small_dir) = ["Llama2"; "Ollama"; "Ollama"] ∧
  primary (build small_module (λ _, true) small_dir)
  = ["Ollama"; "Ollama"; "Llama2"; "Qwen_Qwen_2_5_Max"; "Qwen_Qwen_3"; "You"; "DeepInfra"] ∧
  providers (build small_module (λ _, true) small_dir) !! "__name__" = None ∧
  gpt_providers (build small_module (λ _, true) small_dir) = [].
Proof. repeat split; vm_compute; reflexivity. Qed.

Lemma primary_group_order_small :
  NoDup small_dir ∧
  primary (build small_module (λ _, true) small_dir)
  = reverse (llama_providers (build small_module (λ _, true) small_dir)) ++
    (if bool_decide (is_Some (providers (build small_module (λ _, true) small_dir)
                                !! "Anthropic"))
     then ["Anthropic"] else []) ++
    primary_base ∧
  (NoDup small_dir →
   (NoDup (primary (build small_module (λ _, true) small_dir)) ↔
    providers (build small_module (λ _, true) small_dir) !! "Ollama" = None)).
Proof.
  split; [apply (bool_decide_unpack _); vm_compute; exact I|].
  exact (primary_group_order nat small_module (λ _, true) small_dir).
Defined.

(** *** [test_provider] on a registered name *)

Section Probes.

Variable Provider : Type.
Variable World : Type.
Variable create : World → call Provider → outcome * World.
Variable providers : gmap string Provider.

Local Abbreviation test_provider := (StreamServer.test_provider create providers).

(** For a registered name, [test_provider] makes exactly one call: to
    the registered provider, with the model gpt-3.5-turbo, the fixed
    prompt and a timeout of five seconds, whatever the name.  The status
    is "ok" exactly when the call returns, and the response handed back
    is then a beginning of the provider's answer of at most a hundred
    code points: all of it when it is no longer than that. *)
Theorem test_provider_probes_once provider_name provider w :
  providers !! provider_name = Some provider →
  let probe := Call "gpt-3.5-turbo" "Say just one word: Test" provider 5 in
  let run := test_provider provider_name w in
  run.2 = [probe] ∧ run.1.2 = (create w probe).2 ∧
  (status run.1.1 = "ok" ↔ ∃ answer, (create w probe).1 = Returned answer) ∧
  ∀ answer, (create w probe).1 = Returned answer →
    requires_api_key run.1.1 = Some false ∧ error run.1.1 = None ∧
    ∃ text, response run.1.1 = Some text ∧
            String.prefix text answer = true ∧ (Py.len text ≤ 100)%nat ∧
            ((Py.len answer ≤ 100)%nat → text = answer).
Proof.
  intros Hp probe run. subst run. unfold StreamServer.test_provider. rewrite Hp.
  fold probe. destruct (create w probe).1 as [answer|e] eqn:Hout; cbn [fst snd status].
  - split; [done|]. split; [done|]. split; [split; [by eexists|done]|].
    intros ? [= <-]. cbn [requires_api_key error response].
    split; [done|]. split; [done|]. eexists. split; [done|].
    split; [apply PyFacts.slice_to_prefix|].
    split; [apply PyFacts.slice_to_len|apply PyFacts.slice_to_short].
  - split; [done|]. split; [done|]. split; [split; [done|by intros [? ?]]|done].
Qed.

(** When the probe raises, the reply says that the provider requires an
    API key exactly when the lower-cased message of the exception
    contains "key" or "token": the entries "api_key" and "apikey" of the
    list of line 212 never decide. *)
Theorem requires_api_key_key_or_token provider_name provider w e :
  providers !! provider_name = Some provider →
  (create w (Call "gpt-3.5-turbo" "Say just one word: Test" provider 5)).1 = Raised e →
  (test_provider provider_name w).1.1
  = {| status := "error";
       message := "Ошибка при проверке провайдера " +:+ provider_name;
       error := Some e;
       requires_api_key :=
         Some (Py.contains "key" (Py.lower e) || Py.contains "token" (Py.lower e));
       response := None |}.
Proof.
  intros Hp He. unfold StreamServer.test_provider. rewrite Hp, He. cbn [fst].
  f_equal. f_equal. unfold Py.any_in. cbn [existsb]. rewrite orb_false_r.
  destruct (Py.contains "key" (Py.lower e)) eqn:Hkey; [by rewrite !orb_true_r|].
  destruct (Py.contains "api_key" (Py.lower e)) eqn:H1.
  { apply (PyFacts.contains_app_r "api_" "key") in H1. congruence. }
  destruct (Py.contains "apikey" (Py.lower e)) eqn:H2; [|done].
  apply (PyFacts.contains_app_r "api" "key") in H2. congruence.
Qed.

End Probes.

Lemma test_provider_probes_once_you :
  two_providers !! "You" = Some 1%nat ∧
  let probe := Call "gpt-3.5-turbo" "Say just one word: Test" 1%nat 5 in
  let run := test_provider counting two_providers "You" 0%nat in
  run.2 = [probe] ∧ run.1.2 = (counting 0%nat probe).2 ∧
  (status run.1.1 = "ok" ↔ ∃ answer, (counting 0%nat probe).1 = Returned answer) ∧
  ∀ answer, (counting 0%nat probe).1 = Returned answer →
    requires_api_key run.1.1 = Some false ∧ error run.1.1 = None ∧
    ∃ text, response run.1.1 = Some text ∧
            String.prefix text answer = true ∧ (Py.len text ≤ 100)%nat ∧
            ((Py.len answer ≤ 100)%nat → text = answer).
Proof.
  split; [reflexivity|].
  apply (test_provider_probes_once nat nat counting two_providers "You" 1%nat 0%nat).
  reflexivity.
Defined.

Lemma requires_api_key_key_or_token_gemini :
  two_providers !! "Gemini" = Some 2%nat ∧
  (counting 0%nat (Call "gpt-3.5-turbo" "Say just one word: Test" 2%nat 5)).1
    = Raised "Missing API_KEY for Gemini" ∧
  (test_provider counting two_providers "Gemini" 0%nat).1.1
  = {| status := "error";
       message := "Ошибка при проверке провайдера " +:+ "Gemini";
       error := Some "Missing API_KEY for Gemini";
       requires_api_key :=
         Some (Py.contains "key" (Py.lower "Missing API_KEY for Gemini") ||
               Py.contains "token" (Py.lower "Missing API_KEY for Gemini"));
       response := None |}.
Proof.
  split; [reflexivity|]. split; [reflexivity|].
  apply (requires_api_key_key_or_token nat nat counting two_providers "Gemini" 2%nat 0%nat
           "Missing API_KEY for Gemini");
    reflexivity.
Defined.

(** A message about a monkey is taken for a missing key. *)
Example requires_api_key_monkey :
  Py.any_in ["api_key"; "apikey"; "key"; "token"] (Py.lower "No monkey business") = true.
Proof. reflexivity. Qed.

(** *** [get_demo_response] *)

Lemma greeting_words (s : string) :
  Py.any_in ["привет"; "здравствуй"; "hello"; "hi"] s
  = Py.any_in ["привет"; "hello"; "hi"; "здравствуй"] s.
Proof.
  unfold Py.any_in. cbn [existsb].
  destruct (Py.contains "привет" s), (Py.contains "здравствуй" s),
    (Py.contains "hello" s), (Py.contains "hi" s); done.
Qed.

Lemma random_responses_plain (text : string) :
  text ∈ random_responses → text ≠ "" ∧ text ≠ greeting ∧ text ∉ canned.
Proof.
  unfold random_responses. rewrite !elem_of_cons.
  intros [->|[->|[->|H]]]; [..|by apply elem_of_nil in H];
    (split; [done|]); (split; [done|]);
    apply (bool_decide_unpack _); vm_compute; exact I.
Qed.

(** A branch of the responder that answers with a canned text other than
    the greeting. *)
Ltac canned_branch :=
  left; split; [done|]; split; [done|];
  split; [apply (bool_decide_unpack _); vm_compute; exact I|];
  split; [intros H; vm_compute in H; discriminate|done].

Section Demo.

Variable World : Type.
Variable random_choice : World → list string → string * World.

(** [random.choice] hands back an item of the sequence it is given. *)
Hypothesis random_choice_in :
  ∀ w (l : list string), l ≠ [] → (random_choice w l).1 ∈ l.

Local Abbreviation get_demo_response := (StreamServer.get_demo_response random_choice).

Lemma get_demo_response_cases message w :
  (has_keyword message = true ∧ (get_demo_response message w).2 = w ∧
   (get_demo_response message w).1 ∈ canned ∧
   ((get_demo_response message w).1 = greeting ↔
    Py.any_in ["привет"; "здравствуй"; "hello"; "hi"] (Py.lower message) = true)) ∨
  (has_keyword message = false ∧
   Py.any_in ["привет"; "здравствуй"; "hello"; "hi"] (Py.lower message) = false ∧
   get_demo_response message w = random_choice w random_responses).
Proof.
  unfold StreamServer.get_demo_response, has_keyword.
  destruct (Py.any_in ["привет"; "здравствуй"; "hello"; "hi"] (Py.lower message));
    cbn [orb fst snd].
  { left. split; [done|]. split; [done|]. split; [apply list_elem_of_here|done]. }
  destruct (Py.any_in ["как дела"; "как ты"; "how are you"] (Py.lower message));
    cbn [orb fst snd]; [canned_branch|].
  destruct (Py.any_in ["изображен"; "картин"; "image"; "picture"] (Py.lower message));
    cbn [orb fst snd]; [canned_branch|].
  destruct (Py.contains "бот" (Py.lower message));
    cbn [orb fst snd]; [canned_branch|].
  destruct (Py.any_in ["booomerangs"; "буумеранг"] (Py.lower message));
    cbn [orb fst snd]; [canned_branch|].
  by right.
Qed.

(** The stream server's responder answers with one of eight fixed,
    non-empty texts.  When the message holds one of the keywords the
    answer is one of the five canned texts and the random generator is
    left alone; only when it holds none is the generator asked, once,
    and the answer is one of the three random texts. *)
Theorem demo_response_pool message w :
  let run := get_demo_response message w in
  run.1 ≠ "" ∧ run.1 ∈ canned ++ random_responses ∧
  (has_keyword message = true → run.1 ∈ canned ∧ run.2 = w) ∧
  (has_keyword message = false →
     run = random_choice w random_responses ∧ run.1 ∈ random_responses).
Proof.
  intros run. subst run.
  assert (Hrandom : (random_choice w random_responses).1 ∈ random_responses)
    by by apply random_choice_in.
  destruct (get_demo_response_cases message w)
    as [(Hkw & Hw & Hin & _)|(Hkw & _ & Hrun)].
  - rewrite Hkw. split.
    { intros Hempty. rewrite Hempty in Hin. revert Hin.
      apply (bool_decide_unpack _). vm_compute. exact I. }
    split; [apply elem_of_app; by left|]. split; [done|done].
  - rewrite Hkw, Hrun. split; [by apply random_responses_plain|].
    split; [apply elem_of_app; by right|]. split; [done|done].
Qed.

(** The two servers agree on which messages are greetings: a message
    gets the stream server's greeting exactly when it gets the greeting
    of the provider server, the keyword lists being the same but for
    their order. *)
Theorem servers_agree_on_greetings message w :
  (get_demo_response message w).1 = greeting ↔
  G4fPythonProvider.get_demo_response message = G4fPythonProvider.greeting.
Proof.
  assert (Hrandom : (random_choice w random_responses).1 ∈ random_responses)
    by by apply random_choice_in.
  assert (Hg4f : G4fPythonProvider.get_demo_response message = G4fPythonProvider.greeting ↔
                 Py.any_in ["привет"; "здравствуй"; "hello"; "hi"] (Py.lower message) = true).
  { rewrite greeting_words. unfold G4fPythonProvider.get_demo_response.
    destruct (Py.any_in ["привет"; "hello"; "hi"; "здравствуй"] (Py.lower message));
      [done|].
    repeat match goal with |- context [if ?b then _ else _] => destruct b end;
      (split; [intros H; vm_compute in H; discriminate|done]). }
  rewrite Hg4f.
  destruct (get_demo_response_cases message w)
    as [(_ & _ & _ & Hiff)|(_ & Hnone & Hrun)]; [exact Hiff|].
  rewrite Hrun, Hnone. split; [|done].
  intros Hgreet. apply random_responses_plain in Hrandom as (_ & Hne & _). done.
Qed.

End Demo.

Lemma pick_first_in :
  ∀ (w : nat) (l : list string), l ≠ [] → (pick_first w l).1 ∈ l.
Proof. intros w [|x l] Hl; [done|]. apply list_elem_of_here. Qed.

Lemma demo_response_pool_weather :
  (∀ (w : nat) (l : list string), l ≠ [] → (pick_first w l).1 ∈ l) ∧
  let run := get_demo_response pick_first "Какая сегодня погода?" 0%nat in
  run.1 ≠ "" ∧ run.1 ∈ canned ++ random_responses ∧
  (has_keyword "Какая сегодня погода?" = true → run.1 ∈ canned ∧ run.2 = 0%nat) ∧
  (has_keyword "Какая сегодня погода?" = false →
     run = pick_first 0%nat random_responses ∧ run.1 ∈ random_responses).
Proof.
  split; [exact pick_first_in|].
  exact (demo_response_pool nat pick_first pick_first_in "Какая сегодня погода?" 0%nat).
Defined.

Lemma servers_agree_on_greetings_hello :
  (∀ (w : nat) (l : list string), l ≠ [] → (pick_first w l).1 ∈ l) ∧
  ((get_demo_response pick_first "HELLO there" 0%nat).1 = greeting ↔
   G4fPythonProvider.get_demo_response "HELLO there" = G4fPythonProvider.greeting).
Proof.
  split; [exact pick_first_in|].
  exact (servers_agree_on_greetings nat pick_first pick_first_in "HELLO there" 0%nat).
Defined.

(** A message with a keyword leaves the generator alone; one without
    asks it. *)
Example get_demo_response_runs :
  get_demo_response pick_first "Ты бот?" 0%nat = (about_bot, 0%nat) ∧
  (get_demo_response pick_first "Какая сегодня погода?" 0%nat).2 = 1%nat.
Proof. split; reflexivity. Qed.

End StreamServerFacts.
